(** * crawl4react-rag: a shallow embedding of the validators and the graph builder

    The development follows the Python sources under [knowledge_graphs/]:
    - [rpc_parameter_validator.py]  (module [Rpc])
    - [supabase_analyzer.py]        (modules [Catalog] and [Introspector])
    - [comprehensive_validator.py]  (modules [Confidence], [Reporting] and
                                     [ReactChecks])
    - [typescript_analyzer.py]      (modules [TsAnalyzer] and [TsWalkers])
    - [parse_repo_into_neo4j.py]    (module [GraphBuilder])

    Conventions.  A Python [str] is a Rocq [string] whose characters are the
    code points below 256.  A Python [dict] is an association list in
    insertion order; a well-formed one has pairwise distinct keys.  Python
    floats are read as exact rationals ([Q]); the theorems state of a float
    value an equality that rounding keeps (with 0, one half or 1) or bounds
    that leave room for rounding, and the lemmas behind them are in exact
    arithmetic.  The parameters of a catalog function have names that are
    strings.  A raised exception is an explicit constructor of the result
    type. *)

From Stdlib Require Import String Ascii List ZArith QArith Qminmax Lqa Bool Lia
  Arith.
From Stdlib Require Import DecimalString DecimalZ DecimalNat.
Import ListNotations.
Close Scope Q_scope.
Open Scope string_scope.
Set Warnings "-register-all".

(* ================================================================== *)
(** ** Python values and the built-ins the sources rely on *)
(* ================================================================== *)

Module Py.

(** Values that can reach the validators: what [json.loads] produces, plus
    the literals of the test schemas. *)
Inductive value : Type :=
| VNone
| VBool (b : bool)
| VInt (z : Z)
| VFloat (q : Q)
| VStr (s : string)
| VList (items : list value)
| VDict (items : list (string * value)).

(** [bool(v)] *)
Definition truthy (v : value) : bool :=
  match v with
  | VNone => false
  | VBool b => b
  | VInt z => negb (Z.eqb z 0)
  | VFloat q => negb (Qeq_bool q 0)
  | VStr s => negb (String.eqb s "")
  | VList l => match l with [] => false | _ :: _ => true end
  | VDict d => match d with [] => false | _ :: _ => true end
  end.

(** [type(v).__name__] *)
Definition type_name (v : value) : string :=
  match v with
  | VNone => "NoneType"
  | VBool _ => "bool"
  | VInt _ => "int"
  | VFloat _ => "float"
  | VStr _ => "str"
  | VList _ => "list"
  | VDict _ => "dict"
  end.

(** *** Dictionaries in insertion order *)

Definition dict (V : Type) : Type := list (string * V).

Fixpoint dict_get {V : Type} (d : dict V) (k : string) : option V :=
  match d with
  | [] => None
  | (k', v) :: d' => if String.eqb k' k then Some v else dict_get d' k
  end.

(** [k in d] *)
Definition dict_mem {V : Type} (d : dict V) (k : string) : bool :=
  match dict_get d k with Some _ => true | None => false end.

(** [d[k] = v]: an existing key keeps its position, a new key goes last. *)
Fixpoint dict_set {V : Type} (d : dict V) (k : string) (v : V) : dict V :=
  match d with
  | [] => [(k, v)]
  | (k', v') :: d' =>
      if String.eqb k' k then (k', v) :: d' else (k', v') :: dict_set d' k v
  end.

Definition dict_keys {V : Type} (d : dict V) : list string := map fst d.

(** The dict after [for a in l: d[kf(a)] = vf(a)]. *)
Definition filled {A V : Type} (kf : A -> string) (vf : A -> V) (l : list A)
    (d : dict V) : dict V :=
  fold_left (fun d a => dict_set d (kf a) (vf a)) l d.

(** [len(d)] *)
Definition dict_len {V : Type} (d : dict V) : nat := length d.

(** The strings of [l], each once, at the place where it occurs first: the
    keys of the dict that [for a in l: d[a] = ...] fills from an empty one. *)
Fixpoint first_occurrences (l : list string) : list string :=
  match l with
  | [] => []
  | k :: l' =>
      k :: filter (fun k' => negb (String.eqb k k')) (first_occurrences l')
  end.

(** [x in xs] for a list of strings *)
Definition str_in (x : string) (xs : list string) : bool :=
  existsb (String.eqb x) xs.

(** [opt if opt is present else dflt]: [d.get(key, dflt)] on an optional key *)
Definition get_or {A : Type} (o : option A) (dflt : A) : A :=
  match o with Some a => a | None => dflt end.

(** *** Characters and strings *)

Definition code (c : ascii) : nat := nat_of_ascii c.

Definition between (lo hi : nat) (c : ascii) : bool :=
  (lo <=? code c)%nat && (code c <=? hi)%nat.

Definition is_digit (c : ascii) : bool := between 48 57 c.

Definition is_hex (c : ascii) : bool :=
  is_digit c || between 97 102 c || between 65 70 c.

(** [str.isspace] on one code point below 256 *)
Definition is_space (c : ascii) : bool :=
  between 9 13 c || between 28 32 c
  || (code c =? 133)%nat || (code c =? 160)%nat.

(** [str.lower] on one code point below 256 *)
Definition lower_char (c : ascii) : ascii :=
  if between 65 90 c then ascii_of_nat (code c + 32)
  else if between 192 222 c && negb (code c =? 215)%nat
       then ascii_of_nat (code c + 32)
       else c.

Fixpoint lower (s : string) : string :=
  match s with
  | EmptyString => EmptyString
  | String c s' => String (lower_char c) (lower s')
  end.

Fixpoint lstrip (l : list ascii) : list ascii :=
  match l with
  | [] => []
  | c :: l' => if is_space c then lstrip l' else l
  end.

(** [s.strip()] *)
Definition strip (s : string) : string :=
  string_of_list_ascii
    (rev (lstrip (rev (lstrip (list_ascii_of_string s))))).

(** [sep.join(xs)] *)
Definition join (sep : string) (xs : list string) : string :=
  String.concat sep xs.

(** The double quote, for the one message that contains it. *)
Definition dquote : string := String (ascii_of_nat 34) EmptyString.

Definition str_of_nat (n : nat) : string :=
  NilZero.string_of_uint (Nat.to_uint n).

Definition str_of_Z (z : Z) : string :=
  NilZero.string_of_int (Z.to_int z).

(** *** Anchored patterns

    The regular expressions of the validator are sequences of single
    character classes, each between [^] and [$], tried with [re.match].
    [$] matches at the end of the string and just before a final newline. *)

Inductive atom : Type :=
| Hex                    (* [0-9a-fA-F] *)
| Digit                  (* \d *)
| Lit (c : ascii)
| Opt (c : ascii).       (* c? *)

Definition at_end (s : string) : bool :=
  match s with
  | EmptyString => true
  | String c EmptyString => (code c =? 10)%nat
  | String _ (String _ _) => false
  end.

Definition eat (ok : ascii -> bool) (k : string -> bool) (s : string) : bool :=
  match s with
  | EmptyString => false
  | String c s' => ok c && k s'
  end.

Fixpoint re_match (p : list atom) (s : string) : bool :=
  match p with
  | [] => at_end s
  | Hex :: p' => eat is_hex (re_match p') s
  | Digit :: p' => eat is_digit (re_match p') s
  | Lit c :: p' => eat (Ascii.eqb c) (re_match p') s
  | Opt c :: p' => eat (Ascii.eqb c) (re_match p') s || re_match p' s
  end.

Definition times (n : nat) (a : atom) : list atom := repeat a n.

(** *** Strings as lists of characters *)

Definition chars (s : string) : list ascii := list_ascii_of_string s.
Definition text (l : list ascii) : string := string_of_list_ascii l.

(** *** [int(s)]

    White space around the number is passed over: the characters
    9 to 13, 32, 133 and 160 (the separators 28 to 31, which [strip]
    removes, are not accepted here).  Then an optional sign and decimal
    digits, which single underscores may group.  A number of more digits
    than the interpreter's limit is refused. *)

Definition is_int_space (c : ascii) : bool :=
  between 9 13 c || (code c =? 32)%nat || (code c =? 133)%nat
  || (code c =? 160)%nat.

Fixpoint drop_int_space (l : list ascii) : list ascii :=
  match l with
  | [] => []
  | c :: l' => if is_int_space c then drop_int_space l' else l
  end.

(** [sys.get_int_max_str_digits()], at its default *)
Definition int_max_str_digits : nat := 4300.

(** The value and the number of the digits of [l]; [None] when [l] is not
    made of groups of digits separated by single underscores. *)
Fixpoint digits_value (need_digit : bool) (value : Z) (count : nat)
    (l : list ascii) : option (Z * nat) :=
  match l with
  | [] => if need_digit then None else Some (value, count)
  | c :: l' =>
      if is_digit c
      then digits_value false (value * 10 + Z.of_nat (code c - 48))%Z
             (S count) l'
      else if Ascii.eqb c "_"%char && negb need_digit
           then digits_value true value count l'
           else None
  end.

(** [int(s)]: [None] is [ValueError]. *)
Definition int_of_str (s : string) : option Z :=
  match rev (drop_int_space (rev (drop_int_space (chars s)))) with
  | [] => None
  | c :: l' =>
      let signed := Ascii.eqb c "+"%char || Ascii.eqb c "-"%char in
      match digits_value true 0 0 (if signed then l' else c :: l') with
      | Some (value, count) =>
          if (count <=? int_max_str_digits)%nat
          then Some (if Ascii.eqb c "-"%char then - value else value)%Z
          else None
      | None => None
      end
  end.

(** *** Interpreter services that are taken as given

    [json_loads s] is [Some v] when [json.loads(s)] returns [v] and [None]
    when it raises [JSONDecodeError]; [str_other] is [str()] on floats,
    lists and dicts; [set_iter] is the order in which a [set] of strings is
    iterated. *)
Class Builtins : Type := {
  json_loads : string -> option value;
  str_other : value -> string;
  set_iter : list string -> list string
}.

(** [str(v)] *)
Definition str `{Builtins} (v : value) : string :=
  match v with
  | VNone => "None"
  | VBool true => "True"
  | VBool false => "False"
  | VInt z => str_of_Z z
  | VStr s => s
  | VFloat _ | VList _ | VDict _ => str_other v
  end.

End Py.

(* ================================================================== *)
(** ** The schema catalog ([supabase_analyzer.py], the dataclasses) *)
(* ================================================================== *)

Module Catalog.

Record ColumnInfo : Type := {
  column_name : string;
  data_type : string;
  is_nullable : bool;
  default_value : option string;
  is_primary_key : bool;
  is_foreign_key : bool;
  foreign_table : option string;
  foreign_column : option string;
  constraints : list string;
  max_length : option Z
}.

(** One entry of [TableInfo.foreign_keys] *)
Record ForeignKey : Type := {
  fk_column_name : string;
  foreign_table_schema : string;
  foreign_table_name : string;
  foreign_column_name : string;
  constraint_name : string
}.

(** One entry of [TableInfo.indexes] *)
Record IndexDef : Type := {
  index_name : string;
  index_definition : string
}.

(** One entry of [TableInfo.policies] *)
Record Policy : Type := {
  policy_name : string;
  permissive : string;
  roles : list string;
  command : string;
  qualifier : option string;
  with_check : option string
}.

Record TableInfo : Type := {
  table_name : string;
  table_schema : string;
  columns : list ColumnInfo;
  primary_keys : list string;
  foreign_keys : list ForeignKey;
  indexes : list IndexDef;
  rls_enabled : bool;
  policies : list Policy;
  estimated_rows : Z
}.

(** One entry of [FunctionInfo.parameters]: a dict whose keys may be absent
    ([None] here).  The introspector fills [name], [type], [mode] and
    [position]; hand-written schemas also give [default].

    A name that is present is a string.  The database reports a parameter
    that was declared without a name with a NULL name, which the
    introspector stores as a present [None]: catalogs with such
    parameters are outside this development, and so is what the validator
    does with them (its too-few suggestion raises [TypeError] when it joins
    the names of the missing parameters and one of them is [None]). *)
Record Param : Type := {
  param_name : option string;
  param_type : option string;
  param_mode : option string;
  param_position : option Z;
  param_default : option Py.value;
  param_description : option string
}.

Record FunctionInfo : Type := {
  function_name : string;
  function_schema : string;
  return_type : string;
  parameters : list Param;
  language : string;
  security_definer : bool;
  function_description : option string
}.

(** One entry of [SupabaseSchemaInfo.views] *)
Record ViewInfo : Type := {
  view_schema : string;
  view_name : string;
  view_definition : option string
}.

(** One entry of [SupabaseSchemaInfo.enums] *)
Record EnumInfo : Type := {
  enum_name : string;
  enum_values : list string
}.

Record SupabaseSchemaInfo : Type := {
  project_url : string;
  tables : list TableInfo;
  functions : list FunctionInfo;
  views : list ViewInfo;
  enums : list EnumInfo;
  extensions : list string;
  schemas : list string
}.

End Catalog.

(* ================================================================== *)
(** ** The RPC parameter validator ([rpc_parameter_validator.py]) *)
(* ================================================================== *)

Module Rpc.
Import Py Catalog.

Inductive ParameterValidationType : Type :=
| TYPE_MISMATCH
| MISSING_REQUIRED
| INVALID_ENUM
| INVALID_JSON_STRUCTURE
| PARAMETER_COUNT_MISMATCH
| OPTIONAL_NOT_PROVIDED.

Inductive ParameterType : Type :=
| STRING | INTEGER | UUID | BOOLEAN | JSON | JSONB
| TIMESTAMP | DATE | NUMERIC | ARRAY | ENUM.

(** [ParameterType.value] *)
Definition type_value (t : ParameterType) : string :=
  match t with
  | STRING => "text"
  | INTEGER => "bigint"
  | UUID => "uuid"
  | BOOLEAN => "boolean"
  | JSON => "json"
  | JSONB => "jsonb"
  | TIMESTAMP => "timestamp"
  | DATE => "date"
  | NUMERIC => "numeric"
  | ARRAY => "array"
  | ENUM => "enum"
  end.

Definition validation_type_eqb (a b : ParameterValidationType) : bool :=
  match a, b with
  | TYPE_MISMATCH, TYPE_MISMATCH
  | MISSING_REQUIRED, MISSING_REQUIRED
  | INVALID_ENUM, INVALID_ENUM
  | INVALID_JSON_STRUCTURE, INVALID_JSON_STRUCTURE
  | PARAMETER_COUNT_MISMATCH, PARAMETER_COUNT_MISMATCH
  | OPTIONAL_NOT_PROVIDED, OPTIONAL_NOT_PROVIDED => true
  | _, _ => false
  end.

Record ParameterValidationError : Type := {
  parameter_name : string;
  validation_type : ParameterValidationType;
  expected : string;
  actual : string;
  message : string;
  severity : string;
  line_number : Z;
  suggestion : string
}.

(** The constructor call as every check writes it: [severity] keeps its
    default. *)
Definition error (name : string) (kind : ParameterValidationType)
    (exp act msg : string) (line : Z) (sugg : string)
    : ParameterValidationError :=
  {| parameter_name := name; validation_type := kind; expected := exp;
     actual := act; message := msg; severity := "HIGH";
     line_number := line; suggestion := sugg |}.

(** The schema dict of [_get_json_schema]; a property schema is the
    optional value of its ["type"] key. *)
Record JsonSchema : Type := {
  schema_type : string;
  schema_required : option (list string);
  schema_properties : option (dict (option string));
  additional_properties : bool
}.

(** [name] is a string: see [Catalog.Param] for the parameters without a
    name. *)
Record ExpectedParameter : Type := {
  name : string;
  type : ParameterType;
  is_required : bool;
  position : Z;
  enum_values : option (list string);
  json_schema : option JsonSchema;
  default_value : Py.value;
  description : option string
}.

Record RPCParameterValidator : Type := {
  supabase_schema : SupabaseSchemaInfo;
  enum_cache : dict (list string);
  function_cache : dict (list ExpectedParameter)
}.

(** *** Building the caches *)

Definition _build_enum_cache (schema : SupabaseSchemaInfo)
    : dict (list string) :=
  fold_left (fun cache e => dict_set cache (enum_name e) (Catalog.enum_values e))
            (enums schema) [].

Definition type_mapping : dict ParameterType :=
  [ ("text", STRING); ("varchar", STRING); ("char", STRING);
    ("bigint", INTEGER); ("integer", INTEGER); ("int", INTEGER);
    ("uuid", UUID);
    ("boolean", BOOLEAN); ("bool", BOOLEAN);
    ("json", JSON); ("jsonb", JSONB);
    ("timestamp", TIMESTAMP); ("timestamptz", TIMESTAMP);
    ("date", DATE);
    ("numeric", NUMERIC); ("decimal", NUMERIC);
    ("array", ARRAY) ].

Definition _map_parameter_type (cache : dict (list string)) (pg_type : string)
    : ParameterType :=
  if dict_mem cache pg_type then ENUM
  else get_or (dict_get type_mapping (lower pg_type)) STRING.

(** [self.enum_cache.get(pg_type)]; an absent ["type"] key looks up [None],
    which is no key of the cache. *)
Definition _get_enum_values (cache : dict (list string))
    (pg_type : option string) : option (list string) :=
  match pg_type with
  | Some t => dict_get cache t
  | None => None
  end.

Definition basic_object_schema : JsonSchema :=
  {| schema_type := "object"; schema_required := None;
     schema_properties := Some []; additional_properties := true |}.

Definition _get_json_schema (pg_type : option string) : option JsonSchema :=
  match pg_type with
  | Some t => if str_in t ["json"; "jsonb"] then Some basic_object_schema
              else None
  | None => None
  end.

(** [param.get('mode', 'IN') == 'IN' and not param.get('default')] *)
Definition declared_required (param : Param) : bool :=
  String.eqb (get_or (param_mode param) "IN") "IN"
  && negb (truthy (get_or (param_default param) VNone)).

(** A parameter without a default, as the specification words the required
    parameters: the dict of the parameter has no [default] key. *)
Definition without_default (param : Param) : bool :=
  match param_default param with
  | Some _ => false
  | None => true
  end.

(** The body of the inner loop of [_build_function_cache], at index [i]. *)
Definition expected_parameter (cache : dict (list string)) (i : nat)
    (param : Param) : ExpectedParameter :=
  {| name := get_or (param_name param) ("param_" ++ str_of_nat i);
     type := _map_parameter_type cache (get_or (param_type param) "text");
     is_required := declared_required param;
     position := get_or (param_position param) (Z.of_nat i + 1)%Z;
     enum_values := _get_enum_values cache (param_type param);
     json_schema := _get_json_schema (param_type param);
     default_value := get_or (param_default param) VNone;
     description := param_description param |}.

(** [[f(i, x) for i, x in enumerate(xs)]], counting from [i] *)
Fixpoint enumerate_map {A B : Type} (f : nat -> A -> B) (i : nat)
    (xs : list A) : list B :=
  match xs with
  | [] => []
  | x :: xs' => f i x :: enumerate_map f (S i) xs'
  end.

Definition expected_parameters (cache : dict (list string))
    (f : FunctionInfo) : list ExpectedParameter :=
  enumerate_map (expected_parameter cache) 0 (parameters f).

Definition _build_function_cache (schema : SupabaseSchemaInfo)
    (cache : dict (list string)) : dict (list ExpectedParameter) :=
  fold_left
    (fun fc f => dict_set fc (function_name f) (expected_parameters cache f))
    (functions schema) [].

(** [RPCParameterValidator.__init__] *)
Definition new_validator (schema : SupabaseSchemaInfo)
    : RPCParameterValidator :=
  let ec := _build_enum_cache schema in
  {| supabase_schema := schema;
     enum_cache := ec;
     function_cache := _build_function_cache schema ec |}.

(** *** Value predicates *)

Definition uuid_pattern : list atom :=
  (times 8 Hex ++ [Lit "-"] ++ times 4 Hex ++ [Lit "-"] ++ times 4 Hex
   ++ [Lit "-"] ++ times 4 Hex ++ [Lit "-"] ++ times 12 Hex)%list.

Definition _is_valid_uuid (v : value) : bool :=
  match v with
  | VStr s => re_match uuid_pattern s
  | _ => false
  end.

(** [isinstance(v, int)] also holds for booleans; a string is valid when
    [int] reads it. *)
Definition _is_valid_integer (v : value) : bool :=
  match v with
  | VInt _ | VBool _ => true
  | VStr s => match int_of_str s with Some _ => true | None => false end
  | _ => false
  end.

Definition _is_valid_boolean (v : value) : bool :=
  match v with
  | VBool _ => true
  | VStr s => str_in (lower s) ["true"; "false"; "0"; "1"]
  | _ => false
  end.

Definition date_part : list atom :=
  (times 4 Digit ++ [Lit "-"] ++ times 2 Digit ++ [Lit "-"]
   ++ times 2 Digit)%list.

Definition time_part : list atom :=
  (times 2 Digit ++ [Lit ":"] ++ times 2 Digit ++ [Lit ":"]
   ++ times 2 Digit)%list.

Definition timestamp_patterns : list (list atom) :=
  [ date_part ++ [Lit "T"] ++ time_part ++ [Opt "Z"];
    date_part ++ [Lit "T"] ++ time_part ++ [Lit "."] ++ times 3 Digit
      ++ [Opt "Z"];
    date_part ++ [Lit " "] ++ time_part ]%list.

Definition _is_valid_timestamp (v : value) : bool :=
  match v with
  | VStr s => existsb (fun p => re_match p s) timestamp_patterns
  | _ => false
  end.

Definition _is_valid_json_object `{Builtins} (v : value) : bool :=
  match v with
  | VDict _ | VList _ => true
  | VStr s => match json_loads s with Some _ => true | None => false end
  | _ => false
  end.

Definition _infer_type (v : value) : ParameterType :=
  match v with
  | VBool _ => BOOLEAN
  | VInt _ => INTEGER
  | VStr _ =>
      if _is_valid_uuid v then UUID
      else if _is_valid_timestamp v then TIMESTAMP
      else STRING
  | VDict _ | VList _ => JSON
  | _ => STRING
  end.

(** One entry of the list [_validate_json_schema] returns. *)
Record SchemaError : Type := {
  se_expected : string;
  se_actual : string;
  se_message : string;
  se_suggestion : string
}.

Definition _validate_json_schema (v : value) (schema : JsonSchema)
    (param_name : string) : list SchemaError :=
  match v with
  | VDict obj =>
      match schema_required schema with
      | Some req =>
          flat_map
            (fun required_prop =>
               if dict_mem obj required_prop then []
               else [ {| se_expected := "Required property: " ++ required_prop;
                         se_actual := "Missing";
                         se_message :=
                           "Missing required property " ++ required_prop;
                         se_suggestion := "Add property: " ++ required_prop |} ])
            req
      | None => []
      end
      ++
      match schema_properties schema return list SchemaError with
      | Some props =>
          flat_map
            (fun entry : string * option string =>
               let (prop_name, prop_type) := entry in
               match dict_get obj prop_name with
               | Some prop_value =>
                   if String.eqb (get_or prop_type "any") "string"
                      && negb (match prop_value with VStr _ => true
                                                   | _ => false end)
                   then [ {| se_expected := prop_name ++ ": string";
                             se_actual :=
                               prop_name ++ ": " ++ type_name prop_value;
                             se_message :=
                               "Property " ++ prop_name ++ " must be a string";
                             se_suggestion :=
                               "Use string value for " ++ prop_name |} ]
                   else []
               | None => []
               end)
            props
      | None => []
      end
  | _ =>
      [ {| se_expected := "JSON object";
           se_actual := type_name v;
           se_message := "Parameter " ++ param_name ++ " must be an object";
           se_suggestion :=
             "Use object format: {key: " ++ dquote ++ "value" ++ dquote ++ "}" |} ]
  end.

(** *** The five checks *)

(** [sum(1 for p in expected if p.is_required)] *)
Definition required_count (expected : list ExpectedParameter) : nat :=
  length (filter is_required expected).

(** The names listed by the too-few suggestion. *)
Definition missing_required_names {V : Type}
    (expected : list ExpectedParameter) (provided : dict V) : list string :=
  map name
    (filter (fun p => is_required p && negb (dict_mem provided (name p)))
            expected).

(** [set(provided.keys()) - set(p.name for p in expected)], before the
    interpreter picks an iteration order. *)
Definition extra_params {V : Type} (expected : list ExpectedParameter)
    (provided : dict V) : list string :=
  filter (fun k => negb (str_in k (map name expected)))
         (nodup string_dec (dict_keys provided)).

Definition too_few_error {V : Type} (expected : list ExpectedParameter)
    (provided : dict V) (line : Z) : ParameterValidationError :=
  error "parameter_count" PARAMETER_COUNT_MISMATCH
    ("At least " ++ str_of_nat (required_count expected) ++ " parameters")
    (str_of_nat (dict_len provided) ++ " parameters")
    ("Missing required parameters. Expected at least "
       ++ str_of_nat (required_count expected) ++ ", got "
       ++ str_of_nat (dict_len provided))
    line
    ("Add missing required parameters: "
       ++ join ", " (missing_required_names expected provided)).

Definition too_many_error `{Builtins} {V : Type}
    (expected : list ExpectedParameter) (provided : dict V) (line : Z)
    : ParameterValidationError :=
  error "parameter_count" PARAMETER_COUNT_MISMATCH
    ("At most " ++ str_of_nat (length expected) ++ " parameters")
    (str_of_nat (dict_len provided) ++ " parameters")
    ("Too many parameters. Expected at most "
       ++ str_of_nat (length expected) ++ ", got "
       ++ str_of_nat (dict_len provided))
    line
    ("Remove unexpected parameters: "
       ++ join ", " (set_iter (extra_params expected provided))).

Definition _validate_parameter_count `{Builtins}
    (expected : list ExpectedParameter) (provided : dict value) (line : Z)
    : list ParameterValidationError :=
  ((if (dict_len provided <? required_count expected)%nat
    then [too_few_error expected provided line] else [])
   ++
   (if (length expected <? dict_len provided)%nat
    then [too_many_error expected provided line] else []))%list.

Definition missing_error (param : ExpectedParameter) (line : Z)
    : ParameterValidationError :=
  error (name param) MISSING_REQUIRED
    ("Required parameter '" ++ name param ++ "' of type "
       ++ type_value (type param))
    "Missing"
    ("Required parameter '" ++ name param ++ "' is missing")
    line
    ("Add required parameter: " ++ name param ++ ": "
       ++ type_value (type param)).

Definition _validate_required_parameters
    (expected : list ExpectedParameter) (provided : dict value) (line : Z)
    : list ParameterValidationError :=
  flat_map
    (fun param =>
       if is_required param && negb (dict_mem provided (name param))
       then [missing_error param line] else [])
    expected.

(** [{p.name: p for p in expected}] *)
Definition expected_by_name (expected : list ExpectedParameter)
    : dict ExpectedParameter :=
  fold_left (fun d p => dict_set d (name p) p) expected [].

(** The body of the loop of [_validate_parameter_types] for one provided
    parameter that is declared. *)
Definition type_errors `{Builtins} (param_name : string) (param_value : value)
    (expected_param : ExpectedParameter) (line : Z)
    : list ParameterValidationError :=
  let inferred_type := _infer_type param_value in
  let shown :=
    "'" ++ str param_value ++ "' (" ++ type_value inferred_type ++ ")" in
  match type expected_param with
  | UUID =>
      if _is_valid_uuid param_value then []
      else [ error param_name TYPE_MISMATCH "Valid UUID format" shown
               ("Parameter '" ++ param_name ++ "' must be a valid UUID")
               line "Use format: 'xxxxxxxx-xxxx-xxxx-xxxx-xxxxxxxxxxxx'" ]
  | INTEGER =>
      if _is_valid_integer param_value then []
      else [ error param_name TYPE_MISMATCH "Integer" shown
               ("Parameter '" ++ param_name ++ "' must be an integer")
               line "Use an integer value like 123" ]
  | BOOLEAN =>
      if _is_valid_boolean param_value then []
      else [ error param_name TYPE_MISMATCH "Boolean" shown
               ("Parameter '" ++ param_name ++ "' must be a boolean")
               line "Use true or false" ]
  | TIMESTAMP =>
      if _is_valid_timestamp param_value then []
      else [ error param_name TYPE_MISMATCH "ISO timestamp"
               ("'" ++ str param_value ++ "'")
               ("Parameter '" ++ param_name ++ "' must be a valid timestamp")
               line "Use ISO format: '2024-01-01T00:00:00Z'" ]
  | _ => []
  end.

(** The three loops over [provided.items()] share their head: a provided
    name that is not declared is skipped. *)
Definition for_declared {V E : Type} (expected : list ExpectedParameter)
    (provided : dict V) (body : string -> V -> ExpectedParameter -> list E)
    : list E :=
  flat_map
    (fun item : string * V =>
       let (param_name, param_value) := item in
       match dict_get (expected_by_name expected) param_name with
       | None => []
       | Some expected_param => body param_name param_value expected_param
       end)
    provided.

Definition _validate_parameter_types `{Builtins}
    (expected : list ExpectedParameter) (provided : dict value) (line : Z)
    : list ParameterValidationError :=
  for_declared expected provided
    (fun param_name param_value expected_param =>
       type_errors param_name param_value expected_param line).

Definition enum_errors `{Builtins} (param_name : string) (param_value : value)
    (expected_param : ExpectedParameter) (line : Z)
    : list ParameterValidationError :=
  match type expected_param, enum_values expected_param with
  | ENUM, Some (v :: vs) =>
      if str_in (str param_value) (v :: vs) then []
      else [ error param_name INVALID_ENUM
               ("One of: " ++ join ", " (v :: vs))
               ("'" ++ str param_value ++ "'")
               ("Parameter '" ++ param_name ++ "' has invalid enum value")
               line
               ("Use one of: " ++ join ", " (firstn 3 (v :: vs))) ]
  | _, _ => []
  end.

Definition _validate_enum_values `{Builtins}
    (expected : list ExpectedParameter) (provided : dict value) (line : Z)
    : list ParameterValidationError :=
  for_declared expected provided
    (fun param_name param_value expected_param =>
       enum_errors param_name param_value expected_param line).

Definition json_errors `{Builtins} (param_name : string) (param_value : value)
    (expected_param : ExpectedParameter) (line : Z)
    : list ParameterValidationError :=
  match type expected_param with
  | JSON | JSONB =>
      if negb (_is_valid_json_object param_value)
      then [ error param_name INVALID_JSON_STRUCTURE "Valid JSON object"
               ("'" ++ str param_value ++ "'")
               ("Parameter '" ++ param_name ++ "' must be a valid JSON object")
               line "Use object format: {key: 'value'}" ]
      else match json_schema expected_param with
           | Some schema =>
               map (fun e =>
                      error param_name INVALID_JSON_STRUCTURE
                        (se_expected e) (se_actual e) (se_message e)
                        line (se_suggestion e))
                   (_validate_json_schema param_value schema param_name)
           | None => []
           end
  | _ => []
  end.

Definition _validate_json_structures `{Builtins}
    (expected : list ExpectedParameter) (provided : dict value) (line : Z)
    : list ParameterValidationError :=
  for_declared expected provided
    (fun param_name param_value expected_param =>
       json_errors param_name param_value expected_param line).

(** *** The entry point *)

Definition unknown_function_error (v : RPCParameterValidator)
    (function_name : string) (line : Z) : ParameterValidationError :=
  error "function" TYPE_MISMATCH
    ("One of: " ++ join ", " (dict_keys (function_cache v)))
    function_name
    ("RPC function '" ++ function_name ++ "' not found")
    line
    ("Available functions: "
       ++ join ", " (firstn 3 (dict_keys (function_cache v)))).

Definition validate_rpc_call `{Builtins} (v : RPCParameterValidator)
    (function_name : string) (provided_params : dict value) (line : Z)
    : list ParameterValidationError :=
  match dict_get (function_cache v) function_name with
  | None => [unknown_function_error v function_name line]
  | Some expected_params =>
      (_validate_parameter_count expected_params provided_params line
       ++ _validate_required_parameters expected_params provided_params line
       ++ _validate_parameter_types expected_params provided_params line
       ++ _validate_enum_values expected_params provided_params line
       ++ _validate_json_structures expected_params provided_params line)%list
  end.

(** An issue about a declared parameter, of a kind other than the count
    mismatch. *)
Definition about_declared (expected : list ExpectedParameter)
    (e : ParameterValidationError) : Prop :=
  In (parameter_name e) (map name expected)
  /\ validation_type e <> PARAMETER_COUNT_MISMATCH.

(** The issues of one kind, for counting. *)
Definition of_kind (k : ParameterValidationType)
    (errors : list ParameterValidationError) : list ParameterValidationError :=
  filter (fun e => validation_type_eqb (validation_type e) k) errors.

End Rpc.

(* ================================================================== *)
(** ** Overall confidence ([comprehensive_validator.py]) *)
(* ================================================================== *)

Module Confidence.

Inductive DetectionType : Type :=
| COMPONENT_NOT_FOUND
| HOOK_NOT_FOUND
| SUPABASE_TABLE_NOT_FOUND
| SUPABASE_FUNCTION_NOT_FOUND
| RPC_PARAMETER_TYPE_MISMATCH
| RPC_MISSING_REQUIRED_PARAM
| RPC_INVALID_ENUM_VALUE
| RPC_INVALID_JSON_STRUCTURE
| RPC_PARAMETER_COUNT_MISMATCH
| INCORRECT_SIGNATURE
| INVALID_TYPE
| BAD_PRACTICE
| IMPORT_NOT_FOUND
| METHOD_NOT_FOUND
| ATTRIBUTE_NOT_FOUND.

Inductive Severity : Type := CRITICAL | HIGH | MEDIUM | LOW | INFO.

Record Detection : Type := {
  detection_type : DetectionType;
  severity : Severity;
  message : string;
  location : string;
  line_number : Z;
  confidence : Q;
  suggestion : option string;
  context : Py.dict Py.value
}.

Record ValidationReport : Type := {
  script_path : string;
  language : string;
  analysis_timestamp : string;
  overall_confidence : Q;
  detections : list Detection;
  frameworks_detected : list string;
  supabase_info : option (Py.dict Py.value);
  statistics : Py.dict Z;
  recommendations : list string
}.

(** The [weights] table of [_calculate_overall_confidence] *)
Definition weights (s : Severity) : Q :=
  match s with
  | CRITICAL => 1
  | HIGH => 8 # 10
  | MEDIUM => 6 # 10
  | LOW => 4 # 10
  | INFO => 2 # 10
  end.

(** [sum(weights[det.severity] * det.confidence for det in ...)]: the
    built-in [sum] adds from the left, starting at 0. *)
Definition total_weight (ds : list Detection) : Q :=
  fold_left (fun acc det => (acc + weights (severity det) * confidence det)%Q)
            ds 0%Q.

Definition _calculate_overall_confidence (report : ValidationReport) : Q :=
  match detections report with
  | [] => 1%Q
  | _ :: _ =>
      let max_possible := length (detections report) in
      if (max_possible =? 0)%nat then 1%Q
      else Qmax 0 (1 - total_weight (detections report)
                         / inject_Z (Z.of_nat (max_possible * 2)))%Q
  end.

(** The formula as the specification words it:
    max(0, 1 - (sum of severityWeight(d) * d.confidence) / (2 * |detections|)),
    and 1.0 for an empty detection set. *)
Fixpoint weighted_sum (ds : list Detection) : Q :=
  match ds with
  | [] => 0%Q
  | d :: ds' => (weights (severity d) * confidence d + weighted_sum ds')%Q
  end.

Definition specified_confidence (ds : list Detection) : Q :=
  match ds with
  | [] => 1%Q
  | _ :: _ =>
      Qmax 0 (1 - weighted_sum ds / (2 * inject_Z (Z.of_nat (length ds))))%Q
  end.

(** A report that carries the given detections. *)
Definition report_of (ds : list Detection) : ValidationReport :=
  {| script_path := ""; language := "typescript"; analysis_timestamp := "";
     overall_confidence := 0%Q; detections := ds; frameworks_detected := [];
     supabase_info := None; statistics := []; recommendations := [] |}.

(** A detection with the given severity and confidence, other fields as a
    sub-validator leaves them by default. *)
Definition detection (s : Severity) (c : Q) : Detection :=
  {| detection_type := BAD_PRACTICE; severity := s; message := "";
     location := ""; line_number := 0%Z; confidence := c;
     suggestion := None; context := [] |}.

End Confidence.

(* ================================================================== *)
(** ** The TypeScript analyzer's entry point ([typescript_analyzer.py]) *)
(* ================================================================== *)

Module TsAnalyzer.

Record ImportInfo : Type := {
  import_module : string;
  import_name : string;
  alias : option string;
  is_default_import : bool;
  is_namespace_import : bool;
  import_line : Z
}.

Record ComponentInfo : Type := {
  component_name : string;
  component_type : string;
  props : list string;
  hooks : list string;
  component_line : Z;
  is_exported : bool
}.

Record HookCall : Type := {
  hook_name : string;
  hook_args : list string;
  hook_line : Z;
  variable_name : option string
}.

Record FunctionCall : Type := {
  function_name : string;
  call_args : list string;
  call_line : Z;
  object_name : option string
}.

Record TypeAnnotation : Type := {
  annotated_variable : string;
  type_name : string;
  annotation_line : Z;
  is_interface : bool
}.

Record AnalysisResult : Type := {
  file_path : string;
  imports : list ImportInfo;
  components : list ComponentInfo;
  hook_calls : list HookCall;
  function_calls : list FunctionCall;
  type_annotations : list TypeAnnotation;
  exports : list string;
  errors : list string
}.

(** [AnalysisResult(file_path=str(file_path))] *)
Definition new_result (path : string) : AnalysisResult :=
  {| file_path := path; imports := []; components := []; hook_calls := [];
     function_calls := []; type_annotations := []; exports := [];
     errors := [] |}.

(** What opening and reading the file gives: its text decoded as UTF-8, or
    as Latin-1 after a [UnicodeDecodeError], or another exception, given by
    its text. *)
Inductive read_outcome : Type :=
| Utf8 (content : string)
| Latin1 (content : string)
| ReadError (exception_text : string).

(** The services outside this function: the external syntax-tree producer
    behind [_parse_with_esprima] ([None]: non-zero exit, time-out or any
    exception, all of which that method turns into [None]), and the six
    tree walkers, each with its own exception handler, as functions on the
    result they fill. *)
Class Services : Type := {
  _parse_with_esprima : string -> option Py.value;
  _extract_imports : Py.value -> AnalysisResult -> AnalysisResult;
  _extract_components : Py.value -> AnalysisResult -> AnalysisResult;
  _extract_hooks : Py.value -> AnalysisResult -> AnalysisResult;
  _extract_function_calls : Py.value -> AnalysisResult -> AnalysisResult;
  _extract_type_annotations : Py.value -> AnalysisResult -> AnalysisResult;
  _extract_exports : Py.value -> AnalysisResult -> AnalysisResult
}.

Definition with_error (r : AnalysisResult) (msg : string) : AnalysisResult :=
  {| file_path := file_path r; imports := imports r;
     components := components r; hook_calls := hook_calls r;
     function_calls := function_calls r;
     type_annotations := type_annotations r; exports := exports r;
     errors := (errors r ++ [msg])%list |}.

(** [analyze_typescript_file]: [None] is Python's [None]; no exception
    leaves the function, since its whole body is inside [try]. *)
Definition analyze_typescript_file `{Services} (path : string)
    (file : read_outcome) : option AnalysisResult :=
  let analyze (content : string) :=
    if String.eqb (Py.strip content) "" then Some (new_result path)
    else
      match _parse_with_esprima content with
      | None => None
      | Some ast_json =>
          if negb (Py.truthy ast_json) then None
          else
            Some (_extract_exports ast_json
                 (_extract_type_annotations ast_json
                 (_extract_function_calls ast_json
                 (_extract_hooks ast_json
                 (_extract_components ast_json
                 (_extract_imports ast_json (new_result path)))))))
      end in
  match file with
  | Utf8 content => analyze content
  | Latin1 content => analyze content
  | ReadError e =>
      Some (with_error (new_result path)
              ("Failed to analyze TypeScript file " ++ path ++ ": " ++ e))
  end.

End TsAnalyzer.

(* ================================================================== *)
(** ** The schema introspector ([supabase_analyzer.py]) *)
(* ================================================================== *)

Module Introspector.
Import Catalog.

(** What a call to the backend gives: the rows of [result.data] (an absent
    [data] is the empty list), or a raised exception. *)
Inductive reply (A : Type) : Type :=
| Data (rows : A)
| Raises.
Arguments Data {A} rows.
Arguments Raises {A}.

Record TablesRow : Type := {
  row_table_schema : string;
  row_table_name : string;
  row_table_type : string
}.

Record ColumnsRow : Type := {
  row_column_name : string;
  row_data_type : string;
  row_is_nullable : string;
  row_column_default : option string;
  row_character_maximum_length : option Z
}.

Record RoutinesRow : Type := {
  row_routine_schema : string;
  row_routine_name : string;
  row_return_type : string;
  row_external_language : option string;
  row_security_type : string
}.

(** A row of a parameter that has a name: see [Catalog.Param]. *)
Record ParametersRow : Type := {
  row_parameter_name : string;
  row_parameter_data_type : string;
  row_parameter_mode : string;
  row_ordinal_position : Z
}.

(** The connected client: one field per metadata query the analyzer sends
    through [rpc('execute_sql', ...)], applied to the query's parameters,
    and the direct table access of the fallback.  The rows are typed by the
    columns each query selects. *)
Record Client : Type := {
  select_tables : reply (list TablesRow);
  select_columns : string -> string -> reply (list ColumnsRow);
  select_primary_keys : string -> string -> reply (list string);
  select_foreign_keys : string -> string -> reply (list ForeignKey);
  select_indexes : string -> string -> reply (list IndexDef);
  select_relrowsecurity : string -> string -> reply (list bool);
  select_policies : string -> string -> reply (list Policy);
  select_routines : reply (list RoutinesRow);
  select_parameters : string -> string -> reply (list ParametersRow);
  select_views : reply (list ViewInfo);
  select_enums : reply (list EnumInfo);
  select_extensions : reply (list string);
  select_schemas : reply (list string);
  table_select_one : string -> reply unit
}.

(** A body of the shape
    [try: result = query; if result.data: return f(result.data)
     except Exception: log; return []]. *)
Definition rows_or_empty {A B : Type} (r : reply (list A))
    (f : list A -> list B) : list B :=
  match r with
  | Data rows => f rows
  | Raises => []
  end.

Definition _analyze_table_columns (c : Client) (schema table : string)
    : list ColumnInfo :=
  rows_or_empty (select_columns c schema table)
    (map (fun row =>
            {| column_name := row_column_name row;
               data_type := row_data_type row;
               is_nullable := String.eqb (row_is_nullable row) "YES";
               default_value := row_column_default row;
               is_primary_key := false;
               is_foreign_key := false;
               foreign_table := None;
               foreign_column := None;
               constraints := [];
               max_length := row_character_maximum_length row |})).

Definition _analyze_primary_keys (c : Client) (schema table : string)
    : list string :=
  rows_or_empty (select_primary_keys c schema table) (fun rows => rows).

Definition _analyze_foreign_keys (c : Client) (schema table : string)
    : list ForeignKey :=
  rows_or_empty (select_foreign_keys c schema table) (fun rows => rows).

Definition _analyze_indexes (c : Client) (schema table : string)
    : list IndexDef :=
  rows_or_empty (select_indexes c schema table) (fun rows => rows).

Definition _check_rls_enabled (c : Client) (schema table : string) : bool :=
  match select_relrowsecurity c schema table with
  | Data (relrowsecurity :: _) => relrowsecurity
  | Data [] => false
  | Raises => false
  end.

Definition _analyze_rls_policies (c : Client) (schema table : string)
    : list Policy :=
  rows_or_empty (select_policies c schema table) (fun rows => rows).

(** The body of the loop of [_analyze_tables] for one row. *)
Definition table_of_row (c : Client) (row : TablesRow) : TableInfo :=
  let name := row_table_name row in
  let schema := row_table_schema row in
  let rls := _check_rls_enabled c schema name in
  {| table_name := name;
     table_schema := schema;
     columns := _analyze_table_columns c schema name;
     primary_keys := _analyze_primary_keys c schema name;
     foreign_keys := _analyze_foreign_keys c schema name;
     indexes := _analyze_indexes c schema name;
     rls_enabled := rls;
     policies := if rls then _analyze_rls_policies c schema name else [];
     estimated_rows := 0%Z |}.

Definition common_tables : list string :=
  ["users"; "profiles"; "posts"; "comments"; "logs"; "settings"].

(** [TableInfo(name=table_name, schema='public')] *)
Definition basic_table (name : string) : TableInfo :=
  {| table_name := name; table_schema := "public"; columns := [];
     primary_keys := []; foreign_keys := []; indexes := [];
     rls_enabled := false; policies := []; estimated_rows := 0%Z |}.

Definition _analyze_tables_fallback (c : Client) : list TableInfo :=
  flat_map
    (fun table_name =>
       match table_select_one c table_name with
       | Data _ => [basic_table table_name]
       | Raises => []
       end)
    common_tables.

(** Whether the probe of the fallback reaches a table:
    [self.client.table(name).select('*').limit(1).execute()] returns. *)
Definition probe_succeeds (c : Client) (name : string) : bool :=
  match table_select_one c name with
  | Data _ => true
  | Raises => false
  end.

Definition _analyze_tables (c : Client) : list TableInfo :=
  match select_tables c with
  | Data rows => map (table_of_row c) rows
  | Raises => _analyze_tables_fallback c
  end.

Definition _analyze_function_parameters (c : Client)
    (schema function_name : string) : list Param :=
  rows_or_empty (select_parameters c schema ("%" ++ function_name ++ "%"))
    (map (fun row =>
            {| param_name := Some (row_parameter_name row);
               param_type := Some (row_parameter_data_type row);
               param_mode := Some (row_parameter_mode row);
               param_position := Some (row_ordinal_position row);
               param_default := None;
               param_description := None |})).

(** [x or 'plpgsql'] *)
Definition language_or_default (x : option string) : string :=
  match x with
  | Some l => if String.eqb l "" then "plpgsql" else l
  | None => "plpgsql"
  end.

Definition _analyze_functions (c : Client) : list FunctionInfo :=
  rows_or_empty (select_routines c)
    (map (fun row =>
            {| function_name := row_routine_name row;
               function_schema := row_routine_schema row;
               return_type := row_return_type row;
               parameters :=
                 _analyze_function_parameters c (row_routine_schema row)
                   (row_routine_name row);
               language := language_or_default (row_external_language row);
               security_definer :=
                 String.eqb (row_security_type row) "DEFINER";
               function_description := None |})).

Definition _analyze_views (c : Client) : list ViewInfo :=
  rows_or_empty (select_views c) (fun rows => rows).

Definition _analyze_enums (c : Client) : list EnumInfo :=
  rows_or_empty (select_enums c) (fun rows => rows).

Definition _analyze_extensions (c : Client) : list string :=
  rows_or_empty (select_extensions c) (fun rows => rows).

Definition _analyze_schemas (c : Client) : list string :=
  rows_or_empty (select_schemas c) (fun rows => rows).

(** The analyzer object: its URL, the client it holds (if any), and what
    [connect()] would obtain. *)
Record SupabaseAnalyzer : Type := {
  supabase_url : string;
  client : option Client;
  connect : option Client
}.

(** [analyze_schema]: [Raises] is the [RuntimeError] of a failed
    connection, the only exception that leaves the method. *)
Definition analyze_schema (a : SupabaseAnalyzer) : reply SupabaseSchemaInfo :=
  let build (c : Client) :=
    {| project_url := supabase_url a;
       tables := _analyze_tables c;
       functions := _analyze_functions c;
       views := _analyze_views c;
       enums := _analyze_enums c;
       extensions := _analyze_extensions c;
       schemas := _analyze_schemas c |} in
  match client a with
  | Some c => Data (build c)
  | None =>
      match connect a with
      | Some c => Data (build c)
      | None => Raises
      end
  end.

End Introspector.

(* ================================================================== *)
(** ** The graph builder ([parse_repo_into_neo4j.py]) *)
(* ================================================================== *)

Module GraphBuilder.

(** *** The graph store

    A node carries its label and the value of the property its label is
    matched by: [Repository.name], [File.path], [Class.full_name],
    [Method.method_id], [Attribute.attr_id], [Function.func_id],
    [Component.comp_id], [Hook.hook_id].  The other properties are set
    [ON CREATE] and never matched, so they are left out.  A new node gets an
    identity that no node of the graph has. *)

Inductive Label : Type :=
| Repository | File | Class | Method | Attribute | Function | Component | Hook.

Inductive RelType : Type :=
| CONTAINS | DEFINES | HAS_METHOD | HAS_ATTRIBUTE | USES.

Definition Label_eqb (a b : Label) : bool :=
  match a, b with
  | Repository, Repository | File, File | Class, Class | Method, Method
  | Attribute, Attribute | Function, Function | Component, Component
  | Hook, Hook => true
  | _, _ => false
  end.

Definition RelType_eqb (a b : RelType) : bool :=
  match a, b with
  | CONTAINS, CONTAINS | DEFINES, DEFINES | HAS_METHOD, HAS_METHOD
  | HAS_ATTRIBUTE, HAS_ATTRIBUTE | USES, USES => true
  | _, _ => false
  end.

Record Node : Type := {
  node_id : nat;
  label : Label;
  key : string
}.

Record Edge : Type := {
  source : nat;
  rel : RelType;
  target : nat
}.

Record Graph : Type := {
  nodes : list Node;
  edges : list Edge
}.

Definition empty_graph : Graph := {| nodes := []; edges := [] |}.

Definition Edge_eqb (a b : Edge) : bool :=
  Nat.eqb (source a) (source b) && RelType_eqb (rel a) (rel b)
  && Nat.eqb (target a) (target b).

(** The pattern [(n:l {key: k})] *)
Definition matches (l : Label) (k : string) (n : Node) : bool :=
  Label_eqb (label n) l && String.eqb (key n) k.

Definition match_nodes (g : Graph) (l : Label) (k : string) : list Node :=
  filter (matches l k) (nodes g).

Definition fresh_id (g : Graph) : nat :=
  S (list_max (map node_id (nodes g))).

Definition add_node (g : Graph) (l : Label) (k : string) : Graph :=
  {| nodes := nodes g ++ [ {| node_id := fresh_id g; label := l; key := k |} ];
     edges := edges g |}.

(** The uniqueness constraints [initialize] declares on the labels of the
    code graph: [File.path], [Class.full_name], [Component.comp_id],
    [Hook.hook_id].  The constraints on methods, functions and attributes
    are commented out there, and none is declared on [Repository]. *)
Definition unique_key (l : Label) : bool :=
  match l with
  | File | Class | Component | Hook => true
  | Repository | Method | Attribute | Function => false
  end.

(** Some node matches [(n:l {key: k})]. *)
Definition has_node (g : Graph) (l : Label) (k : string) : bool :=
  existsb (matches l k) (nodes g).

(** [CREATE (n:l {key: k})]: [None] when a uniqueness constraint rejects the
    node and the statement raises. *)
Definition create_node (g : Graph) (l : Label) (k : string) : option Graph :=
  if unique_key l && has_node g l k then None
  else Some (add_node g l k).

(** [MERGE (n:l {key: k})] *)
Definition merge_node (g : Graph) (l : Label) (k : string) : Graph :=
  if has_node g l k then g else add_node g l k.

(** The rows of [MATCH (a:la {ka}) MATCH (b:lb {kb})], as edges to write. *)
Definition matched_edges (g : Graph) (la : Label) (ka : string) (r : RelType)
    (lb : Label) (kb : string) : list Edge :=
  map (fun ab : Node * Node =>
         {| source := node_id (fst ab); rel := r; target := node_id (snd ab) |})
      (list_prod (match_nodes g la ka) (match_nodes g lb kb)).

(** [MATCH ... MATCH ... CREATE (a)-[:r]->(b)] *)
Definition create_edges (g : Graph) (la : Label) (ka : string) (r : RelType)
    (lb : Label) (kb : string) : Graph :=
  {| nodes := nodes g;
     edges := edges g ++ matched_edges g la ka r lb kb |}.

Definition merge_edge (es : list Edge) (e : Edge) : list Edge :=
  if existsb (Edge_eqb e) es then es else es ++ [e].

(** [MATCH ... MATCH ... MERGE (a)-[:r]->(b)] *)
Definition merge_edges (g : Graph) (la : Label) (ka : string) (r : RelType)
    (lb : Label) (kb : string) : Graph :=
  {| nodes := nodes g;
     edges := fold_left merge_edge (matched_edges g la ka r lb kb) (edges g) |}.

(** *** The analysis records ([modules_data]) *)

Record MethodData : Type := {
  method_name : string;
  method_args : list string;
  method_params_detailed : list string;
  method_return_type : option string
}.

Record AttributeData : Type := {
  attribute_name : string;
  attribute_type : option string
}.

Record ClassData : Type := {
  class_name : string;
  class_full_name : string;
  methods : list MethodData;
  attributes : list AttributeData
}.

Record FunctionData : Type := {
  function_name : string;
  function_full_name : string;
  function_args : list string;
  function_return_type : option string
}.

Record ComponentData : Type := {
  component_name : string;
  component_full_name : string;
  component_type : option string;
  component_props : list string;
  component_hooks : list string;
  component_is_exported : bool
}.

Record HookData : Type := {
  hook_name : string;
  hook_args : list string;
  hook_variable_name : option string
}.

(** One entry of [modules_data]; an absent list key reads as [[]]. *)
Record ModuleData : Type := {
  file_path : string;
  module_name : string;
  line_count : Z;
  classes : list ClassData;
  functions : list FunctionData;
  components : list ComponentData;
  hook_calls : list HookData
}.

(** The interpreter process: [str()] of a hook dict, and the built-in
    [hash] of a string, which Python salts per process. *)
Class Process : Type := {
  hook_str : HookData -> string;
  hash : string -> Z
}.

(** *** The composite identifiers *)

Definition method_id (cls : ClassData) (method : MethodData) : string :=
  class_full_name cls ++ "::" ++ method_name method.

Definition attr_id (cls : ClassData) (attr : AttributeData) : string :=
  class_full_name cls ++ "::" ++ attribute_name attr.

Definition func_id (md : ModuleData) (func : FunctionData) : string :=
  file_path md ++ "::" ++ function_name func.

Definition comp_id (md : ModuleData) (comp : ComponentData) : string :=
  file_path md ++ "::" ++ component_name comp.

Definition hook_id `{Process} (md : ModuleData) (hook : HookData) : string :=
  file_path md ++ "::" ++ hook_name hook ++ "::"
  ++ Py.str_of_Z (hash (hook_str hook)).

(** *** [_create_graph] *)

Definition add_method (cls : ClassData) (g : Graph) (method : MethodData)
    : Graph :=
  let g := merge_node g Method (method_id cls method) in
  merge_edges g Class (class_full_name cls) HAS_METHOD
    Method (method_id cls method).

Definition add_attribute (cls : ClassData) (g : Graph) (attr : AttributeData)
    : Graph :=
  let g := merge_node g Attribute (attr_id cls attr) in
  merge_edges g Class (class_full_name cls) HAS_ATTRIBUTE
    Attribute (attr_id cls attr).

Definition add_class (md : ModuleData) (g : Graph) (cls : ClassData)
    : Graph :=
  let g := merge_node g Class (class_full_name cls) in
  let g := merge_edges g File (file_path md) DEFINES
             Class (class_full_name cls) in
  let g := fold_left (add_method cls) (methods cls) g in
  fold_left (add_attribute cls) (attributes cls) g.

Definition add_function (md : ModuleData) (g : Graph) (func : FunctionData)
    : Graph :=
  let g := merge_node g Function (func_id md func) in
  merge_edges g File (file_path md) DEFINES Function (func_id md func).

Definition add_component (md : ModuleData) (g : Graph) (comp : ComponentData)
    : Graph :=
  let g := merge_node g Component (comp_id md comp) in
  merge_edges g File (file_path md) DEFINES Component (comp_id md comp).

Definition add_hook `{Process} (md : ModuleData) (g : Graph) (hook : HookData)
    : Graph :=
  let g := merge_node g Hook (hook_id md hook) in
  merge_edges g File (file_path md) USES Hook (hook_id md hook).

(** The body of the loop over [modules_data].  The first statement is the
    only one a constraint can reject; its exception is caught by the
    handler of the loop body, which goes on to the next module. *)
Definition add_module `{Process} (repo_name : string) (g : Graph)
    (md : ModuleData) : Graph :=
  match create_node g File (file_path md) with
  | None => g
  | Some g =>
      let g := create_edges g Repository repo_name CONTAINS
                 File (file_path md) in
      let g := fold_left (add_class md) (classes md) g in
      let g := fold_left (add_function md) (functions md) g in
      let g := fold_left (add_component md) (components md) g in
      fold_left (add_hook md) (hook_calls md) g
  end.

(** [None]: the exception of the first statement, which the outer handler
    logs and raises again. *)
Definition _create_graph `{Process} (repo_name : string)
    (modules_data : list ModuleData) (g : Graph) : option Graph :=
  match create_node g Repository repo_name with
  | None => None
  | Some g => Some (fold_left (add_module repo_name) modules_data g)
  end.

(** *** [clear_repository_data] *)

Definition has_id (ns : list Node) (i : nat) : bool :=
  existsb (fun n => Nat.eqb (node_id n) i) ns.

(** One hop [(a)-[:r]->(b:l)] from the nodes [from]. *)
Definition hop (g : Graph) (from : list Node) (r : RelType) (l : Label)
    : list Node :=
  filter
    (fun b =>
       Label_eqb (label b) l
       && existsb (fun e => RelType_eqb (rel e) r
                            && Nat.eqb (target e) (node_id b)
                            && has_id from (source e))
                  (edges g))
    (nodes g).

(** [MATCH (r:Repository {name: repo})-[:r1]->(:l1)-...->(x:ln)] *)
Definition reached (g : Graph) (repo_name : string)
    (path : list (RelType * Label)) : list Node :=
  fold_left (fun from rl => hop g from (fst rl) (snd rl)) path
            (match_nodes g Repository repo_name).

Definition detach_delete (g : Graph) (victims : list Node) : Graph :=
  {| nodes := filter (fun n => negb (has_id victims (node_id n))) (nodes g);
     edges := filter (fun e => negb (has_id victims (source e))
                               && negb (has_id victims (target e)))
                     (edges g) |}.

(** [MATCH path DETACH DELETE x] *)
Definition delete_reached (repo_name : string) (path : list (RelType * Label))
    (g : Graph) : Graph :=
  detach_delete g (reached g repo_name path).

Definition clear_repository_data (repo_name : string) (g : Graph) : Graph :=
  let g := delete_reached repo_name
             [(CONTAINS, File); (DEFINES, Class); (HAS_METHOD, Method)] g in
  let g := delete_reached repo_name
             [(CONTAINS, File); (DEFINES, Class); (HAS_ATTRIBUTE, Attribute)]
             g in
  let g := delete_reached repo_name
             [(CONTAINS, File); (DEFINES, Component)] g in
  let g := delete_reached repo_name [(CONTAINS, File); (USES, Hook)] g in
  let g := delete_reached repo_name
             [(CONTAINS, File); (DEFINES, Function)] g in
  let g := delete_reached repo_name [(CONTAINS, File); (DEFINES, Class)] g in
  let g := delete_reached repo_name [(CONTAINS, File)] g in
  delete_reached repo_name [] g.

(** The graph part of [analyze_repository]: the repository's data is
    cleared, then the graph of the analysed modules is created. *)
Definition analyze_repository `{Process} (repo_name : string)
    (modules_data : list ModuleData) (g : Graph) : option Graph :=
  _create_graph repo_name modules_data (clear_repository_data repo_name g).

(** *** The logical entity of the specification

    (repository, file, nesting, name, kind), and the identifier the builder
    gives it: the nesting of a method or attribute is the full name of its
    class. *)
Inductive Kind : Type :=
| KMethod | KAttribute | KFunction | KComponent.

Record Entity : Type := {
  entity_repository : string;
  entity_file : string;
  entity_nesting : string;
  entity_name : string;
  entity_kind : Kind
}.

(** What the identifier of an entity is built on besides its name: the
    class for a method or attribute, the file for a function or component. *)
Definition scope (e : Entity) : string :=
  match entity_kind e with
  | KMethod | KAttribute => entity_nesting e
  | KFunction | KComponent => entity_file e
  end.

Definition identifier (e : Entity) : string :=
  scope e ++ "::" ++ entity_name e.

(** The entities behind the identifiers [_create_graph] computes. *)
Definition method_entity (repo : string) (md : ModuleData) (cls : ClassData)
    (method : MethodData) : Entity :=
  {| entity_repository := repo; entity_file := file_path md;
     entity_nesting := class_full_name cls;
     entity_name := method_name method; entity_kind := KMethod |}.

Definition attribute_entity (repo : string) (md : ModuleData)
    (cls : ClassData) (attr : AttributeData) : Entity :=
  {| entity_repository := repo; entity_file := file_path md;
     entity_nesting := class_full_name cls;
     entity_name := attribute_name attr; entity_kind := KAttribute |}.

Definition function_entity (repo : string) (md : ModuleData)
    (func : FunctionData) : Entity :=
  {| entity_repository := repo; entity_file := file_path md;
     entity_nesting := ""; entity_name := function_name func;
     entity_kind := KFunction |}.

Definition component_entity (repo : string) (md : ModuleData)
    (comp : ComponentData) : Entity :=
  {| entity_repository := repo; entity_file := file_path md;
     entity_nesting := ""; entity_name := component_name comp;
     entity_kind := KComponent |}.

Fixpoint has_colon (s : string) : bool :=
  match s with
  | EmptyString => false
  | String c s' => Ascii.eqb c ":"%char || has_colon s'
  end.

(** The nodes of one label, for counting. *)
Definition labelled (l : Label) (g : Graph) : list Node :=
  filter (fun n => Label_eqb (label n) l) (nodes g).

End GraphBuilder.

(* ================================================================== *)
(** ** Concrete data used by the examples *)
(* ================================================================== *)

Module Scenarios.
Import Py Catalog.

(** An interpreter for closed examples: no string decodes as JSON, floats
    and containers print as ["<object>"], a set is iterated in the order
    its elements were inserted. *)
Definition plain_builtins : Builtins :=
  {| json_loads := fun _ => None;
     str_other := fun _ => "<object>";
     set_iter := fun xs => xs |}.

Definition in_param (n t : string) (pos : Z) : Param :=
  {| param_name := Some n; param_type := Some t; param_mode := Some "IN";
     param_position := Some pos; param_default := None;
     param_description := None |}.

Definition rpc_function (n : string) (ps : list Param) : FunctionInfo :=
  {| function_name := n; function_schema := "public"; return_type := "json";
     parameters := ps; language := "plpgsql"; security_definer := false;
     function_description := None |}.

Definition schema_of (fs : list FunctionInfo) (es : list EnumInfo)
    : SupabaseSchemaInfo :=
  {| project_url := "test"; tables := []; functions := fs; views := [];
     enums := es; extensions := []; schemas := [] |}.

(** [f(user_id uuid required, range enum[7d,30d,90d,1y] required)] *)
Definition range_function : FunctionInfo :=
  rpc_function "f"
    [in_param "user_id" "uuid" 1; in_param "range" "date_range_type" 2].

Definition range_schema : SupabaseSchemaInfo :=
  schema_of [range_function]
    [ {| enum_name := "date_range_type";
         enum_values := ["7d"; "30d"; "90d"; "1y"] |} ].

Definition sample_uuid : string := "123e4567-e89b-12d3-a456-426614174000".

(** [check_user_permissions] of the integration test: three required
    parameters and one with a default. *)
Definition check_user_permissions : FunctionInfo :=
  rpc_function "check_user_permissions"
    [ in_param "user_uuid" "uuid" 1;
      in_param "resource_type" "resource_type" 2;
      in_param "action_type" "text" 3;
      {| param_name := Some "context_data"; param_type := Some "json";
         param_mode := Some "IN"; param_position := Some 4%Z;
         param_default := Some (VStr "{}"); param_description := None |} ].

Definition permissions_schema : SupabaseSchemaInfo :=
  schema_of [check_user_permissions]
    [ {| enum_name := "resource_type";
         enum_values := ["document"; "project"; "user"; "admin"] |} ].

(** [g(a IN, b OUT)]: two parameters without a default, of which only the
    input is required. *)
Definition out_function : FunctionInfo :=
  rpc_function "g"
    [ in_param "a" "integer" 1;
      {| param_name := Some "b"; param_type := Some "integer";
         param_mode := Some "OUT"; param_position := Some 2%Z;
         param_default := None; param_description := None |} ].

Definition out_schema : SupabaseSchemaInfo := schema_of [out_function] [].

(** A catalog of five functions under four names: [get_user] is declared
    twice, first with one parameter and then with two. *)
Definition four_names_schema : SupabaseSchemaInfo :=
  schema_of
    [ rpc_function "get_user" [in_param "id" "uuid" 1];
      rpc_function "list_posts" [];
      rpc_function "get_user" [in_param "id" "uuid" 1;
                               in_param "tenant" "text" 2];
      rpc_function "delete_post" [in_param "post_id" "bigint" 1];
      rpc_function "count_logs" [] ]
    [].

(** A client whose metadata queries all fail and whose direct access
    reaches the tables [users] and [posts] only. *)
Definition rest_only_client : Introspector.Client :=
  {| Introspector.select_tables := Introspector.Raises;
     Introspector.select_columns := fun _ _ => Introspector.Raises;
     Introspector.select_primary_keys := fun _ _ => Introspector.Raises;
     Introspector.select_foreign_keys := fun _ _ => Introspector.Raises;
     Introspector.select_indexes := fun _ _ => Introspector.Raises;
     Introspector.select_relrowsecurity := fun _ _ => Introspector.Raises;
     Introspector.select_policies := fun _ _ => Introspector.Raises;
     Introspector.select_routines := Introspector.Raises;
     Introspector.select_parameters := fun _ _ => Introspector.Raises;
     Introspector.select_views := Introspector.Raises;
     Introspector.select_enums := Introspector.Raises;
     Introspector.select_extensions := Introspector.Raises;
     Introspector.select_schemas := Introspector.Raises;
     Introspector.table_select_one :=
       fun name =>
         if str_in name ["users"; "posts"] then Introspector.Data tt
         else Introspector.Raises |}.

(** A syntax-tree producer that rejects every source, with walkers that
    leave the result as it is. *)
Definition rejecting_services : TsAnalyzer.Services :=
  {| TsAnalyzer._parse_with_esprima := fun _ => None;
     TsAnalyzer._extract_imports := fun _ r => r;
     TsAnalyzer._extract_components := fun _ r => r;
     TsAnalyzer._extract_hooks := fun _ r => r;
     TsAnalyzer._extract_function_calls := fun _ r => r;
     TsAnalyzer._extract_type_annotations := fun _ r => r;
     TsAnalyzer._extract_exports := fun _ r => r |}.

(** An interpreter process whose [hash] is constant, and one whose [hash]
    differs from it. *)
Definition process_a : GraphBuilder.Process :=
  {| GraphBuilder.hook_str := GraphBuilder.hook_name;
     GraphBuilder.hash := fun _ => 1%Z |}.

Definition process_b : GraphBuilder.Process :=
  {| GraphBuilder.hook_str := GraphBuilder.hook_name;
     GraphBuilder.hash := fun _ => 2%Z |}.


Definition use_state : GraphBuilder.HookData :=
  {| GraphBuilder.hook_name := "useState";
     GraphBuilder.hook_args := ["0"];
     GraphBuilder.hook_variable_name := None |}.

(** [src/App.tsx]: the component [App], which calls [useState(0)]. *)
Definition app_module : GraphBuilder.ModuleData :=
  {| GraphBuilder.file_path := "src/App.tsx";
     GraphBuilder.module_name := "App";
     GraphBuilder.line_count := 12%Z;
     GraphBuilder.classes := [];
     GraphBuilder.functions := [];
     GraphBuilder.components :=
       [ {| GraphBuilder.component_name := "App";
            GraphBuilder.component_full_name := "App.App";
            GraphBuilder.component_type := Some "function";
            GraphBuilder.component_props := [];
            GraphBuilder.component_hooks := [];
            GraphBuilder.component_is_exported := true |} ];
     GraphBuilder.hook_calls := [use_state] |}.

(** The function [formatDate] of [src/utils.ts], in two repositories. *)
Definition format_date_in (repo : string) : GraphBuilder.Entity :=
  {| GraphBuilder.entity_repository := repo;
     GraphBuilder.entity_file := "src/utils.ts";
     GraphBuilder.entity_nesting := "";
     GraphBuilder.entity_name := "formatDate";
     GraphBuilder.entity_kind := GraphBuilder.KFunction |}.

(** A source the component-language grammar rejects. *)
Definition invalid_source : string := "const = ;".

End Scenarios.

(* ================================================================== *)
(** ** Invariants of the graph the builder creates *)
(* ================================================================== *)

Module GraphInvariants.
Import GraphBuilder.









Definition among (ls : list Label) (l : Label) : bool :=
  existsb (Label_eqb l) ls.

(** The pattern by which [clear_repository_data] reaches the nodes of a
    label from the repository node. *)
Definition path (l : Label) : list (RelType * Label) :=
  match l with
  | Repository => []
  | File => [(CONTAINS, File)]
  | Class => [(CONTAINS, File); (DEFINES, Class)]
  | Function => [(CONTAINS, File); (DEFINES, Function)]
  | Component => [(CONTAINS, File); (DEFINES, Component)]
  | Hook => [(CONTAINS, File); (USES, Hook)]
  | Method => [(CONTAINS, File); (DEFINES, Class); (HAS_METHOD, Method)]
  | Attribute =>
      [(CONTAINS, File); (DEFINES, Class); (HAS_ATTRIBUTE, Attribute)]
  end.




End GraphInvariants.

(* ================================================================== *)
(** ** Shapes of the strings the anchored patterns accept *)
(* ================================================================== *)

Module PatternShapes.
Import Py.

(** The line feed, which [$] lets pass at the end of a string. *)
Definition line_feed : string := String (ascii_of_nat 10) EmptyString.

(** The atoms that take exactly one character. *)
Definition one_char (a : atom) : bool :=
  match a with
  | Hex | Digit | Lit _ => true
  | Opt _ => false
  end.

Definition atom_ok (a : atom) (c : ascii) : bool :=
  match a with
  | Hex => is_hex c
  | Digit => is_digit c
  | Lit x | Opt x => Ascii.eqb x c
  end.

(** [s] is, character by character, what the atoms of [p] ask for. *)
Fixpoint spells (p : list atom) (s : string) : bool :=
  match p, s with
  | [], EmptyString => true
  | a :: p', String c s' => atom_ok a c && spells p' s'
  | _, _ => false
  end.

(** An atom of a pattern made of hexadecimal digits and hyphens. *)
Definition hex_or_hyphen (a : atom) : bool :=
  match a with
  | Hex => true
  | Lit c => Ascii.eqb c "-"
  | _ => false
  end.

End PatternShapes.

(* ================================================================== *)
(** ** Keys of the nodes in the graph store *)
(* ================================================================== *)

Module GraphKeys.
Import GraphBuilder.

(** The keys borne by the nodes of one label. *)
Definition keys_of (l : Label) (g : Graph) : list string :=
  map key (labelled l g).

(** No two nodes of a label other than [Repository] bear the same key. *)
Definition distinct_keys (g : Graph) : Prop :=
  forall l, l <> Repository -> NoDup (keys_of l g).

End GraphKeys.

(* ================================================================== *)
(** ** Further concrete data *)
(* ================================================================== *)

Module Samples.
Import Py Catalog.

(** The parameters the cache holds for [f] of [range_schema]. *)
Definition range_expected : list Rpc.ExpectedParameter :=
  Rpc.expected_parameters (Rpc._build_enum_cache Scenarios.range_schema)
    Scenarios.range_function.

(** Two functions named [f]: the second declaration has other parameters. *)
Definition first_f : FunctionInfo :=
  Scenarios.rpc_function "f" [Scenarios.in_param "a" "uuid" 1].

Definition second_f : FunctionInfo :=
  Scenarios.rpc_function "f"
    [Scenarios.in_param "b" "int" 1; Scenarios.in_param "c" "text" 2].

Definition overloaded_schema : SupabaseSchemaInfo :=
  Scenarios.schema_of [first_f; second_f] [].

(** A store that holds the graph of another repository. *)
Definition admin_store : GraphBuilder.Graph :=
  match @GraphBuilder._create_graph Scenarios.process_a "shop-admin"
          [Scenarios.app_module] GraphBuilder.empty_graph with
  | Some g => g
  | None => GraphBuilder.empty_graph
  end.

End Samples.

(* ================================================================== *)
(** ** More of Python's [str]: searching, splitting, [upper] *)
(* ================================================================== *)

Module PyText.
Import Py.

(** [l] starts with [p]. *)
Fixpoint starts (p l : list ascii) : bool :=
  match p, l with
  | [], _ => true
  | _ :: _, [] => false
  | a :: p', b :: l' => Ascii.eqb a b && starts p' l'
  end.

(** [s.startswith(p)] *)
Definition startswith (s p : string) : bool := starts (chars p) (chars s).

(** [s.endswith(p)] *)
Definition endswith (s p : string) : bool :=
  starts (rev (chars p)) (rev (chars s)).

Fixpoint occurs (p l : list ascii) : bool :=
  starts p l || match l with
                | [] => false
                | _ :: l' => occurs p l'
                end.

(** [sub in s] *)
Definition contains (sub s : string) : bool := occurs (chars sub) (chars s).

(** [s.split(sep)] for a separator that is not empty: the text is read
    from the left; where the separator starts, the part read so far ends
    and the separator is passed over ([skip] counts what is left of it). *)
Fixpoint split_from (sep : list ascii) (skip : nat) (part : list ascii)
    (l : list ascii) : list string :=
  match l with
  | [] => [text (rev part)]
  | c :: l' =>
      match skip with
      | S k => split_from sep k part l'
      | O =>
          if starts sep l
          then text (rev part) :: split_from sep (length sep - 1) [] l'
          else split_from sep 0 (c :: part) l'
      end
  end.

Definition split (s sep : string) : list string :=
  split_from (chars sep) 0 [] (chars s).

(** [s.split()]: the maximal runs of characters that are not white space. *)
Fixpoint words_from (word : list ascii) (l : list ascii) : list string :=
  match l with
  | [] => match word with
          | [] => []
          | _ :: _ => [text (rev word)]
          end
  | c :: l' =>
      if is_space c
      then match word with
           | [] => words_from [] l'
           | _ :: _ => text (rev word) :: words_from [] l'
           end
      else words_from (c :: word) l'
  end.

Definition words (s : string) : list string := words_from [] (chars s).

(** [c.upper()], as code points: three characters below 256 have an
    upper-case form that is not one character below 256. *)
Definition upper_char (c : ascii) : list nat :=
  if between 97 122 c then [code c - 32]
  else if (code c =? 181)%nat then [924]
  else if (code c =? 223)%nat then [83; 83]
  else if (code c =? 255)%nat then [376]
  else if between 224 254 c && negb (code c =? 247)%nat then [code c - 32]
  else [code c].

(** [s.upper()], as code points *)
Definition upper (s : string) : list nat := flat_map upper_char (chars s).

(** The code points of a string. *)
Definition points (s : string) : list nat := map code (chars s).

(** [d.get(key, dflt)] for a dict with string keys and a key given by its
    code points. *)
Fixpoint get_points {V : Type} (d : dict V) (key : list nat) (dflt : V) : V :=
  match d with
  | [] => dflt
  | (k, v) :: d' =>
      if list_eq_dec Nat.eq_dec (points k) key then v
      else get_points d' key dflt
  end.

(** The number a decimal numeral writes, read after the value [v] of the
    digits before it. *)
Fixpoint uint_value (d : Decimal.uint) (v : Z) : Z :=
  match d with
  | Decimal.Nil => v
  | Decimal.D0 d' => uint_value d' (v * 10 + 0)
  | Decimal.D1 d' => uint_value d' (v * 10 + 1)
  | Decimal.D2 d' => uint_value d' (v * 10 + 2)
  | Decimal.D3 d' => uint_value d' (v * 10 + 3)
  | Decimal.D4 d' => uint_value d' (v * 10 + 4)
  | Decimal.D5 d' => uint_value d' (v * 10 + 5)
  | Decimal.D6 d' => uint_value d' (v * 10 + 6)
  | Decimal.D7 d' => uint_value d' (v * 10 + 7)
  | Decimal.D8 d' => uint_value d' (v * 10 + 8)
  | Decimal.D9 d' => uint_value d' (v * 10 + 9)
  end%Z.

(** The characters of a written integer. *)
Definition digit_or_minus (c : ascii) : bool :=
  is_digit c || Ascii.eqb c "-"%char.

Definition written (l : list ascii) : Prop :=
  Forall (fun c => digit_or_minus c = true) l.

End PyText.

(* ================================================================== *)
(** ** Assembling the report ([comprehensive_validator.py]) *)
(* ================================================================== *)

Module Reporting.
Import Py PyText Confidence.

Definition type_index (t : DetectionType) : nat :=
  match t with
  | COMPONENT_NOT_FOUND => 0
  | HOOK_NOT_FOUND => 1
  | SUPABASE_TABLE_NOT_FOUND => 2
  | SUPABASE_FUNCTION_NOT_FOUND => 3
  | RPC_PARAMETER_TYPE_MISMATCH => 4
  | RPC_MISSING_REQUIRED_PARAM => 5
  | RPC_INVALID_ENUM_VALUE => 6
  | RPC_INVALID_JSON_STRUCTURE => 7
  | RPC_PARAMETER_COUNT_MISMATCH => 8
  | INCORRECT_SIGNATURE => 9
  | INVALID_TYPE => 10
  | BAD_PRACTICE => 11
  | IMPORT_NOT_FOUND => 12
  | METHOD_NOT_FOUND => 13
  | ATTRIBUTE_NOT_FOUND => 14
  end.

Definition DetectionType_eqb (a b : DetectionType) : bool :=
  Nat.eqb (type_index a) (type_index b).

Definition Severity_eqb (a b : Severity) : bool :=
  match a, b with
  | CRITICAL, CRITICAL | HIGH, HIGH | MEDIUM, MEDIUM | LOW, LOW
  | INFO, INFO => true
  | _, _ => false
  end.

(** *** [_detect_language] *)

Definition _detect_language (script_path : string) : string :=
  if endswith script_path ".ts" || endswith script_path ".tsx"
  then "typescript"
  else if endswith script_path ".js" || endswith script_path ".jsx"
       then "javascript"
       else "unknown".

(** *** The severity table *)

Definition severity_mapping : dict Severity :=
  [ ("CRITICAL", CRITICAL); ("HIGH", HIGH); ("MEDIUM", MEDIUM);
    ("LOW", LOW); ("INFO", INFO) ].

(** [mapping.get(severity_str.upper(), Severity.MEDIUM)] *)
Definition _map_rpc_severity (severity_str : string) : Severity :=
  get_points severity_mapping (upper severity_str) MEDIUM.

(** *** [_extract_line_number]

    Every exception is caught and gives 1: the [ValueError] of [int] and
    the [IndexError] of an empty [split()]. *)
Definition _extract_line_number (location : string) : Z :=
  if contains "line" location then
    match nth_error (split location "line") 1 with
    | Some after =>
        match words (strip after) with
        | word :: _ => get_or (int_of_str word) 1%Z
        | [] => 1%Z
        end
    | None => 1%Z
    end
  else if contains ":" location then
    get_or (int_of_str (last (split location ":") "")) 1%Z
  else 1%Z.

(** *** [_generate_recommendations] *)

(** [type_counts[t] = type_counts.get(t, 0) + 1] *)
Fixpoint bump (t : DetectionType) (counts : list (DetectionType * nat))
    : list (DetectionType * nat) :=
  match counts with
  | [] => [(t, 1)]
  | (t', n) :: counts' =>
      if DetectionType_eqb t' t then (t', n + 1) :: counts'
      else (t', n) :: bump t counts'
  end.

Definition type_counts (ds : list Detection) : list (DetectionType * nat) :=
  fold_left (fun counts d => bump (detection_type d) counts) ds [].

Fixpoint count_of (t : DetectionType) (counts : list (DetectionType * nat))
    : option nat :=
  match counts with
  | [] => None
  | (t', n) :: counts' =>
      if DetectionType_eqb t' t then Some n else count_of t counts'
  end.

(** The recommendation about the detections of one type, if there are any:
    [if t in type_counts: recommendations.append(f"Found {n} ..." "...")]. *)
Definition found (counts : list (DetectionType * nat)) (t : DetectionType)
    (what advice : string) : list string :=
  match count_of t counts with
  | Some n => ["Found " ++ str_of_nat n ++ what ++ advice]
  | None => []
  end.

Definition no_major_issues : string :=
  "No major issues detected. Code appears to follow good practices.".

Definition _generate_recommendations (report : ValidationReport)
    : list string :=
  let counts := type_counts (detections report) in
  let recommendations :=
    (found counts COMPONENT_NOT_FOUND " unknown components. "
       "Verify component imports and check if they exist in your codebase."
     ++ found counts SUPABASE_TABLE_NOT_FOUND
          " references to non-existent Supabase tables. "
          "Update your database schema or fix table names in your code."
     ++ found counts INCORRECT_SIGNATURE
          " functions with incorrect signatures. "
          "Check framework documentation for correct function parameters."
     ++ found counts BAD_PRACTICE " code style issues. "
          "Consider following React and TypeScript best practices."
     ++ (if str_in "react" (frameworks_detected report)
         then [ "Use React DevTools and ESLint React plugin for additional validation.";
                "Follow React Hooks rules and best practices." ]
         else [])
     ++ [ if String.eqb (language report) "typescript"
          then "Enable TypeScript strict mode for better type checking."
          else "Consider migrating to TypeScript for better static analysis." ])%list in
  match recommendations with
  | [] => [no_major_issues]
  | _ :: _ => recommendations
  end.

(** *** [_calculate_statistics] *)

(** [sum(1 for d in report.detections if d.severity == s)] *)
Definition count_severity (s : Severity) (ds : list Detection) : Z :=
  Z.of_nat (length (filter (fun d => Severity_eqb (severity d) s) ds)).

(** What a computation gives when it can raise: its value, or the text of
    the exception. *)
Inductive raising (A : Type) : Type :=
| Returns (a : A)
| Raises (exception_text : string).
Arguments Returns {A} a.
Arguments Raises {A} exception_text.

(** [len(v)], which raises [TypeError] on a value without a length. *)
Definition len (v : value) : raising Z :=
  match v with
  | VStr s => Returns (Z.of_nat (String.length s))
  | VList l => Returns (Z.of_nat (length l))
  | VDict d => Returns (Z.of_nat (length d))
  | _ => Raises ("object of type '" ++ type_name v ++ "' has no len()")
  end.

Definition basic_statistics (report : ValidationReport) : dict Z :=
  [ ("total_detections", Z.of_nat (length (detections report)));
    ("critical_issues", count_severity CRITICAL (detections report));
    ("high_issues", count_severity HIGH (detections report));
    ("medium_issues", count_severity MEDIUM (detections report));
    ("low_issues", count_severity LOW (detections report));
    ("frameworks_detected", Z.of_nat (length (frameworks_detected report))) ].

Definition _calculate_statistics (report : ValidationReport)
    : raising (dict Z) :=
  let stats := basic_statistics report in
  match supabase_info report with
  | Some (item :: items) =>
      let info := item :: items in
      match len (get_or (dict_get info "tables_available") (VList [])) with
      | Returns tables =>
          match len (get_or (dict_get info "functions_available") (VList []))
          with
          | Returns functions =>
              Returns (dict_set (dict_set stats "supabase_tables" tables)
                                "supabase_functions" functions)
          | Raises e => Raises e
          end
      | Raises e => Raises e
      end
  | Some [] | None => Returns stats
  end.

(** *** Updating the report *)

Definition add_detections (report : ValidationReport) (ds : list Detection)
    : ValidationReport :=
  {| script_path := script_path report; language := language report;
     analysis_timestamp := analysis_timestamp report;
     overall_confidence := overall_confidence report;
     detections := (detections report ++ ds)%list;
     frameworks_detected := frameworks_detected report;
     supabase_info := supabase_info report;
     statistics := statistics report;
     recommendations := recommendations report |}.

Definition set_overall_confidence (report : ValidationReport) (c : Q)
    : ValidationReport :=
  {| script_path := script_path report; language := language report;
     analysis_timestamp := analysis_timestamp report;
     overall_confidence := c;
     detections := detections report;
     frameworks_detected := frameworks_detected report;
     supabase_info := supabase_info report;
     statistics := statistics report;
     recommendations := recommendations report |}.

Definition set_recommendations (report : ValidationReport)
    (rs : list string) : ValidationReport :=
  {| script_path := script_path report; language := language report;
     analysis_timestamp := analysis_timestamp report;
     overall_confidence := overall_confidence report;
     detections := detections report;
     frameworks_detected := frameworks_detected report;
     supabase_info := supabase_info report;
     statistics := statistics report;
     recommendations := rs |}.

Definition set_statistics (report : ValidationReport) (stats : dict Z)
    : ValidationReport :=
  {| script_path := script_path report; language := language report;
     analysis_timestamp := analysis_timestamp report;
     overall_confidence := overall_confidence report;
     detections := detections report;
     frameworks_detected := frameworks_detected report;
     supabase_info := supabase_info report;
     statistics := stats;
     recommendations := recommendations report |}.

(** *** [_validate_rpc_parameters]: from validation errors to detections *)

(** What [from rpc_parameter_validator import ParameterValidationType]
    gives inside [_map_rpc_validation_type]: the class the kinds of the
    errors belong to; another class of the same source, when the module is
    loaded a second time under its top-level name while the validator came
    from the package; or an [ImportError]. *)
Inductive kinds_import : Type :=
| SameClass
| OtherClass
| NoModule.

Definition rpc_type_mapping (t : Rpc.ParameterValidationType)
    : DetectionType :=
  match t with
  | Rpc.TYPE_MISMATCH => RPC_PARAMETER_TYPE_MISMATCH
  | Rpc.MISSING_REQUIRED => RPC_MISSING_REQUIRED_PARAM
  | Rpc.INVALID_ENUM => RPC_INVALID_ENUM_VALUE
  | Rpc.INVALID_JSON_STRUCTURE => RPC_INVALID_JSON_STRUCTURE
  | Rpc.PARAMETER_COUNT_MISMATCH => RPC_PARAMETER_COUNT_MISMATCH
  | Rpc.OPTIONAL_NOT_PROVIDED => BAD_PRACTICE
  end.

(** [mapping.get(validation_type, DetectionType.INCORRECT_SIGNATURE)]: the
    members of an enum are equal only to themselves, so a kind of another
    class is no key of the mapping.  [None] is the [ImportError]. *)
Definition _map_rpc_validation_type (imported : kinds_import)
    (validation_type : Rpc.ParameterValidationType) : option DetectionType :=
  match imported with
  | SameClass => Some (rpc_type_mapping validation_type)
  | OtherClass => Some INCORRECT_SIGNATURE
  | NoModule => None
  end.

(** [ParameterValidationType.value] *)
Definition kind_value (t : Rpc.ParameterValidationType) : string :=
  match t with
  | Rpc.TYPE_MISMATCH => "TYPE_MISMATCH"
  | Rpc.MISSING_REQUIRED => "MISSING_REQUIRED"
  | Rpc.INVALID_ENUM => "INVALID_ENUM"
  | Rpc.INVALID_JSON_STRUCTURE => "INVALID_JSON_STRUCTURE"
  | Rpc.PARAMETER_COUNT_MISMATCH => "PARAMETER_COUNT_MISMATCH"
  | Rpc.OPTIONAL_NOT_PROVIDED => "OPTIONAL_NOT_PROVIDED"
  end.

(** The detection built in the loop over [param_errors]. *)
Definition rpc_detection (function_name : string)
    (detection_type : DetectionType) (error : Rpc.ParameterValidationError)
    : Detection :=
  {| detection_type := detection_type;
     severity := _map_rpc_severity (Rpc.severity error);
     message := Rpc.message error;
     location := "line " ++ str_of_Z (Rpc.line_number error);
     line_number := Rpc.line_number error;
     confidence := 9 # 10;
     suggestion := Some (Rpc.suggestion error);
     context :=
       [ ("function_name", VStr function_name);
         ("parameter_name", VStr (Rpc.parameter_name error));
         ("validation_type", VStr (kind_value (Rpc.validation_type error)));
         ("expected", VStr (Rpc.expected error));
         ("actual", VStr (Rpc.actual error)) ] |}.

(** The detections the loop appends before it ends or an exception ends
    it: the [ImportError] comes with the first error, before any detection
    is appended. *)
Fixpoint converted (imported : kinds_import) (function_name : string)
    (errors : list Rpc.ParameterValidationError) : list Detection :=
  match errors with
  | [] => []
  | error :: errors' =>
      match _map_rpc_validation_type imported (Rpc.validation_type error) with
      | Some detection_type =>
          rpc_detection function_name detection_type error
          :: converted imported function_name errors'
      | None => []
      end
  end.

(** What [_validate_rpc_parameters] appends to the report, given the
    parameters [parse_rpc_parameters] read from the file ([None]: reading
    the file raised).  An empty dict of parameters is not validated. *)
Definition rpc_detections `{Builtins} (imported : kinds_import)
    (validator : Rpc.RPCParameterValidator) (function_name : string)
    (line : Z) (provided_params : option (dict value)) : list Detection :=
  match provided_params with
  | None | Some [] => []
  | Some provided =>
      converted imported function_name
        (Rpc.validate_rpc_call validator function_name provided line)
  end.

Definition _validate_rpc_parameters `{Builtins} (imported : kinds_import)
    (validator : Rpc.RPCParameterValidator) (function_name : string)
    (line : Z) (provided_params : option (dict value))
    (report : ValidationReport) : ValidationReport :=
  add_detections report
    (rpc_detections imported validator function_name line provided_params).

(** *** [validate_script] *)

(** The detection of a failed validation. *)
Definition failure (message script_path : string) : Detection :=
  {| detection_type := INVALID_TYPE; severity := CRITICAL;
     message := message; location := script_path; line_number := 1%Z;
     confidence := 1; suggestion := None; context := [] |}.

(** What the steps 2 to 7 of [validate_script] give: the report as they
    leave it, and the text of the exception if one of them raised. *)
Inductive detectors_outcome : Type :=
| Completed (report : ValidationReport)
| Interrupted (report : ValidationReport) (exception_text : string).


(** The surroundings of [validate_script]: the clock, [str(Path(p))], and
    the detectors of the steps 2 to 7, which work on files and on the
    graph store. *)
Class Pipeline : Type := {
  now : string;
  path_text : string -> string;
  run_detectors : TsAnalyzer.AnalysisResult -> ValidationReport
                  -> detectors_outcome
}.

Definition new_report `{Pipeline} (script_path : string) : ValidationReport :=
  {| script_path := script_path;
     language := _detect_language script_path;
     analysis_timestamp := now;
     overall_confidence := 0;
     detections := [];
     frameworks_detected := [];
     supabase_info := None;
     statistics := [];
     recommendations := [] |}.

Definition validate_script `{TsAnalyzer.Services} `{Pipeline}
    (script_path : string) (file : TsAnalyzer.read_outcome)
    : ValidationReport :=
  let report := new_report script_path in
  match TsAnalyzer.analyze_typescript_file (path_text script_path) file with
  | None =>
      add_detections report
        [failure "Could not parse TypeScript/JavaScript file" script_path]
  | Some analysis =>
      match run_detectors analysis report with
      | Interrupted report e =>
          add_detections report
            [failure ("Validation failed: " ++ e) script_path]
      | Completed report =>
          let report :=
            set_overall_confidence report
              (_calculate_overall_confidence report) in
          let report :=
            set_recommendations report (_generate_recommendations report) in
          match _calculate_statistics report with
          | Returns stats => set_statistics report stats
          | Raises e =>
              add_detections report
                [failure ("Validation failed: " ++ e) script_path]
          end
      end
  end.

End Reporting.

(* ================================================================== *)
(** ** Concrete reports *)
(* ================================================================== *)

Module ReportSamples.
Import Py Confidence Reporting.

(** A validator whose detectors find nothing. *)
Definition quiet_pipeline : Pipeline :=
  {| now := "2025-01-01T00:00:00+00:00";
     path_text := fun p => p;
     run_detectors := fun _ report => Completed report |}.

(** A report with an INFO and a HIGH detection, of a project with one
    table. *)
Definition one_table_report : ValidationReport :=
  {| script_path := "src/App.tsx"; language := "typescript";
     analysis_timestamp := "2025-01-01T00:00:00+00:00";
     overall_confidence := 0%Q;
     detections := [detection INFO 1; detection HIGH (9 # 10)];
     frameworks_detected := ["react"];
     supabase_info :=
       Some [ ("tables_available", VList [VStr "users"]);
              ("functions_available", VList []) ];
     statistics := []; recommendations := [] |}.

End ReportSamples.

(* ================================================================== *)
(** ** Letter case and identifiers, for code points below 256 *)
(* ================================================================== *)

Module PyCase.
Import Py PyText.

(** [c.isupper()] and [c.islower()] on one character *)
Definition is_upper (c : ascii) : bool :=
  between 65 90 c || between 192 214 c || between 216 222 c.

Definition is_lower (c : ascii) : bool :=
  between 97 122 c || (code c =? 170)%nat || (code c =? 181)%nat
  || (code c =? 186)%nat || between 223 246 c || between 248 255 c.

(** [s.isupper()]: no lower-case letter and at least one upper-case
    letter. *)
Definition isupper (s : string) : bool :=
  negb (existsb is_lower (chars s)) && existsb is_upper (chars s).

(** [s.islower()] *)
Definition islower (s : string) : bool :=
  negb (existsb is_upper (chars s)) && existsb is_lower (chars s).

(** The characters that can start an identifier, and those that can
    continue one. *)
Definition id_start (c : ascii) : bool :=
  between 65 90 c || (code c =? 95)%nat || between 97 122 c
  || (code c =? 170)%nat || (code c =? 181)%nat || (code c =? 186)%nat
  || between 192 214 c || between 216 246 c || between 248 255 c.

Definition id_continue (c : ascii) : bool :=
  id_start c || is_digit c || (code c =? 183)%nat.

(** [s.isidentifier()] *)
Definition isidentifier (s : string) : bool :=
  match chars s with
  | [] => false
  | c :: l => id_start c && forallb id_continue l
  end.

(** [s.capitalize()], as code points: the first character in title case,
    the others in lower case. *)
Definition title_char (c : ascii) : list nat :=
  if (code c =? 223)%nat then [83; 115] else upper_char c.

Definition capitalize (s : string) : list nat :=
  match chars s with
  | [] => []
  | c :: l => (title_char c ++ map (fun x => code (lower_char x)) l)%list
  end.

End PyCase.

(* ================================================================== *)
(** ** The tree walkers of the analyzer ([typescript_analyzer.py])

    The syntax tree is the value [json.loads] gave: the walkers test what
    they find with [isinstance] in some places and not in others, so a
    field of a record holds whatever the tree held, and a walk can end with
    an exception.  What was recorded before the exception stays in the
    result.

    The walkers recurse on the tree.  The interpreter's limit on the depth
    of recursion is not modelled: on a tree nested deeper than the limit the
    walk ends early with a [RecursionError], handled like every other
    exception, and the result holds a prefix of what is recorded here. *)
(* ================================================================== *)

Module TsWalkers.
Import Py PyText PyCase Reporting.

Record ImportInfo : Type := {
  import_module : value;
  import_name : value;
  alias : value;
  is_default_import : bool;
  is_namespace_import : bool;
  import_line : value
}.

Record ComponentInfo : Type := {
  name : value;
  type : string;
  props : list value;
  hooks : list value;
  line_number : value;
  is_exported : bool
}.

Record HookCall : Type := {
  hook_name : value;
  hook_args : list value;
  hook_line : value;
  variable_name : value
}.

Record FunctionCall : Type := {
  function_name : value;
  call_args : list value;
  call_line : value;
  object_name : value
}.

Record AnalysisResult : Type := {
  file_path : string;
  imports : list ImportInfo;
  components : list ComponentInfo;
  hook_calls : list HookCall;
  function_calls : list FunctionCall;
  exports : list value;
  errors : list string
}.

(** *** Operations on values *)

Definition bind {A B : Type} (r : raising A) (k : A -> raising B)
    : raising B :=
  match r with
  | Returns a => k a
  | Raises e => Raises e
  end.

Notation "x <- r ;; k" := (bind r (fun x => k))
  (at level 61, r at next level, right associativity).

(** What a computation gives satisfies [P], if it gives something. *)
Definition returned {A : Type} (P : A -> Prop) (r : raising A) : Prop :=
  match r with
  | Returns a => P a
  | Raises _ => True
  end.

(** [v == text] for a literal [text] *)
Definition is_text (v : value) (text : string) : bool :=
  match v with
  | VStr s => String.eqb s text
  | _ => false
  end.

(** [d.get(key, dflt)] on a dict *)
Definition dict_or (d : dict value) (key : string) (dflt : value) : value :=
  get_or (dict_get d key) dflt.

(** [v.get(key, dflt)]: only a dict has the method. *)
Definition get (v : value) (key : string) (dflt : value) : raising value :=
  match v with
  | VDict d => Returns (dict_or d key dflt)
  | _ => Raises ("'" ++ type_name v ++ "' object has no attribute 'get'")
  end.

(** [v.get(key, dflt) if isinstance(v, dict) else dflt] *)
Definition guarded_get (v : value) (key : string) (dflt : value) : value :=
  match v with
  | VDict d => dict_or d key dflt
  | _ => dflt
  end.

(** [for x in v]: the items of a list, the characters of a string, the
    keys of a dict. *)
Definition iterate (v : value) : raising (list value) :=
  match v with
  | VList l => Returns l
  | VStr s => Returns (map (fun c => VStr (String c "")) (chars s))
  | VDict d => Returns (map (fun kv => VStr (fst kv)) d)
  | _ => Raises ("'" ++ type_name v ++ "' object is not iterable")
  end.

(** [[f(x) for x in l]] *)
Fixpoint map_raising {A B : Type} (f : A -> raising B) (l : list A)
    : raising (list B) :=
  match l with
  | [] => Returns []
  | a :: l' => b <- f a ;; bs <- map_raising f l' ;; Returns (b :: bs)
  end.

(** A loop that extends a local list. *)
Fixpoint collect {A B : Type} (f : A -> raising (list B)) (l : list A)
    : raising (list B) :=
  match l with
  | [] => Returns []
  | a :: l' => b <- f a ;; bs <- collect f l' ;; Returns (b ++ bs)%list
  end.

(** [v[0]] *)
Definition first_item (v : value) : raising value :=
  match v with
  | VStr s =>
      match chars s with
      | c :: _ => Returns (VStr (String c ""))
      | [] => Raises "string index out of range"
      end
  | VList l =>
      match l with
      | x :: _ => Returns x
      | [] => Raises "list index out of range"
      end
  | VDict _ => Raises "0"
  | _ => Raises ("'" ++ type_name v ++ "' object is not subscriptable")
  end.

(** [v.isupper()] and [v.isidentifier()]: methods of [str] only. *)
Definition isupper_of (v : value) : raising bool :=
  match v with
  | VStr s => Returns (isupper s)
  | _ => Raises ("'" ++ type_name v ++ "' object has no attribute 'isupper'")
  end.

Definition isidentifier_of (v : value) : raising bool :=
  match v with
  | VStr s => Returns (isidentifier s)
  | _ => Raises ("'" ++ type_name v
                 ++ "' object has no attribute 'isidentifier'")
  end.

(** *** The walk

    A loop or a walk gives what it appended to the result, and the text of
    the exception if it raised. *)

Definition of_raising {R : Type} (r : raising (list R))
    : list R * option string :=
  match r with
  | Returns found => (found, None)
  | Raises e => ([], Some e)
  end.

Section Loop.
Context {A R : Type} (body : A -> list R * option string).

(** A loop whose body appends to the result and can raise. *)
Fixpoint each (l : list A) : list R * option string :=
  match l with
  | [] => ([], None)
  | a :: l' =>
      match body a with
      | (found, Some e) => (found, Some e)
      | (found, None) =>
          let (found', e) := each l' in ((found ++ found')%list, e)
      end
  end.

End Loop.

Section Walk.
Context {R : Type} (visit : dict value -> list R * option string).

(** [walk_ast]: a dict is visited, then its values that are lists or dicts
    are walked, in the order of the keys; the items of a list are walked
    in order. *)
Fixpoint walk_ast (node : value) : list R * option string :=
  match node with
  | VDict items =>
      match visit items with
      | (found, Some e) => (found, Some e)
      | (found, None) =>
          let (found', e) :=
            each (fun kv : string * value =>
                    let (_, child) := kv in
                    match child with
                    | VList _ | VDict _ => walk_ast child
                    | _ => ([], None)
                    end) items in
          ((found ++ found')%list, e)
      end
  | VList items => each walk_ast items
  | _ => ([], None)
  end.

End Walk.

(** *** [_extract_arg_value] *)

Definition _extract_arg_value `{Builtins} (arg : value) : raising value :=
  if negb (truthy arg) then Returns (VStr "")
  else
    arg_type <- get arg "type" VNone ;;
    if is_text arg_type "Literal" then
      v <- get arg "value" (VStr "") ;; Returns (VStr (str v))
    else if is_text arg_type "Identifier" then get arg "name" (VStr "")
    else if is_text arg_type "MemberExpression" then
      object <- get arg "object" (VDict []) ;;
      obj <- get object "name" (VStr "") ;;
      property <- get arg "property" (VDict []) ;;
      prop <- get property "name" (VStr "") ;;
      Returns (VStr (str obj ++ "." ++ str prop))
    else Returns (VStr ("<" ++ str arg_type ++ ">")).

(** [node.get('loc', {}).get('start', {}).get('line', 0)] *)
Definition line_of_call (node : dict value) : raising value :=
  start <- get (dict_or node "loc" (VDict [])) "start" (VDict []) ;;
  get start "line" (VInt 0).

(** [[self._extract_arg_value(arg) for arg in node.get('arguments', [])]] *)
Definition args_of_call `{Builtins} (node : dict value)
    : raising (list value) :=
  arguments <- iterate (dict_or node "arguments" (VList [])) ;;
  map_raising _extract_arg_value arguments.

(** *** [_extract_hooks] and [_extract_function_calls] *)

Definition react_hooks : list string :=
  [ "useState"; "useEffect"; "useContext"; "useReducer"; "useCallback";
    "useMemo"; "useRef"; "useImperativeHandle"; "useLayoutEffect";
    "useDebugValue"; "useDeferredValue"; "useTransition"; "useId";
    "useSyncExternalStore"; "useInsertionEffect"; "useOptimistic" ].

(** [name in self.react_hooks or name.startswith('use')]: the set hashes
    the name, and only a [str] has [startswith]. *)
Definition names_a_hook (name : value) : raising bool :=
  match name with
  | VStr s => Returns (str_in s react_hooks || startswith s "use")
  | VList _ | VDict _ =>
      Raises ("unhashable type: '" ++ type_name name ++ "'")
  | _ => Raises ("'" ++ type_name name
                 ++ "' object has no attribute 'startswith'")
  end.

Definition hook_visit `{Builtins} (node : dict value)
    : raising (list HookCall) :=
  if is_text (dict_or node "type" VNone) "CallExpression" then
    let callee := dict_or node "callee" (VDict []) in
    callee_type <- get callee "type" VNone ;;
    if is_text callee_type "Identifier" then
      name <- get callee "name" (VStr "") ;;
      hook <- names_a_hook name ;;
      if hook : bool then
        line_num <- line_of_call node ;;
        args <- args_of_call node ;;
        Returns [ {| hook_name := name; hook_args := args;
                     hook_line := line_num; variable_name := VNone |} ]
      else Returns []
    else Returns []
  else Returns [].

Definition _extract_hooks `{Builtins} (ast : value)
    : list HookCall * option string :=
  walk_ast (fun node => of_raising (hook_visit node)) ast.

Definition call_visit `{Builtins} (node : dict value)
    : raising (list FunctionCall) :=
  if is_text (dict_or node "type" VNone) "CallExpression" then
    let callee := dict_or node "callee" (VDict []) in
    line_num <- line_of_call node ;;
    args <- args_of_call node ;;
    callee_type <- get callee "type" VNone ;;
    if is_text callee_type "Identifier" then
      name <- get callee "name" (VStr "") ;;
      hook <- names_a_hook name ;;
      if hook : bool then Returns []
      else Returns [ {| function_name := name; call_args := args;
                        call_line := line_num; object_name := VNone |} ]
    else if is_text callee_type "MemberExpression" then
      object <- get callee "object" (VDict []) ;;
      obj_name <- get object "name" (VStr "") ;;
      property <- get callee "property" (VDict []) ;;
      method_name <- get property "name" (VStr "") ;;
      Returns [ {| function_name := method_name; call_args := args;
                   call_line := line_num; object_name := obj_name |} ]
    else Returns []
  else Returns [].

Definition _extract_function_calls `{Builtins} (ast : value)
    : list FunctionCall * option string :=
  walk_ast (fun node => of_raising (call_visit node)) ast.

(** *** [_extract_components] *)

(** [name and name[0].isupper() and name.isidentifier()], as the [if]
    reads it *)
Definition _is_component_name (name : value) : raising bool :=
  if negb (truthy name) then Returns false
  else
    first <- first_item name ;;
    upper <- isupper_of first ;;
    if upper : bool then isidentifier_of name else Returns false.

Definition _extract_props_from_params (params : value)
    : raising (list value) :=
  items <- iterate params ;;
  collect
    (fun param =>
       param_type <- get param "type" VNone ;;
       if is_text param_type "Identifier" then
         n <- get param "name" (VStr "") ;; Returns [n]
       else if is_text param_type "ObjectPattern" then
         properties <- get param "properties" (VList []) ;;
         properties <- iterate properties ;;
         collect
           (fun prop =>
              prop_type <- get prop "type" VNone ;;
              if is_text prop_type "Property" then
                key <- get prop "key" (VDict []) ;;
                n <- get key "name" (VStr "") ;;
                Returns [n]
              else Returns [])
           properties
       else Returns [])
    items.

(** The line of a declaration, read behind [isinstance] tests. *)
Definition line_of (node : dict value) : value :=
  let loc_node := dict_or node "loc" (VDict []) in
  let start_node :=
    match loc_node with
    | VDict loc => dict_or loc "start" (VDict [])
    | _ => VDict []
    end in
  guarded_get start_node "line" (VInt 0).

(** The name of what [holder] declares. *)
Definition declared_name (holder : dict value) : value :=
  guarded_get (dict_or holder "id" (VDict [])) "name" (VStr "").

Definition component (name : value) (type : string) (props : list value)
    (line_num : value) : ComponentInfo :=
  {| name := name; type := type; props := props; hooks := [];
     line_number := line_num; is_exported := false |}.

Definition function_component (node : dict value)
    : raising (list ComponentInfo) :=
  let name := declared_name node in
  is_component <- _is_component_name name ;;
  if is_component : bool then
    props <- _extract_props_from_params (dict_or node "params" (VList [])) ;;
    Returns [component name "function" props (line_of node)]
  else Returns [].

Definition arrow_component (node : dict value) (declarator : value)
    : raising (list ComponentInfo) :=
  match declarator with
  | VDict d =>
      match dict_or d "init" (VDict []) with
      | VDict init_node =>
          if is_text (dict_or init_node "type" VNone)
               "ArrowFunctionExpression"
          then
            let name := declared_name d in
            is_component <- _is_component_name name ;;
            if is_component : bool then
              props <- _extract_props_from_params
                         (dict_or init_node "params" (VList [])) ;;
              Returns [component name "arrow" props (line_of node)]
            else Returns []
          else Returns []
      | _ => Returns []
      end
  | _ => Returns []
  end.

Definition class_component (node : dict value)
    : raising (list ComponentInfo) :=
  let name := declared_name node in
  is_component <- _is_component_name name ;;
  if is_component : bool then
    Returns [component name "class" [] (line_of node)]
  else Returns [].

Definition component_visit (node : dict value)
    : list ComponentInfo * option string :=
  let node_type := dict_or node "type" VNone in
  if is_text node_type "FunctionDeclaration" then
    of_raising (function_component node)
  else if is_text node_type "VariableDeclaration" then
    match iterate (dict_or node "declarations" (VList [])) with
    | Raises e => ([], Some e)
    | Returns declarators =>
        each (fun declarator => of_raising (arrow_component node declarator))
             declarators
    end
  else if is_text node_type "ClassDeclaration" then
    of_raising (class_component node)
  else ([], None).

Definition _extract_components (ast : value)
    : list ComponentInfo * option string :=
  walk_ast component_visit ast.

(** The dicts of a tree, each before the dicts inside it, in the order of
    the keys and of the items. *)
Fixpoint dicts_of (node : value) : list (dict value) :=
  match node with
  | VDict items =>
      items :: flat_map (fun kv : string * value =>
                           let (_, child) := kv in dicts_of child) items
  | VList items => flat_map dicts_of items
  | _ => []
  end.

(** What the visits of the dicts of a tree append, one after the other. *)
Definition visited {R : Type} (visit : dict value -> list R * option string)
    (ast : value) : list R :=
  flat_map (fun node => fst (visit node)) (dicts_of ast).

(** [found] is what a loop or a walk appended of [all], which it appended
    entirely unless it raised. *)
Definition reached {R : Type} (all : list R)
    (found : list R * option string) : Prop :=
  exists rest, all = (fst found ++ rest)%list
               /\ (snd found = None -> rest = []).

(** *** What the walkers record *)

(** A name that starts with a capital letter and is an identifier. *)
Definition capitalised (name : value) : Prop :=
  exists s c rest,
    name = VStr s /\ chars s = c :: rest /\ is_upper c = true
    /\ isidentifier s = true.

(** What [_extract_components] records of a component. *)
Definition as_recorded (c : ComponentInfo) : Prop :=
  is_exported c = false /\ hooks c = []
  /\ In (type c) ["function"; "arrow"; "class"]
  /\ capitalised (name c).

End TsWalkers.

(* ================================================================== *)
(** ** The checks on components ([comprehensive_validator.py])

    The checks read the fields of the records the analyzer filled, so they
    work on values; a detection holds the line it was given, which need not
    be a number, and a suggestion is given by its code points, since
    [capitalize] can leave the code points below 256. *)
(* ================================================================== *)

Module ReactChecks.
Import Py PyText PyCase Reporting Confidence.

Record Detection : Type := {
  detection_type : DetectionType;
  severity : Severity;
  message : string;
  location : string;
  line_number : value;
  confidence : Q;
  suggestion : option (list nat);
  context : dict value
}.

Notation "x <- r ;; k" := (TsWalkers.bind r (fun x => k))
  (at level 61, r at next level, right associativity).

(** [v.capitalize()]: a method of [str] only. *)
Definition capitalize_of (v : value) : raising (list nat) :=
  match v with
  | VStr s => Returns (capitalize s)
  | _ => Raises ("'" ++ type_name v
                 ++ "' object has no attribute 'capitalize'")
  end.

(** A loop over records whose body appends detections. *)
Definition for_each {A : Type} (body : A -> raising (list Detection))
    (l : list A) : list Detection * option string :=
  TsWalkers.each (fun a => TsWalkers.of_raising (body a)) l.

(** *** [_validate_react_components] *)

Definition naming_detection `{Builtins} (component : TsWalkers.ComponentInfo)
    (capitalized : list nat) : Detection :=
  {| detection_type := BAD_PRACTICE;
     severity := MEDIUM;
     message := "React component '" ++ str (TsWalkers.name component)
                ++ "' should start with a capital letter";
     location := "line " ++ str (TsWalkers.line_number component);
     line_number := TsWalkers.line_number component;
     confidence := 95 # 100;
     suggestion := Some (points "Rename to '" ++ capitalized ++ points "'")%list;
     context :=
       [ ("component_name", TsWalkers.name component);
         ("component_type", VStr (TsWalkers.type component)) ] |}.

Definition class_hooks_detection `{Builtins}
    (component : TsWalkers.ComponentInfo) : Detection :=
  {| detection_type := BAD_PRACTICE;
     severity := HIGH;
     message := "Class component '" ++ str (TsWalkers.name component)
                ++ "' cannot use hooks";
     location := "line " ++ str (TsWalkers.line_number component);
     line_number := TsWalkers.line_number component;
     confidence := 1;
     suggestion :=
       Some (points
               "Convert to function component or use class lifecycle methods");
     context :=
       [ ("component_name", TsWalkers.name component);
         ("hooks_used", VList (TsWalkers.hooks component)) ] |}.

Definition component_check `{Builtins} (component : TsWalkers.ComponentInfo)
    : raising (list Detection) :=
  first <- TsWalkers.first_item (TsWalkers.name component) ;;
  upper <- TsWalkers.isupper_of first ;;
  naming <- (if negb upper
             then capitalized <- capitalize_of (TsWalkers.name component) ;;
                  Returns [naming_detection component capitalized]
             else Returns []) ;;
  Returns (naming
           ++ if String.eqb (TsWalkers.type component) "class"
                 && match TsWalkers.hooks component with
                    | [] => false
                    | _ :: _ => true
                    end
              then [class_hooks_detection component]
              else [])%list.

(** What [_validate_react_components] appends to the detections of the
    report, and the text of the exception if it raised. *)
Definition _validate_react_components `{Builtins}
    (analysis : TsWalkers.AnalysisResult) : list Detection * option string :=
  for_each component_check (TsWalkers.components analysis).

(** *** [_validate_react_hooks] *)

(** [self.react_patterns['hooks']]: the hooks with a known signature, each
    with its [args]. *)
Definition known_hooks : dict (list string) :=
  [ ("useState", ["initialValue?"]);
    ("useEffect", ["effect"; "deps?"]);
    ("useContext", ["context"]);
    ("useReducer", ["reducer"; "initialState"; "init?"]);
    ("useCallback", ["callback"; "deps"]);
    ("useMemo", ["factory"; "deps"]);
    ("useRef", ["initialValue?"]);
    ("useImperativeHandle", ["ref"; "createHandle"; "deps?"]);
    ("useLayoutEffect", ["effect"; "deps?"]);
    ("useDebugValue", ["value"; "format?"]);
    ("useDeferredValue", ["value"]);
    ("useTransition", []);
    ("useId", []) ].

Definition signature_detection `{Builtins} (hook_call : TsWalkers.HookCall)
    (expected : list string) : Detection :=
  let hook_name := TsWalkers.hook_name hook_call in
  {| detection_type := INCORRECT_SIGNATURE;
     severity := MEDIUM;
     message := "Hook '" ++ str hook_name ++ "' expects at most "
                ++ str_of_nat (length expected) ++ " arguments, got "
                ++ str_of_nat (length (TsWalkers.hook_args hook_call));
     location := "line " ++ str (TsWalkers.hook_line hook_call);
     line_number := TsWalkers.hook_line hook_call;
     confidence := 8 # 10;
     suggestion :=
       Some (points ("Expected signature: " ++ str hook_name ++ "("
                     ++ join ", " expected ++ ")"));
     context :=
       [ ("hook_name", hook_name);
         ("expected_args", VList (map VStr expected));
         ("provided_args", VList (TsWalkers.hook_args hook_call)) ] |}.

(** The detection about a name [s] that has a lower-case letter after
    [use]. *)
Definition misnamed_detection `{Builtins} (hook_call : TsWalkers.HookCall)
    (s : string) : Detection :=
  let hook_name := TsWalkers.hook_name hook_call in
  {| detection_type := BAD_PRACTICE;
     severity := LOW;
     message := "Custom hook '" ++ str hook_name
                ++ "' should start with 'use' followed by a capital letter";
     location := "line " ++ str (TsWalkers.hook_line hook_call);
     line_number := TsWalkers.hook_line hook_call;
     confidence := 9 # 10;
     suggestion :=
       Some (points "Rename to 'use"
             ++ capitalize (text (skipn 3 (chars s))) ++ points "'")%list;
     context := [ ("hook_name", hook_name) ] |}.

(** The body of the loop: the table of the known hooks hashes the name,
    and only a [str] has [startswith]. *)
Definition hook_check `{Builtins} (hook_call : TsWalkers.HookCall)
    : raising (list Detection) :=
  match TsWalkers.hook_name hook_call with
  | VStr s =>
      match dict_get known_hooks s with
      | Some expected =>
          Returns (if (length expected
                       <? length (TsWalkers.hook_args hook_call))%nat
                   then [signature_detection hook_call expected]
                   else [])
      | None =>
          if startswith s "use" && (3 <? String.length s)%nat then
            match nth_error (chars s) 3 with
            | Some c =>
                Returns (if islower (String c "")
                         then [misnamed_detection hook_call s]
                         else [])
            | None => Raises "string index out of range"
            end
          else Returns []
      end
  | VList _ | VDict _ =>
      Raises ("unhashable type: '"
              ++ type_name (TsWalkers.hook_name hook_call) ++ "'")
  | _ =>
      Raises ("'" ++ type_name (TsWalkers.hook_name hook_call)
              ++ "' object has no attribute 'startswith'")
  end.

(** What [_validate_react_hooks] appends to the detections of the report,
    and the text of the exception if it raised. *)
Definition _validate_react_hooks `{Builtins}
    (analysis : TsWalkers.AnalysisResult) : list Detection * option string :=
  for_each hook_check (TsWalkers.hook_calls analysis).

(** *** [_detect_bad_practices] *)

(** The set of the imported names hashes each name. *)
Fixpoint imported_names (imports : list TsWalkers.ImportInfo)
    : raising (list value) :=
  match imports with
  | [] => Returns []
  | imp :: imports' =>
      if TsWalkers.is_namespace_import imp then imported_names imports'
      else
        match TsWalkers.import_name imp with
        | VList _ | VDict _ =>
            Raises ("unhashable type: '"
                    ++ type_name (TsWalkers.import_name imp) ++ "'")
        | n => names <- imported_names imports' ;; Returns (n :: names)
        end
  end.

Definition not_exported_detection `{Builtins}
    (component : TsWalkers.ComponentInfo) : Detection :=
  {| detection_type := BAD_PRACTICE;
     severity := LOW;
     message := "React component '" ++ str (TsWalkers.name component)
                ++ "' is not exported";
     location := "line " ++ str (TsWalkers.line_number component);
     line_number := TsWalkers.line_number component;
     confidence := 7 # 10;
     suggestion :=
       Some (points
               "Consider exporting the component if it should be reusable");
     context := [ ("component_name", TsWalkers.name component) ] |}.

Definition too_many_props_detection `{Builtins}
    (component : TsWalkers.ComponentInfo) : Detection :=
  let count := Z.of_nat (length (TsWalkers.props component)) in
  {| detection_type := BAD_PRACTICE;
     severity := MEDIUM;
     message := "Component '" ++ str (TsWalkers.name component)
                ++ "' has too many props (" ++ str_of_Z count ++ ")";
     location := "line " ++ str (TsWalkers.line_number component);
     line_number := TsWalkers.line_number component;
     confidence := 8 # 10;
     suggestion :=
       Some (points
               "Consider grouping related props into objects or using composition");
     context :=
       [ ("component_name", TsWalkers.name component);
         ("props_count", VInt count) ] |}.

Definition export_check `{Builtins} (component : TsWalkers.ComponentInfo)
    : raising (list Detection) :=
  first <- TsWalkers.first_item (TsWalkers.name component) ;;
  upper <- TsWalkers.isupper_of first ;;
  Returns (if upper : bool then [not_exported_detection component] else []).

Definition props_check `{Builtins} (component : TsWalkers.ComponentInfo)
    : list Detection :=
  if (10 <? length (TsWalkers.props component))%nat
  then [too_many_props_detection component]
  else [].

(** What [_detect_bad_practices] appends to the detections of the report,
    and the text of the exception if it raised. *)
Definition _detect_bad_practices `{Builtins}
    (analysis : TsWalkers.AnalysisResult) : list Detection * option string :=
  match imported_names (TsWalkers.imports analysis) with
  | Raises e => ([], Some e)
  | Returns _ =>
      let non_exported_components :=
        filter (fun comp => negb (TsWalkers.is_exported comp))
               (TsWalkers.components analysis) in
      match for_each export_check non_exported_components with
      | (found, Some e) => (found, Some e)
      | (found, None) =>
          ((found ++ flat_map props_check (TsWalkers.components analysis))%list,
           None)
      end
  end.

End ReactChecks.

(* ================================================================== *)
(** ** A concrete tree *)
(* ================================================================== *)

Module TreeSamples.
Import Py.

Definition identifier (name : string) : value :=
  VDict [("type", VStr "Identifier"); ("name", VStr name)].

Definition at_line (line : Z) : value :=
  VDict [("start", VDict [("line", VInt line); ("column", VInt 0)])].

(** The tree of
    [export function App(props) { const [n, setN] = useState(0); return user(n); }]. *)
Definition exported_app : value :=
  VDict
    [ ("type", VStr "Program");
      ("body",
       VList
         [ VDict
             [ ("type", VStr "ExportNamedDeclaration");
               ("declaration",
                VDict
                  [ ("type", VStr "FunctionDeclaration");
                    ("id", identifier "App");
                    ("params", VList [identifier "props"]);
                    ("body",
                     VDict
                       [ ("type", VStr "BlockStatement");
                         ("body",
                          VList
                            [ VDict
                                [ ("type", VStr "VariableDeclaration");
                                  ("declarations",
                                   VList
                                     [ VDict
                                         [ ("type", VStr "VariableDeclarator");
                                           ("id",
                                            VDict
                                              [ ("type", VStr "ArrayPattern") ]);
                                           ("init",
                                            VDict
                                              [ ("type", VStr "CallExpression");
                                                ("callee",
                                                 identifier "useState");
                                                ("arguments",
                                                 VList
                                                   [ VDict
                                                       [ ("type", VStr "Literal");
                                                         ("value", VInt 0) ] ]);
                                                ("loc", at_line 1) ]) ] ]);
                                  ("loc", at_line 1) ];
                              VDict
                                [ ("type", VStr "ReturnStatement");
                                  ("argument",
                                   VDict
                                     [ ("type", VStr "CallExpression");
                                       ("callee", identifier "user");
                                       ("arguments", VList [identifier "n"]);
                                       ("loc", at_line 1) ]) ] ]) ]);
                    ("loc", at_line 1) ]) ] ]) ].

(** The call [user(n)] of [exported_app], as [_extract_hooks] records
    it. *)
Definition user_call : TsWalkers.HookCall :=
  {| TsWalkers.hook_name := VStr "user";
     TsWalkers.hook_args := [VStr "n"];
     TsWalkers.hook_line := VInt 1;
     TsWalkers.variable_name := VNone |}.

(** The analysis of [exported_app], as far as the checks read it. *)
Definition exported_app_analysis : TsWalkers.AnalysisResult :=
  {| TsWalkers.file_path := "src/App.tsx";
     TsWalkers.imports := [];
     TsWalkers.components := fst (TsWalkers._extract_components exported_app);
     TsWalkers.hook_calls :=
       fst (@TsWalkers._extract_hooks Scenarios.plain_builtins exported_app);
     TsWalkers.function_calls :=
       fst (@TsWalkers._extract_function_calls Scenarios.plain_builtins
              exported_app);
     TsWalkers.exports := [VStr "App"];
     TsWalkers.errors := [] |}.

End TreeSamples.

(* ================================================================== *)
(** ** Facts about dictionaries *)
(* ================================================================== *)

Section DictFacts.
Import Py.
Context {A V : Type} (kf : A -> string) (vf : A -> V).

Lemma dict_get_set_same (d : dict V) (k : string) (v : V) :
  dict_get (dict_set d k v) k = Some v.
Proof.
  induction d as [|[k' v'] d IH]; simpl.
  - now rewrite String.eqb_refl.
  - destruct (String.eqb k' k) eqn:E; simpl; rewrite E; auto.
Qed.

Lemma dict_get_set_other (d : dict V) (k k' : string) (v : V) :
  k <> k' -> dict_get (dict_set d k v) k' = dict_get d k'.
Proof.
  intros Hne. induction d as [|[k0 v0] d IH]; simpl.
  - destruct (String.eqb k k') eqn:E; auto.
    apply String.eqb_eq in E. contradiction.
  - destruct (String.eqb k0 k) eqn:E; simpl.
    + apply String.eqb_eq in E. subst k0.
      destruct (String.eqb k k') eqn:E'; auto.
      apply String.eqb_eq in E'. contradiction.
    + now rewrite IH.
Qed.

Lemma filled_get_absent (l : list A) (d : dict V) (k : string) :
  ~ In k (map kf l) -> dict_get (filled kf vf l d) k = dict_get d k.
Proof.
  revert d. induction l as [|a l IH]; simpl; intros d Hk; auto.
  unfold filled in *. simpl. rewrite IH by tauto.
  apply dict_get_set_other. tauto.
Qed.

Lemma filled_get_origin (l : list A) (d : dict V) (k : string) (v : V) :
  dict_get (filled kf vf l d) k = Some v ->
  (exists a, In a l /\ kf a = k /\ vf a = v) \/ dict_get d k = Some v.
Proof.
  revert d. induction l as [|a l IH]; simpl; intros d Hget; auto.
  unfold filled in *. simpl in Hget.
  destruct (IH _ Hget) as [(b & Hb & Hk & Hv)|Hd].
  - left. exists b. auto.
  - destruct (string_dec (kf a) k) as [E|E].
    + subst k. rewrite dict_get_set_same in Hd. injection Hd as <-.
      left. exists a. auto.
    + rewrite dict_get_set_other in Hd by assumption. now right.
Qed.

Lemma filled_app (l1 l2 : list A) (d : dict V) :
  filled kf vf (l1 ++ l2) d = filled kf vf l2 (filled kf vf l1 d).
Proof. unfold filled. apply fold_left_app. Qed.

(** The last entry written under a key is the one a lookup finds. *)
Lemma filled_get_last (l1 l2 : list A) (a : A) (d : dict V) :
  ~ In (kf a) (map kf l2) ->
  dict_get (filled kf vf (l1 ++ a :: l2) d) (kf a) = Some (vf a).
Proof.
  intros Hlast. rewrite filled_app.
  change (filled kf vf (a :: l2) (filled kf vf l1 d))
    with (filled kf vf l2 (dict_set (filled kf vf l1 d) (kf a) (vf a))).
  rewrite filled_get_absent by assumption. apply dict_get_set_same.
Qed.

(** A new key goes last, a key that is present keeps its place. *)
Lemma dict_keys_set_cases (d : dict V) (k : string) (v : V) :
  dict_keys (dict_set d k v) =
    if str_in k (dict_keys d) then dict_keys d else (dict_keys d ++ [k])%list.
Proof.
  unfold str_in, dict_keys. induction d as [|[k' v'] d IH]; simpl; auto.
  rewrite (String.eqb_sym k k').
  destruct (String.eqb k' k); simpl; auto.
  rewrite IH. now destruct (existsb (String.eqb k) (map fst d)).
Qed.

Lemma filter_after_filter {B : Type} (f g : B -> bool) (l : list B) :
  filter f (filter g l) = filter (fun x => g x && f x) l.
Proof.
  induction l as [|x l IH]; simpl; auto.
  destruct (g x); simpl; [destruct (f x)|]; now rewrite IH.
Qed.

Lemma filled_keys_from (l : list A) (d : dict V) :
  dict_keys (filled kf vf l d) =
    (dict_keys d
     ++ filter (fun k => negb (str_in k (dict_keys d)))
               (first_occurrences (map kf l)))%list.
Proof.
  revert d. induction l as [|a l IH]; intros d.
  - simpl. now rewrite List.app_nil_r.
  - change (filled kf vf (a :: l) d)
      with (filled kf vf l (dict_set d (kf a) (vf a))).
    rewrite IH, dict_keys_set_cases.
    cbn [map first_occurrences filter].
    destruct (str_in (kf a) (dict_keys d)) eqn:E; cbn [negb].
    + f_equal. rewrite filter_after_filter. apply filter_ext. intros x.
      destruct (String.eqb (kf a) x) eqn:Ex; simpl; auto.
      apply String.eqb_eq in Ex. subst x. now rewrite E.
    + rewrite <- List.app_assoc. f_equal. simpl. f_equal.
      rewrite filter_after_filter. apply filter_ext. intros x.
      unfold str_in. rewrite existsb_app. simpl.
      rewrite orb_false_r, negb_orb, (String.eqb_sym x (kf a)).
      apply andb_comm.
Qed.

(** The keys of a dict filled from an empty one are the keys written, each
    once, in the order in which they were first written. *)
Lemma filled_keys_first (l : list A) :
  dict_keys (filled kf vf l []) = first_occurrences (map kf l).
Proof.
  rewrite filled_keys_from. simpl.
  induction (first_occurrences (map kf l)) as [|x xs IH]; simpl; auto.
  now rewrite IH.
Qed.

End DictFacts.

Section KeyFacts.
Import Py.

Lemma first_occurrences_In (l : list string) (k : string) :
  In k (first_occurrences l) <-> In k l.
Proof.
  induction l as [|x l IH]; simpl; [tauto|].
  rewrite filter_In, IH.
  destruct (String.eqb x k) eqn:E.
  - apply String.eqb_eq in E. subst. simpl. tauto.
  - apply String.eqb_neq in E. simpl. tauto.
Qed.

Lemma first_occurrences_NoDup (l : list string) : NoDup (first_occurrences l).
Proof.
  induction l as [|x l IH]; simpl; constructor.
  - rewrite filter_In, String.eqb_refl. simpl. intros [_ F]. discriminate.
  - now apply NoDup_filter.
Qed.

Lemma dict_mem_keys {V : Type} (d : dict V) (k : string) :
  dict_mem d k = true <-> In k (dict_keys d).
Proof.
  unfold dict_mem, dict_keys. induction d as [|[k' v] d IH]; simpl.
  - split; [discriminate | contradiction].
  - destruct (String.eqb k' k) eqn:E.
    + apply String.eqb_eq in E. split; auto.
    + apply String.eqb_neq in E. rewrite IH. split; [auto | intros [E'|]; tauto].
Qed.

End KeyFacts.

(* ================================================================== *)
(** ** The RPC parameter validator: what each check can emit *)
(* ================================================================== *)

Section RpcFacts.
Import Py Catalog Rpc.
Context `{Builtins}.

Lemma expected_by_name_get (expected : list ExpectedParameter) (n : string)
    (p : ExpectedParameter) :
  dict_get (expected_by_name expected) n = Some p ->
  In p expected /\ name p = n.
Proof.
  intros Hget. unfold expected_by_name in Hget.
  destruct (filled_get_origin name (fun p => p) expected [] n p Hget)
    as [(a & Ha & Hk & Hv)|Hd].
  - subst a. auto.
  - discriminate.
Qed.

Lemma for_declared_Forall {V E : Type} (P : E -> Prop)
    (expected : list ExpectedParameter) (provided : dict V)
    (body : string -> V -> ExpectedParameter -> list E) :
  (forall n v p, In p expected -> name p = n -> Forall P (body n v p)) ->
  Forall P (for_declared expected provided body).
Proof.
  intros Hbody. unfold for_declared. apply Forall_forall. intros e He.
  apply in_flat_map in He. destruct He as ([n v] & _ & He).
  destruct (dict_get (expected_by_name expected) n) as [p|] eqn:Hg.
  - apply expected_by_name_get in Hg. destruct Hg as [Hin Hn].
    exact (proj1 (Forall_forall _ _) (Hbody n v p Hin Hn) e He).
  - contradiction.
Qed.

Lemma required_about_declared expected provided line :
  Forall (about_declared expected)
         (_validate_required_parameters expected provided line).
Proof.
  apply Forall_forall. intros e He. unfold _validate_required_parameters in He.
  apply in_flat_map in He. destruct He as (p & Hp & He).
  destruct (is_required p && negb (dict_mem provided (name p))); [|contradiction].
  destruct He as [<-|[]]. split; simpl.
  - now apply in_map.
  - discriminate.
Qed.

Lemma types_about_declared expected provided line :
  Forall (about_declared expected)
         (_validate_parameter_types expected provided line).
Proof.
  apply for_declared_Forall. intros n v p Hin Hn.
  assert (Hd : In n (map name expected)) by (subst n; now apply in_map).
  unfold type_errors.
  destruct (type p); try constructor;
    match goal with
    | |- Forall _ (if ?c then _ else _) => destruct c
    end; repeat constructor; simpl; auto; discriminate.
Qed.

Lemma enums_about_declared expected provided line :
  Forall (about_declared expected)
         (_validate_enum_values expected provided line).
Proof.
  apply for_declared_Forall. intros n v p Hin Hn.
  assert (Hd : In n (map name expected)) by (subst n; now apply in_map).
  unfold enum_errors.
  destruct (type p); try constructor.
  destruct (enum_values p) as [[|x xs]|]; try constructor.
  destruct (str_in (str v) (x :: xs)); repeat constructor; simpl; auto.
  discriminate.
Qed.

Lemma json_about_declared expected provided line :
  Forall (about_declared expected)
         (_validate_json_structures expected provided line).
Proof.
  apply for_declared_Forall. intros n v p Hin Hn.
  assert (Hd : In n (map name expected)) by (subst n; now apply in_map).
  assert (Hmap : forall schema,
             Forall (about_declared expected)
               (map (fun e => error n INVALID_JSON_STRUCTURE (se_expected e)
                                (se_actual e) (se_message e) line
                                (se_suggestion e))
                    (_validate_json_schema v schema n))).
  { intros schema. apply Forall_forall. intros e He.
    apply in_map_iff in He. destruct He as (x & <- & _).
    split; simpl; auto. discriminate. }
  unfold json_errors.
  destruct (type p); try constructor;
    (destruct (negb (_is_valid_json_object v));
     [ repeat constructor; simpl; auto; discriminate
     | destruct (json_schema p); [apply Hmap | constructor] ]).
Qed.

(** The four checks after the count check, together. *)
Lemma later_checks_about_declared expected provided line :
  Forall (about_declared expected)
    (_validate_required_parameters expected provided line
     ++ _validate_parameter_types expected provided line
     ++ _validate_enum_values expected provided line
     ++ _validate_json_structures expected provided line).
Proof.
  repeat (apply Forall_app; split);
    auto using required_about_declared, types_about_declared,
               enums_about_declared, json_about_declared.
Qed.

Lemma count_check_cases expected provided line :
  _validate_parameter_count expected provided line =
    if (dict_len provided <? required_count expected)%nat
    then [too_few_error expected provided line]
    else if (length expected <? dict_len provided)%nat
         then [too_many_error expected provided line]
         else [].
Proof.
  unfold _validate_parameter_count.
  assert (Hle : required_count expected <= length expected)
    by apply filter_length_le.
  destruct (dict_len provided <? required_count expected)%nat eqn:E1;
    destruct (length expected <? dict_len provided)%nat eqn:E2; auto.
  apply Nat.ltb_lt in E1. apply Nat.ltb_lt in E2. lia.
Qed.

Lemma validate_known (v : RPCParameterValidator) fname expected provided line :
  dict_get (function_cache v) fname = Some expected ->
  validate_rpc_call v fname provided line =
    (_validate_parameter_count expected provided line
     ++ _validate_required_parameters expected provided line
     ++ _validate_parameter_types expected provided line
     ++ _validate_enum_values expected provided line
     ++ _validate_json_structures expected provided line)%list.
Proof. intros Hget. unfold validate_rpc_call. now rewrite Hget. Qed.

Lemma enumerate_map_length {A B : Type} (f : nat -> A -> B) (i : nat)
    (xs : list A) :
  length (enumerate_map f i xs) = length xs.
Proof. revert i. induction xs; simpl; auto. Qed.

Lemma required_count_enumerate (cache : dict (list string)) (i : nat)
    (ps : list Param) :
  required_count (enumerate_map (expected_parameter cache) i ps) =
  length (filter declared_required ps).
Proof.
  unfold required_count. revert i.
  induction ps as [|p ps IH]; simpl; intros i; auto.
  destruct (declared_required p); simpl; now rewrite IH.
Qed.

(** The count check decides the count-mismatch issues of a call to a
    cached function. *)
Lemma arity_law_cached (v : RPCParameterValidator) fname expected provided
    line :
  dict_get (function_cache v) fname = Some expected ->
  (exists e, In e (validate_rpc_call v fname provided line)
             /\ validation_type e = PARAMETER_COUNT_MISMATCH)
  <-> (dict_len provided < required_count expected
       \/ length expected < dict_len provided).
Proof.
  intros Hget. rewrite (validate_known v _ _ provided line Hget).
  rewrite count_check_cases.
  pose proof (later_checks_about_declared expected provided line) as Hlater.
  rewrite Forall_forall in Hlater.
  destruct (dict_len provided <? required_count expected)%nat eqn:E1;
    [apply Nat.ltb_lt in E1 | apply Nat.ltb_ge in E1].
  - split; [intros _; now left | intros _].
    exists (too_few_error expected provided line). split; [now left | reflexivity].
  - destruct (length expected <? dict_len provided)%nat eqn:E2;
      [apply Nat.ltb_lt in E2 | apply Nat.ltb_ge in E2].
    + split; [intros _; now right | intros _].
      exists (too_many_error expected provided line).
      split; [now left | reflexivity].
    + split.
      * intros (e & He & Hk). simpl in He.
        destruct (Hlater e He) as [_ Hne]. contradiction.
      * lia.
Qed.

(** When every parameter is an input and no default is an empty value, the
    parameters marked required are exactly those without a default. *)
Lemma declared_required_without_default (ps : list Param) :
  Forall (fun p => get_or (param_mode p) "IN" = "IN"
                   /\ forall d, param_default p = Some d -> truthy d = true)
         ps ->
  filter declared_required ps = filter without_default ps.
Proof.
  induction 1 as [|p ps [Hmode Hdef] _ IH]; simpl; auto.
  unfold declared_required at 1, without_default at 1.
  rewrite Hmode, String.eqb_refl. simpl.
  destruct (param_default p) as [d|]; simpl.
  - rewrite (Hdef d eq_refl). simpl. exact IH.
  - now rewrite IH.
Qed.

(** C1, as the code has it.  A call is validated against the function
    declared last under its name.  For that function, with [t] parameters
    of which [r] are marked required (mode [IN], which is also the mode of
    a parameter without a [mode] key, and a default that is absent or
    falsy), a call with [p] provided parameters yields a count-mismatch
    issue if and only if [p < r] or [p > t]; this holds for every [p].
    When every parameter is an input and no default is falsy, the
    parameters marked required are the parameters without a default. *)
Theorem rpc_arity_law (schema : SupabaseSchemaInfo)
    (before after : list FunctionInfo) (f : FunctionInfo)
    (provided : dict value) (line : Z) :
  functions schema = (before ++ f :: after)%list ->
  ~ In (function_name f) (map function_name after) ->
  ((exists e,
       In e (validate_rpc_call (new_validator schema) (function_name f)
               provided line)
       /\ validation_type e = PARAMETER_COUNT_MISMATCH)
   <-> (dict_len provided < length (filter declared_required (parameters f))
        \/ length (parameters f) < dict_len provided))
  /\ (Forall (fun p => get_or (param_mode p) "IN" = "IN"
                       /\ forall d, param_default p = Some d -> truthy d = true)
             (parameters f) ->
      filter declared_required (parameters f)
      = filter without_default (parameters f)).
Proof.
  intros Hfs Hlast. split.
  - assert (Hget : dict_get (function_cache (new_validator schema))
                     (function_name f)
                   = Some (expected_parameters (_build_enum_cache schema) f)).
    { simpl. unfold _build_function_cache. rewrite Hfs.
      exact (filled_get_last function_name
               (expected_parameters (_build_enum_cache schema))
               before after f [] Hlast). }
    rewrite (arity_law_cached _ _ _ provided line Hget).
    unfold expected_parameters.
    now rewrite required_count_enumerate, enumerate_map_length.
  - apply declared_required_without_default.
Qed.

(** C2.  Unknown-function short circuit: for a name that no catalog
    function bears, [validate_rpc_call] returns exactly one issue, whatever
    parameters are provided, and nothing else is checked.  The issue has
    the kind [TYPE_MISMATCH] and the parameter name [function]; its message
    says that the function was not found, its [expected] text lists the
    names of the catalog, each once and in the order of their first
    declaration, and its suggestion names the first three of them, or all
    of them when the catalog has fewer. *)
Theorem unknown_function_short_circuit (schema : SupabaseSchemaInfo)
    (fname : string) (provided : dict value) (line : Z) :
  ~ In fname (map function_name (functions schema)) ->
  let known := first_occurrences (map function_name (functions schema)) in
  validate_rpc_call (new_validator schema) fname provided line =
    [ {| parameter_name := "function";
         validation_type := TYPE_MISMATCH;
         expected := "One of: " ++ join ", " known;
         actual := fname;
         message := "RPC function '" ++ fname ++ "' not found";
         severity := "HIGH";
         line_number := line;
         suggestion :=
           "Available functions: " ++ join ", " (firstn 3 known) |} ]
  /\ length (firstn 3 known) = Nat.min 3 (length known)
  /\ NoDup known
  /\ (forall n, In n known <-> In n (map function_name (functions schema))).
Proof.
  intros Hnot known. split; [|split; [|split]].
  - unfold validate_rpc_call.
    replace (dict_get (function_cache (new_validator schema)) fname)
      with (@None (list ExpectedParameter)).
    + unfold unknown_function_error, error. subst known.
      cbn [function_cache new_validator]. unfold _build_function_cache.
      fold (filled function_name
              (expected_parameters (_build_enum_cache schema))
              (functions schema) []).
      now rewrite filled_keys_first.
    + symmetry. simpl. unfold _build_function_cache.
      exact (filled_get_absent function_name _ (functions schema) [] fname
               Hnot).
  - apply length_firstn.
  - apply first_occurrences_NoDup.
  - intros n. apply first_occurrences_In.
Qed.

(** C8.  Scenario "missing required + bad enum" on
    [f(user_id uuid, range date_range_type)]: with only a valid [user_id]
    the issues are one count mismatch and one missing-required issue, for
    [range]; with a valid [user_id] and [range = "12h"] the only issue is
    one invalid-enum issue, for [range]. *)
Theorem missing_required_and_bad_enum (u : string) (line : Z) :
  _is_valid_uuid (VStr u) = true ->
  map (fun e => (validation_type e, parameter_name e))
      (validate_rpc_call (new_validator Scenarios.range_schema) "f"
         [("user_id", VStr u)] line)
  = [(PARAMETER_COUNT_MISMATCH, "parameter_count"); (MISSING_REQUIRED, "range")]
  /\
  map (fun e => (validation_type e, parameter_name e))
      (validate_rpc_call (new_validator Scenarios.range_schema) "f"
         [("user_id", VStr u); ("range", VStr "12h")] line)
  = [(INVALID_ENUM, "range")].
Proof.
  intros Hu.
  assert (Hthen : forall (A : Type) (x y : A),
             (if _is_valid_uuid (VStr u) then x else y) = x)
    by (intros; now rewrite Hu).
  split; unfold validate_rpc_call; cbn - [_is_valid_uuid _infer_type str];
    unfold type_errors, enum_errors, json_errors;
    cbn - [_is_valid_uuid _infer_type str]; rewrite ?Hthen; reflexivity.
Qed.

(** The names the too-many suggestion lists: the provided names that are
    not declared. *)
Lemma extra_params_In {V : Type} (expected : list ExpectedParameter)
    (provided : dict V) (n : string) :
  In n (extra_params expected provided)
  <-> dict_mem provided n = true /\ ~ In n (map name expected).
Proof.
  unfold extra_params. rewrite filter_In, nodup_In, dict_mem_keys.
  assert (Hs : str_in n (map name expected) = true <-> In n (map name expected)).
  { unfold str_in. rewrite existsb_exists. split.
    - intros (x & Hx & E). apply String.eqb_eq in E. now subst.
    - intros Hn. exists n. split; auto. apply String.eqb_refl. }
  destruct (str_in n (map name expected)); simpl; intuition congruence.
Qed.

(** C10, as the code has it.  Let [n] be a name that the function does not
    declare.  Every issue of a call is either a count issue, which bears
    the fixed parameter name [parameter_count], or an issue of another
    kind about a declared parameter: so no issue bears the name [n],
    unless [n] is [parameter_count] itself.  As long as the provided count
    does not exceed the declared count, the only count issue there can be
    is the too-few one, and the missing names it lists leave [n] out.
    Beyond that count the too-many issue is emitted, and it is the one
    issue that bears on [n]: a provided [n] is among the extra names it
    lists. *)
Theorem undeclared_parameter_not_reported (schema : SupabaseSchemaInfo)
    (fname : string) (expected : list ExpectedParameter)
    (provided : dict value) (line : Z) (n : string) :
  dict_get (function_cache (new_validator schema)) fname = Some expected ->
  ~ In n (map name expected) ->
  let issues := validate_rpc_call (new_validator schema) fname provided line in
  Forall (fun e =>
            (validation_type e = PARAMETER_COUNT_MISMATCH
             /\ parameter_name e = "parameter_count")
            \/ (validation_type e <> PARAMETER_COUNT_MISMATCH
                /\ In (parameter_name e) (map name expected)))
         issues
  /\ (n <> "parameter_count" -> Forall (fun e => parameter_name e <> n) issues)
  /\ (dict_len provided <= length expected ->
      Forall (fun e => e = too_few_error expected provided line
                       \/ (validation_type e <> PARAMETER_COUNT_MISMATCH
                           /\ parameter_name e <> n))
             issues
      /\ ~ In n (missing_required_names expected provided))
  /\ (length expected < dict_len provided ->
      In (too_many_error expected provided line) issues
      /\ Forall (fun e => e = too_many_error expected provided line
                          \/ (validation_type e <> PARAMETER_COUNT_MISMATCH
                              /\ parameter_name e <> n))
                issues
      /\ (dict_mem provided n = true ->
          In n (extra_params expected provided))).
Proof.
  intros Hget Hn issues.
  pose proof (later_checks_about_declared expected provided line) as Hlater.
  assert (Hother : forall e, about_declared expected e ->
             validation_type e <> PARAMETER_COUNT_MISMATCH
             /\ parameter_name e <> n).
  { intros e [Hd Hk]. split; auto. intros E. rewrite E in Hd. contradiction. }
  assert (Hmissing : ~ In n (missing_required_names expected provided)).
  { unfold missing_required_names. intros Hm. apply in_map_iff in Hm.
    destruct Hm as (p & <- & Hp). apply filter_In in Hp.
    apply Hn. apply in_map. tauto. }
  assert (Hle : required_count expected <= length expected)
    by apply filter_length_le.
  subst issues.
  rewrite (validate_known _ _ _ provided line Hget), count_check_cases.
  split; [|split; [|split]].
  - apply Forall_app. split.
    + destruct (dict_len provided <? required_count expected)%nat;
        [|destruct (length expected <? dict_len provided)%nat];
        repeat constructor.
    + eapply Forall_impl; [|exact Hlater].
      intros e [Hd Hk]. right. auto.
  - intros Hne. apply Forall_app. split.
    + destruct (dict_len provided <? required_count expected)%nat;
        [|destruct (length expected <? dict_len provided)%nat];
        repeat constructor; simpl; congruence.
    + eapply Forall_impl; [|exact Hlater]. intros e He. now apply Hother.
  - intros Hlen. split; [|exact Hmissing]. apply Forall_app. split.
    + destruct (dict_len provided <? required_count expected)%nat;
        [repeat constructor|].
      replace (length expected <? dict_len provided)%nat with false
        by (symmetry; apply Nat.ltb_ge; lia).
      constructor.
    + eapply Forall_impl; [|exact Hlater]. intros e He. right. now apply Hother.
  - intros Hlen.
    replace (dict_len provided <? required_count expected)%nat with false
      by (symmetry; apply Nat.ltb_ge; lia).
    apply Nat.ltb_lt in Hlen. rewrite Hlen.
    split; [now left | split].
    + apply Forall_app. split; [repeat constructor|].
      eapply Forall_impl; [|exact Hlater]. intros e He. right. now apply Hother.
    + intros Hmem. apply extra_params_In. auto.
Qed.

End RpcFacts.

(* ================================================================== *)
(** ** Overall confidence: the formula and how it moves *)
(* ================================================================== *)

Section ConfidenceFacts.
Import Confidence.
Local Open Scope Q_scope.

Lemma total_weight_from (ds : list Detection) (acc : Q) :
  fold_left (fun acc det => acc + weights (severity det) * confidence det)
            ds acc
  == acc + weighted_sum ds.
Proof.
  revert acc. induction ds as [|d ds IH]; intros acc; simpl.
  - lra.
  - rewrite IH. lra.
Qed.

Lemma total_weight_sum (ds : list Detection) :
  total_weight ds == weighted_sum ds.
Proof. unfold total_weight. rewrite total_weight_from. lra. Qed.

Lemma weights_nonneg (s : Severity) : 0 <= weights s.
Proof. destruct s; simpl; unfold Qle; simpl; lia. Qed.

Lemma count_positive (A : Type) (a : A) (l : list A) :
  0 < inject_Z (Z.of_nat (length (a :: l))).
Proof. unfold Qlt. simpl. lia. Qed.

Lemma confidence_as_specified (r : ValidationReport) :
  _calculate_overall_confidence r == specified_confidence (detections r).
Proof.
  unfold _calculate_overall_confidence, specified_confidence.
  destruct (detections r) as [|d ds]; [reflexivity|].
  change (length (d :: ds) =? 0)%nat with false. cbv iota.
  apply Q.max_compat; [reflexivity|].
  rewrite total_weight_sum, Nat2Z.inj_mul, inject_Z_mult.
  rewrite (Qmult_comm (inject_Z (Z.of_nat (length (d :: ds))))).
  reflexivity.
Qed.

Lemma weights_at_most_one (s : Severity) : weights s <= 1.
Proof. destruct s; simpl; unfold Qle; simpl; lia. Qed.

Lemma weighted_sum_bounds (ds : list Detection) :
  Forall (fun d => 0 <= confidence d <= 1) ds ->
  0 <= weighted_sum ds <= inject_Z (Z.of_nat (length ds)).
Proof.
  induction 1 as [|d ds [Hlo Hhi] _ IH].
  - simpl. unfold Qle; simpl; lia.
  - change (weighted_sum (d :: ds))
      with (weights (severity d) * confidence d + weighted_sum ds).
    change (length (d :: ds)) with (S (length ds)).
    rewrite Nat2Z.inj_succ. unfold Z.succ. rewrite inject_Z_plus.
    setoid_replace (inject_Z 1) with 1 by reflexivity.
    pose proof (weights_nonneg (severity d)) as Hw0.
    pose proof (weights_at_most_one (severity d)) as Hw1.
    assert (0 <= weights (severity d) * confidence d) by nra.
    assert (weights (severity d) * confidence d <= 1) by nra.
    lra.
Qed.

Lemma weighted_sum_nonneg (ds : list Detection) :
  Forall (fun d => 0 <= confidence d) ds -> 0 <= weighted_sum ds.
Proof.
  induction 1 as [|d ds Hlo _ IH]; simpl; [lra|].
  pose proof (weights_nonneg (severity d)) as Hw0.
  assert (0 <= weights (severity d) * confidence d) by nra.
  lra.
Qed.


(** With confidences that are not negative the overall confidence is at
    most 1. *)
Lemma confidence_at_most_one (r : ValidationReport) :
  Forall (fun d => 0 <= confidence d) (detections r) ->
  _calculate_overall_confidence r <= 1.
Proof.
  intros Hc. rewrite confidence_as_specified. unfold specified_confidence.
  destruct (detections r) as [|d ds] eqn:E; [lra|].
  pose proof (weighted_sum_nonneg _ Hc) as Hlo.
  pose proof (count_positive _ d ds) as Hn.
  set (n := inject_Z (Z.of_nat (length (d :: ds)))) in *.
  set (s := weighted_sum (d :: ds)) in *.
  assert (H0 : 0 <= s / (2 * n)) by (apply Qle_shift_div_l; lra).
  apply Q.max_lub; lra.
Qed.

(** C6, as the code has it.  A report without detections has the overall
    confidence 1, the highest there is when no confidence is negative:
    appending detections to a report that has none never raises the
    overall confidence.  Appending to a report that has detections can
    raise it, since the weighted confidences are divided by their number. *)
Theorem confidence_highest_without_detections (r r' : ValidationReport)
    (ds : list Detection) :
  detections r = [] ->
  detections r' = (detections r ++ ds)%list ->
  Forall (fun d => 0 <= confidence d) ds ->
  _calculate_overall_confidence r = 1
  /\ _calculate_overall_confidence r' <= _calculate_overall_confidence r
  /\ (ds = [] -> _calculate_overall_confidence r' = 1).
Proof.
  intros Hempty Happ Hc. rewrite Hempty in Happ. simpl in Happ.
  assert (H1 : _calculate_overall_confidence r = 1)
    by (unfold _calculate_overall_confidence; now rewrite Hempty).
  split; [exact H1 | split].
  - rewrite H1. apply confidence_at_most_one. now rewrite Happ.
  - intros ->. unfold _calculate_overall_confidence. now rewrite Happ.
Qed.

End ConfidenceFacts.

(* ================================================================== *)
(** ** Overall confidence: the field of the report *)
(* ================================================================== *)

Section ReportConfidence.
Import Py PyText Confidence Reporting.
Local Open Scope Q_scope.
Context `{TsAnalyzer.Services} `{Pipeline}.


End ReportConfidence.

(* ================================================================== *)
(** ** The TypeScript analyzer when the producer fails *)
(* ================================================================== *)

Section TsFacts.
Import TsAnalyzer.
Context `{Services}.

(** A source that is not blank and that the producer rejects gives no
    result: the regular-expression pass [_extract_basic_info_with_regex]
    is not part of [analyze_typescript_file]. *)
Lemma producer_failure_gives_none (path content : string) :
  String.eqb (Py.strip content) "" = false ->
  _parse_with_esprima content = None ->
  analyze_typescript_file path (Utf8 content) = None
  /\ analyze_typescript_file path (Latin1 content) = None.
Proof.
  intros Hblank Hfail. unfold analyze_typescript_file.
  now rewrite Hblank, Hfail.
Qed.

(** A result is returned for a blank file and for a file that cannot be
    read; the latter carries the error. *)
Lemma blank_or_unreadable_gives_result (path content e : string) :
  String.eqb (Py.strip content) "" = true ->
  analyze_typescript_file path (Utf8 content) = Some (new_result path)
  /\ exists r, analyze_typescript_file path (ReadError e) = Some r
               /\ errors r <> [].
Proof.
  intros Hblank. unfold analyze_typescript_file. rewrite Hblank.
  split; [reflexivity|]. eexists. split; [reflexivity|]. discriminate.
Qed.

End TsFacts.

(** C7, at a failing input.  For the invalid source ["const = ;"] and a
    producer that rejects it, [analyze_typescript_file] returns [None],
    not an analysis result. *)
Theorem invalid_source_gives_none :
  @TsAnalyzer.analyze_typescript_file Scenarios.rejecting_services
    "src/Broken.tsx" (TsAnalyzer.Utf8 Scenarios.invalid_source) = None.
Proof. reflexivity. Qed.

(* ================================================================== *)
(** ** The schema introspector under failing queries *)
(* ================================================================== *)

Section IntrospectorFacts.
Import Catalog Introspector.

Lemma rows_or_empty_raises {A B : Type} (r : reply (list A))
    (f : list A -> list B) :
  r = Raises -> rows_or_empty r f = [].
Proof. now intros ->. Qed.

(** The fallback records the tables of its list that the probe reaches,
    in the order of the list. *)
Lemma fallback_records_reached (c : Client) :
  _analyze_tables_fallback c
  = map basic_table (filter (probe_succeeds c) common_tables).
Proof.
  unfold _analyze_tables_fallback.
  induction common_tables as [|n l IH]; simpl; auto.
  unfold probe_succeeds at 1.
  destruct (table_select_one c n); simpl; now rewrite IH.
Qed.

(** C9.  With a connected client the catalog build returns a catalog
    whatever queries fail.  A failed query for routines, views, enums,
    extensions or schemas leaves that facet of the catalog empty; on the
    metadata path, a failed query for the columns, primary or foreign
    keys, indexes, row security or policies of a table leaves that facet
    of the table empty, and a failed query for the parameters of a function
    leaves the function without parameters.  When the query for the tables
    itself fails, the tables of the catalog are exactly the tables among
    [users], [profiles], [posts], [comments], [logs] and [settings] that
    direct access reaches, in that order, each recorded by name in the
    schema [public], with no column, key, index or policy. *)
Theorem catalog_build_fault_tolerant (url : string) (c : Client)
    (k : option Client) :
  exists info,
    analyze_schema {| supabase_url := url; client := Some c; connect := k |}
      = Data info
    /\ (select_routines c = Raises -> functions info = [])
    /\ (select_views c = Raises -> views info = [])
    /\ (select_enums c = Raises -> enums info = [])
    /\ (select_extensions c = Raises -> extensions info = [])
    /\ (select_schemas c = Raises -> schemas info = [])
    /\ (forall rows, select_tables c = Data rows ->
          tables info = map (table_of_row c) rows
          /\ Forall
               (fun t =>
                  (select_columns c (table_schema t) (table_name t) = Raises ->
                   columns t = [])
                  /\ (select_primary_keys c (table_schema t) (table_name t)
                      = Raises -> primary_keys t = [])
                  /\ (select_foreign_keys c (table_schema t) (table_name t)
                      = Raises -> foreign_keys t = [])
                  /\ (select_indexes c (table_schema t) (table_name t)
                      = Raises -> indexes t = [])
                  /\ (select_relrowsecurity c (table_schema t) (table_name t)
                      = Raises -> rls_enabled t = false /\ policies t = [])
                  /\ (select_policies c (table_schema t) (table_name t)
                      = Raises -> policies t = []))
               (tables info))
    /\ Forall
         (fun f =>
            select_parameters c (function_schema f)
              ("%" ++ function_name f ++ "%") = Raises ->
            parameters f = [])
         (functions info)
    /\ (forall s t, select_columns c s t = Raises ->
          _analyze_table_columns c s t = [])
    /\ (forall s t, select_primary_keys c s t = Raises ->
          _analyze_primary_keys c s t = [])
    /\ (forall s t, select_foreign_keys c s t = Raises ->
          _analyze_foreign_keys c s t = [])
    /\ (forall s t, select_indexes c s t = Raises ->
          _analyze_indexes c s t = [])
    /\ (forall s t, select_policies c s t = Raises ->
          _analyze_rls_policies c s t = [])
    /\ (forall s f, select_parameters c s ("%" ++ f ++ "%") = Raises ->
          _analyze_function_parameters c s f = [])
    /\ (select_tables c = Raises ->
          tables info =
            map (fun name =>
                   {| table_name := name; table_schema := "public";
                      columns := []; primary_keys := []; foreign_keys := [];
                      indexes := []; rls_enabled := false; policies := [];
                      estimated_rows := 0%Z |})
                (filter (probe_succeeds c)
                   ["users"; "profiles"; "posts"; "comments"; "logs";
                    "settings"])).
Proof.
  eexists. split; [reflexivity|]. cbn [functions views enums extensions
                                       schemas tables].
  repeat match goal with |- _ /\ _ => split end;
    try (intros; now apply rows_or_empty_raises).
  - intros rows E. unfold _analyze_tables. rewrite E. split; [reflexivity|].
    apply Forall_forall. intros t Ht. apply in_map_iff in Ht.
    destruct Ht as (row & <- & _). unfold table_of_row.
    cbn [table_name table_schema columns primary_keys foreign_keys indexes
         rls_enabled policies].
    split; [intros Hr; now apply rows_or_empty_raises|].
    split; [intros Hr; now apply rows_or_empty_raises|].
    split; [intros Hr; now apply rows_or_empty_raises|].
    split; [intros Hr; now apply rows_or_empty_raises|].
    split.
    + intros Hr. unfold _check_rls_enabled. rewrite Hr. split; reflexivity.
    + intros Hr.
      destruct (_check_rls_enabled c (row_table_schema row)
                  (row_table_name row));
        [now apply rows_or_empty_raises | reflexivity].
  - unfold _analyze_functions.
    destruct (select_routines c) as [rows|]; [|constructor]. simpl.
    apply Forall_forall. intros f Hf. apply in_map_iff in Hf.
    destruct Hf as (row & <- & _).
    cbn [function_schema function_name parameters]. intros Hr.
    now apply rows_or_empty_raises.
  - intros E. unfold _analyze_tables. rewrite E.
    apply fallback_records_reached.
Qed.

End IntrospectorFacts.

(* ================================================================== *)
(** ** The graph builder: running [_create_graph] again *)
(* ================================================================== *)

Section GraphFacts.
Import GraphBuilder GraphInvariants.
Context `{Process}.


























End GraphFacts.

(* ================================================================== *)
(** ** The graph builder: the created graph hangs below its repository *)
(* ================================================================== *)

Section GraphWellFormed.
Import GraphBuilder GraphInvariants.
Context `{Process}.

Lemma Label_eqb_eq (a b : Label) : Label_eqb a b = true <-> a = b.
Proof. destruct a, b; simpl; split; intros E; auto; discriminate. Qed.



Lemma has_id_In (ns : list Node) (i : nat) :
  has_id ns i = true <-> exists n, In n ns /\ node_id n = i.
Proof.
  unfold has_id. rewrite existsb_exists.
  split; intros (n & Hn & E); exists n; split; auto;
    now apply Nat.eqb_eq.
Qed.

Lemma match_nodes_In (g : Graph) (l : Label) (k : string) (a : Node) :
  In a (match_nodes g l k) <-> In a (nodes g) /\ label a = l /\ key a = k.
Proof.
  unfold match_nodes, matches.
  rewrite filter_In, andb_true_iff, Label_eqb_eq, String.eqb_eq. tauto.
Qed.

Lemma has_node_In (g : Graph) (l : Label) (k : string) :
  has_node g l k = true <-> exists a, In a (match_nodes g l k).
Proof.
  unfold has_node. rewrite existsb_exists. split.
  - intros (a & Ha & Hm). exists a. unfold match_nodes.
    apply filter_In. auto.
  - intros (a & Ha). unfold match_nodes in Ha. apply filter_In in Ha.
    exists a. exact Ha.
Qed.



(** *** The two statements that write relationships *)





(** *** A node and the relationship that hangs it below its parent *)










End GraphWellFormed.

(* ================================================================== *)
(** ** The graph builder: clearing a repository that was just created *)
(* ================================================================== *)

Section GraphClearing.
Import GraphBuilder GraphInvariants.

Lemma filter_all {A : Type} (f : A -> bool) (l : list A) :
  (forall x, In x l -> f x = true) -> filter f l = l.
Proof.
  induction l as [|a l IH]; simpl; intros Hf; auto.
  rewrite (Hf a) by auto. f_equal. apply IH. auto.
Qed.

Lemma filter_none {A : Type} (f : A -> bool) (l : list A) :
  (forall x, In x l -> f x = false) -> filter f l = [].
Proof.
  induction l as [|a l IH]; simpl; intros Hf; auto.
  rewrite (Hf a) by auto. apply IH. auto.
Qed.










(** *** What a pattern of [clear_repository_data] reaches *)










End GraphClearing.

(* ================================================================== *)
(** ** The graph builder: ingesting a repository again *)
(* ================================================================== *)

Section OneProcess.
Import GraphBuilder GraphInvariants.
Context `{Process}.


End OneProcess.

Section Reingestion.
Import GraphBuilder GraphInvariants.




End Reingestion.

(** C3, in a fresh process.  When the second run is in a process with
    another hash, the call [useState(0)] of [src/App.tsx] comes back under
    another identifier: the graph is not the graph of the first run, though
    it has as many nodes and edges. *)
Lemma hook_node_renamed_in_a_fresh_process :
  exists g1 g2,
    @GraphBuilder.analyze_repository Scenarios.process_a "demo"
       [Scenarios.app_module] GraphBuilder.empty_graph = Some g1
    /\ @GraphBuilder.analyze_repository Scenarios.process_b "demo"
         [Scenarios.app_module] g1 = Some g2
    /\ map GraphBuilder.key (GraphBuilder.labelled GraphBuilder.Hook g1)
       = ["src/App.tsx::useState::1"]
    /\ map GraphBuilder.key (GraphBuilder.labelled GraphBuilder.Hook g2)
       = ["src/App.tsx::useState::2"]
    /\ length (GraphBuilder.nodes g1) = 4
    /\ length (GraphBuilder.nodes g2) = 4
    /\ length (GraphBuilder.edges g1) = 3
    /\ length (GraphBuilder.edges g2) = 3.
Proof. eexists. eexists. repeat split; vm_compute; reflexivity. Qed.


(* ================================================================== *)
(** ** The composite identifiers *)
(* ================================================================== *)

Section Identifiers.
Import GraphBuilder.

Lemma identifier_of_method repo md cls method :
  identifier (method_entity repo md cls method) = method_id cls method.
Proof. reflexivity. Qed.

Lemma identifier_of_attribute repo md cls attr :
  identifier (attribute_entity repo md cls attr) = attr_id cls attr.
Proof. reflexivity. Qed.

Lemma identifier_of_function repo md func :
  identifier (function_entity repo md func) = func_id md func.
Proof. reflexivity. Qed.

Lemma identifier_of_component repo md comp :
  identifier (component_entity repo md comp) = comp_id md comp.
Proof. reflexivity. Qed.

Lemma has_colon_separator (x y : string) : has_colon (x ++ "::" ++ y) = true.
Proof.
  induction x as [|c x IH]; simpl in *; auto. rewrite IH. apply orb_true_r.
Qed.

Lemma tail_has_colon (c : ascii) (b x y : string) :
  String c b = x ++ "::" ++ y -> has_colon b = true.
Proof.
  destruct x as [|c' x]; simpl; intros E; injection E as _ ->.
  - reflexivity.
  - apply has_colon_separator.
Qed.

(** Two strings joined by ["::"] are recovered from the result when the
    second holds no colon. *)
Lemma separator_injective (a a' b b' : string) :
  has_colon b = false -> has_colon b' = false ->
  a ++ "::" ++ b = a' ++ "::" ++ b' -> a = a' /\ b = b'.
Proof.
  intros Hb Hb'. revert a'.
  induction a as [|c a IH]; intros [|c' a'] E.
  - simpl in E. injection E as ->. auto.
  - simpl in E. injection E as _ E. apply tail_has_colon in E. congruence.
  - simpl in E. injection E as _ E. symmetry in E.
    apply tail_has_colon in E. congruence.
  - simpl in E. injection E as -> E. destruct (IH a' E) as [-> ->]. auto.
Qed.

(** C4, as the code has it.  The identifier of a method, attribute,
    function or component is built from its scope (the full name of the
    class, or the path of the file) and its name alone: two entities whose
    names hold no colon get the same identifier, byte for byte, exactly
    when they have the same scope and the same name.  Neither the
    repository nor the kind takes part. *)
Theorem identifier_of_scope_and_name (e1 e2 : Entity) :
  has_colon (entity_name e1) = false ->
  has_colon (entity_name e2) = false ->
  identifier e1 = identifier e2
  <-> scope e1 = scope e2 /\ entity_name e1 = entity_name e2.
Proof.
  intros H1 H2. unfold identifier. split.
  - now apply separator_injective.
  - intros [-> ->]. reflexivity.
Qed.

End Identifiers.

(** C4, the claim as stated fails: the function [formatDate] of
    [src/utils.ts] in the repository [shop-web] and the one in
    [shop-admin] are two entities with one identifier. *)
Lemma identifiers_collide_across_repositories :
  Scenarios.format_date_in "shop-web" <> Scenarios.format_date_in "shop-admin"
  /\ GraphBuilder.identifier (Scenarios.format_date_in "shop-web")
     = GraphBuilder.identifier (Scenarios.format_date_in "shop-admin")
  /\ GraphBuilder.identifier (Scenarios.format_date_in "shop-web")
     = "src/utils.ts::formatDate".
Proof. repeat split. discriminate. Qed.

(** The identifier of a hook call follows the [hash] of the interpreter
    process: two processes whose hashes differ give the call [useState(0)]
    of [src/App.tsx] two identifiers. *)
Lemma hook_identifier_follows_hash :
  @GraphBuilder.hook_id Scenarios.process_a Scenarios.app_module
     Scenarios.use_state = "src/App.tsx::useState::1"
  /\ @GraphBuilder.hook_id Scenarios.process_b Scenarios.app_module
       Scenarios.use_state = "src/App.tsx::useState::2".
Proof. split; reflexivity. Qed.

(** C1, the claim as stated fails: [g(a IN, b OUT)] has two parameters
    without a default, and a call of [g] with the one parameter [a] gets
    no issue at all, so no count-mismatch issue, although 1 < 2. *)
Lemma out_parameter_is_not_required :
  length (filter Rpc.without_default
            (Catalog.parameters Scenarios.out_function)) = 2
  /\ Py.dict_len [("a", Py.VInt 1)] = 1
  /\ @Rpc.validate_rpc_call Scenarios.plain_builtins
       (Rpc.new_validator Scenarios.out_schema) "g" [("a", Py.VInt 1)] 0%Z
     = [].
Proof. repeat split. Qed.

(** C10, the claim as stated fails: [f(user_id, range)] does not declare
    [parameter_count], and a call that provides this one parameter, which
    is not more than the two declared, gets an issue under that very name,
    the too-few count issue. *)
Lemma count_issue_named_like_the_parameter :
  Py.str_in "parameter_count" (map Rpc.name Samples.range_expected) = false
  /\ Py.dict_len [("parameter_count", Py.VInt 1)] = 1
  /\ length Samples.range_expected = 2
  /\ map (fun e => (Rpc.validation_type e, Rpc.parameter_name e))
       (@Rpc.validate_rpc_call Scenarios.plain_builtins
          (Rpc.new_validator Scenarios.range_schema) "f"
          [("parameter_count", Py.VInt 1)] 0%Z)
     = [ (Rpc.PARAMETER_COUNT_MISMATCH, "parameter_count");
         (Rpc.MISSING_REQUIRED, "user_id");
         (Rpc.MISSING_REQUIRED, "range") ].
Proof. repeat split. Qed.


(** C6, the claim as stated fails: a report with one CRITICAL detection of
    confidence 1 has overall confidence 1/2; with an INFO detection of
    confidence 1 appended it has 7/10. *)
Lemma appended_detection_raises_confidence :
  (Confidence._calculate_overall_confidence
     (Confidence.report_of [Confidence.detection Confidence.CRITICAL 1])
   == 1 # 2)%Q
  /\ (Confidence._calculate_overall_confidence
        (Confidence.report_of
           ([Confidence.detection Confidence.CRITICAL 1]
            ++ [Confidence.detection Confidence.INFO 1]))
      == 7 # 10)%Q
  /\ (Confidence._calculate_overall_confidence
        (Confidence.report_of [Confidence.detection Confidence.CRITICAL 1])
      < Confidence._calculate_overall_confidence
          (Confidence.report_of
             ([Confidence.detection Confidence.CRITICAL 1]
              ++ [Confidence.detection Confidence.INFO 1])))%Q.
Proof. repeat split; vm_compute; reflexivity. Qed.

(* ================================================================== *)
(** ** The theorems at concrete inputs *)
(* ================================================================== *)

(** The catalog with two functions named [f]: the second one has two
    required parameters, and a call of [f] with one parameter yields a
    count-mismatch issue. *)
Lemma rpc_arity_law_witness :
  Catalog.functions Samples.overloaded_schema
  = ([Samples.first_f] ++ Samples.second_f :: [])%list
  /\ ~ In "f" (map Catalog.function_name (@nil Catalog.FunctionInfo))
  /\ ((exists e,
          In e (@Rpc.validate_rpc_call Scenarios.plain_builtins
                  (Rpc.new_validator Samples.overloaded_schema) "f"
                  [("b", Py.VInt 1)] 75%Z)
          /\ Rpc.validation_type e = Rpc.PARAMETER_COUNT_MISMATCH)
      <-> (1 < 2 \/ 2 < 1)).
Proof.
  assert (Hlast : ~ In "f" (map Catalog.function_name
                              (@nil Catalog.FunctionInfo)))
    by (simpl; tauto).
  split; [reflexivity | split; [exact Hlast|]].
  exact (proj1 (@rpc_arity_law Scenarios.plain_builtins
                  Samples.overloaded_schema [Samples.first_f] []
                  Samples.second_f [("b", Py.VInt 1)] 75%Z eq_refl Hlast)).
Defined.

(** [four_names_schema] has no function [get_user_stats]: the suggestion
    names the first three of its four names. *)
Lemma unknown_function_short_circuit_witness :
  ~ In "get_user_stats"
       (map Catalog.function_name
          (Catalog.functions Scenarios.four_names_schema))
  /\ @Rpc.validate_rpc_call Scenarios.plain_builtins
       (Rpc.new_validator Scenarios.four_names_schema) "get_user_stats"
       [("user_id", Py.VStr Scenarios.sample_uuid); ("days", Py.VInt 7)] 12%Z
     = [ {| Rpc.parameter_name := "function";
            Rpc.validation_type := Rpc.TYPE_MISMATCH;
            Rpc.expected :=
              "One of: get_user, list_posts, delete_post, count_logs";
            Rpc.actual := "get_user_stats";
            Rpc.message := "RPC function 'get_user_stats' not found";
            Rpc.severity := "HIGH";
            Rpc.line_number := 12%Z;
            Rpc.suggestion :=
              "Available functions: get_user, list_posts, delete_post" |} ].
Proof.
  assert (Hnot : ~ In "get_user_stats"
                     (map Catalog.function_name
                        (Catalog.functions Scenarios.four_names_schema)))
    by (simpl; intros [E|[E|[E|[E|[E|[]]]]]]; discriminate).
  split; [exact Hnot|].
  exact (proj1 (@unknown_function_short_circuit Scenarios.plain_builtins
                  Scenarios.four_names_schema "get_user_stats"
                  [("user_id", Py.VStr Scenarios.sample_uuid);
                   ("days", Py.VInt 7)] 12%Z Hnot)).
Defined.

(** A project where only the direct access works, and reaches [users] and
    [posts]: the catalog holds these two tables and nothing else. *)
Lemma catalog_build_fault_tolerant_witness :
  Introspector.select_tables Scenarios.rest_only_client = Introspector.Raises
  /\ exists info,
       Introspector.analyze_schema
         {| Introspector.supabase_url := "https://demo.supabase.co";
            Introspector.client := Some Scenarios.rest_only_client;
            Introspector.connect := None |}
       = Introspector.Data info
       /\ Catalog.tables info
          = [Introspector.basic_table "users"; Introspector.basic_table "posts"]
       /\ Catalog.functions info = []
       /\ Catalog.views info = []
       /\ Catalog.enums info = [].
Proof.
  split; [reflexivity|].
  destruct (catalog_build_fault_tolerant "https://demo.supabase.co"
              Scenarios.rest_only_client None)
    as (info & Hinfo & Hfunctions & Hviews & Henums & _ & _ & _ & _ & _ & _
        & _ & _ & _ & _ & Htables).
  exists info. split; [exact Hinfo|].
  split; [exact (Htables eq_refl)|].
  split; [exact (Hfunctions eq_refl)|].
  split; [exact (Hviews eq_refl) | exact (Henums eq_refl)].
Defined.


(** The scenario with the UUID of the specification. *)
Lemma missing_required_and_bad_enum_witness :
  Rpc._is_valid_uuid (Py.VStr Scenarios.sample_uuid) = true
  /\ map (fun e => (Rpc.validation_type e, Rpc.parameter_name e))
       (@Rpc.validate_rpc_call Scenarios.plain_builtins
          (Rpc.new_validator Scenarios.range_schema) "f"
          [("user_id", Py.VStr Scenarios.sample_uuid)] 0%Z)
     = [(Rpc.PARAMETER_COUNT_MISMATCH, "parameter_count");
        (Rpc.MISSING_REQUIRED, "range")]
  /\ map (fun e => (Rpc.validation_type e, Rpc.parameter_name e))
       (@Rpc.validate_rpc_call Scenarios.plain_builtins
          (Rpc.new_validator Scenarios.range_schema) "f"
          [("user_id", Py.VStr Scenarios.sample_uuid);
           ("range", Py.VStr "12h")] 0%Z)
     = [(Rpc.INVALID_ENUM, "range")].
Proof.
  split; [reflexivity|].
  exact (@missing_required_and_bad_enum Scenarios.plain_builtins
           Scenarios.sample_uuid 0%Z eq_refl).
Defined.

(** A call of [f] with the undeclared parameter [verbose] in place of
    [range]: no issue bears the name [verbose]. *)
Lemma undeclared_parameter_not_reported_witness :
  ~ In "verbose" (map Rpc.name Samples.range_expected)
  /\ "verbose" <> "parameter_count"
  /\ Forall
       (fun e => Rpc.parameter_name e <> "verbose")
       (@Rpc.validate_rpc_call Scenarios.plain_builtins
          (Rpc.new_validator Scenarios.range_schema) "f"
          [("user_id", Py.VStr Scenarios.sample_uuid);
           ("verbose", Py.VBool true)] 0%Z).
Proof.
  assert (Hnot : ~ In "verbose" (map Rpc.name Samples.range_expected))
    by (simpl; intros [E|[E|[]]]; discriminate).
  assert (Hne : "verbose" <> "parameter_count") by discriminate.
  split; [exact Hnot | split; [exact Hne|]].
  exact (proj1 (proj2 (@undeclared_parameter_not_reported
                         Scenarios.plain_builtins Scenarios.range_schema "f"
                         Samples.range_expected
                         [("user_id", Py.VStr Scenarios.sample_uuid);
                          ("verbose", Py.VBool true)] 0%Z "verbose"
                         eq_refl Hnot))
           Hne).
Defined.

(** A CRITICAL detection of confidence 1 appended to a report without
    detections: the overall confidence goes from 1 to one half. *)
Lemma confidence_highest_without_detections_witness :
  Confidence.detections (Confidence.report_of []) = []
  /\ Forall (fun d => (0 <= Confidence.confidence d)%Q)
            [Confidence.detection Confidence.CRITICAL 1]
  /\ (Confidence._calculate_overall_confidence
        (Confidence.report_of [Confidence.detection Confidence.CRITICAL 1])
      <= Confidence._calculate_overall_confidence (Confidence.report_of []))%Q.
Proof.
  assert (Hc : Forall (fun d => (0 <= Confidence.confidence d)%Q)
                      [Confidence.detection Confidence.CRITICAL 1]).
  { repeat constructor. unfold Qle. simpl. lia. }
  split; [reflexivity | split; [exact Hc|]].
  exact (proj1 (proj2 (confidence_highest_without_detections
                         (Confidence.report_of [])
                         (Confidence.report_of
                            [Confidence.detection Confidence.CRITICAL 1])
                         [Confidence.detection Confidence.CRITICAL 1]
                         eq_refl eq_refl Hc))).
Defined.


(** The two [formatDate] functions have the same scope and name. *)
Lemma identifier_of_scope_and_name_witness :
  GraphBuilder.has_colon "formatDate" = false
  /\ (GraphBuilder.identifier (Scenarios.format_date_in "shop-web")
      = GraphBuilder.identifier (Scenarios.format_date_in "shop-admin")
      <-> GraphBuilder.scope (Scenarios.format_date_in "shop-web")
          = GraphBuilder.scope (Scenarios.format_date_in "shop-admin")
          /\ "formatDate" = "formatDate").
Proof.
  split; [reflexivity|].
  exact (identifier_of_scope_and_name (Scenarios.format_date_in "shop-web")
           (Scenarios.format_date_in "shop-admin") eq_refl eq_refl).
Defined.

(* ================================================================== *)
(** ** The RPC parameter validator: how the checks combine *)
(* ================================================================== *)

Section RpcCallFacts.
Import Py Catalog Rpc.
Context `{Builtins}.

Lemma NoDup_map_filter {A B : Type} (f : A -> B) (h : A -> bool) (l : list A) :
  NoDup (map f l) -> NoDup (map f (filter h l)).
Proof.
  induction l as [|a l IH]; simpl; intros Hnd; [constructor|].
  inversion Hnd as [|? ? Hnotin Hnd']; subst.
  destruct (h a); simpl; auto. constructor; auto.
  intros Hin. apply Hnotin. apply in_map_iff in Hin.
  destruct Hin as (x & Hx & Hf). apply filter_In in Hf.
  apply in_map_iff. exists x. tauto.
Qed.

(** The kind of issue each of the four later checks emits. *)
Lemma required_kind expected provided line :
  Forall (fun e => validation_type e = MISSING_REQUIRED)
         (_validate_required_parameters expected provided line).
Proof.
  apply Forall_forall. intros e He. unfold _validate_required_parameters in He.
  apply in_flat_map in He. destruct He as (p & _ & He).
  destruct (is_required p && negb (dict_mem provided (name p))); [|contradiction].
  now destruct He as [<-|[]].
Qed.

Lemma types_kind expected provided line :
  Forall (fun e => validation_type e = TYPE_MISMATCH)
         (_validate_parameter_types expected provided line).
Proof.
  apply for_declared_Forall. intros n v p _ _. unfold type_errors.
  destruct (type p); try constructor;
    match goal with
    | |- Forall _ (if ?c then _ else _) => destruct c
    end; repeat constructor.
Qed.

Lemma enums_kind expected provided line :
  Forall (fun e => validation_type e = INVALID_ENUM)
         (_validate_enum_values expected provided line).
Proof.
  apply for_declared_Forall. intros n v p _ _. unfold enum_errors.
  destruct (type p); try constructor.
  destruct (enum_values p) as [[|x xs]|]; try constructor.
  destruct (str_in (str v) (x :: xs)); repeat constructor.
Qed.

Lemma json_kind expected provided line :
  Forall (fun e => validation_type e = INVALID_JSON_STRUCTURE)
         (_validate_json_structures expected provided line).
Proof.
  apply for_declared_Forall. intros n v p _ _. unfold json_errors.
  destruct (type p); try constructor;
    (destruct (negb (_is_valid_json_object v));
     [ repeat constructor
     | destruct (json_schema p); [|constructor];
       apply Forall_forall; intros e He; apply in_map_iff in He;
       now destruct He as (x & <- & _) ]).
Qed.

Lemma of_kind_app k (l1 l2 : list ParameterValidationError) :
  of_kind k (l1 ++ l2) = (of_kind k l1 ++ of_kind k l2)%list.
Proof. apply filter_app. Qed.

Lemma of_kind_other k k' (l : list ParameterValidationError) :
  k' <> k -> Forall (fun e => validation_type e = k') l -> of_kind k l = [].
Proof.
  intros Hne Hl. unfold of_kind. induction Hl as [|e l He _ IH]; simpl; auto.
  rewrite He. destruct k, k'; simpl; auto; contradiction.
Qed.

(** Some required parameter is absent from a call that provides fewer
    parameters than are required, when the declared names are distinct. *)
Lemma absent_required_exists {V : Type} (expected : list ExpectedParameter)
    (provided : dict V) :
  NoDup (map name expected) ->
  dict_len provided < required_count expected ->
  exists p, In p expected /\ is_required p = true
            /\ dict_mem provided (name p) = false.
Proof.
  intros Hnd Hlt.
  destruct (find (fun p => is_required p && negb (dict_mem provided (name p)))
                 expected) as [p|] eqn:Hf.
  - apply find_some in Hf. destruct Hf as [Hin Hp].
    apply andb_true_iff in Hp. destruct Hp as [Hr Hm].
    apply negb_true_iff in Hm. eauto.
  - exfalso.
    assert (Hincl : incl (map name (filter is_required expected))
                         (dict_keys provided)).
    { intros k Hk. apply in_map_iff in Hk. destruct Hk as (p & <- & Hp).
      apply filter_In in Hp. destruct Hp as [Hin Hr].
      pose proof (find_none _ _ Hf p Hin) as Hno. simpl in Hno.
      rewrite Hr in Hno. simpl in Hno. apply negb_false_iff in Hno.
      now apply dict_mem_keys. }
    pose proof (NoDup_incl_length (NoDup_map_filter name is_required _ Hnd) Hincl)
      as Hle.
    rewrite length_map in Hle. unfold required_count, dict_len, dict_keys in *.
    rewrite length_map in Hle. lia.
Qed.

Lemma missing_error_emitted (expected : list ExpectedParameter)
    (provided : dict value) (line : Z) (p : ExpectedParameter) :
  In p expected -> is_required p = true -> dict_mem provided (name p) = false ->
  In (missing_error p line)
     (_validate_required_parameters expected provided line).
Proof.
  intros Hin Hr Hm. unfold _validate_required_parameters.
  apply in_flat_map. exists p. split; auto. rewrite Hr, Hm. now left.
Qed.

Lemma required_check_passes (expected : list ExpectedParameter)
    (provided : dict value) (line : Z) :
  (forall p, In p expected -> is_required p = true ->
             dict_mem provided (name p) = true) ->
  _validate_required_parameters expected provided line = [].
Proof.
  unfold _validate_required_parameters.
  induction expected as [|p ps IH]; simpl; intros Hreq; auto.
  rewrite IH by (intros q Hq; apply Hreq; now right).
  destruct (is_required p) eqn:Hr; simpl; auto.
  now rewrite (Hreq p (or_introl eq_refl) Hr).
Qed.

(** X1.  For a function whose parameters all have a name: when a call
    provides fewer parameters than the function requires and the declared
    names are distinct, the result holds the too-few count issue and, with
    it, a missing-required issue for a required parameter that the call
    leaves out. *)
Theorem too_few_comes_with_missing_required (v : RPCParameterValidator)
    (fname : string) (expected : list ExpectedParameter)
    (provided : dict value) (line : Z) :
  dict_get (function_cache v) fname = Some expected ->
  NoDup (map name expected) ->
  dict_len provided < required_count expected ->
  In (too_few_error expected provided line)
     (validate_rpc_call v fname provided line)
  /\ exists p,
       In p expected /\ is_required p = true
       /\ dict_mem provided (name p) = false
       /\ In (missing_error p line) (validate_rpc_call v fname provided line).
Proof.
  intros Hget Hnd Hlt.
  rewrite (validate_known v _ _ provided line Hget), count_check_cases.
  apply Nat.ltb_lt in Hlt. rewrite Hlt. apply Nat.ltb_lt in Hlt.
  split; [now left|].
  destruct (absent_required_exists expected provided Hnd Hlt)
    as (p & Hin & Hr & Hm).
  exists p. split; [exact Hin|]. split; [exact Hr|]. split; [exact Hm|].
  simpl. right. apply in_or_app. left. now apply missing_error_emitted.
Qed.

(** X2.  A call that provides every required parameter and only declared
    ones (names distinct on both sides) gets no count issue and no
    missing-required issue: the result is what the type, enum and JSON
    checks emit. *)
Theorem complete_call_has_value_issues_only (v : RPCParameterValidator)
    (fname : string) (expected : list ExpectedParameter)
    (provided : dict value) (line : Z) :
  dict_get (function_cache v) fname = Some expected ->
  NoDup (map name expected) ->
  NoDup (dict_keys provided) ->
  incl (dict_keys provided) (map name expected) ->
  (forall p, In p expected -> is_required p = true ->
             dict_mem provided (name p) = true) ->
  validate_rpc_call v fname provided line =
    (_validate_parameter_types expected provided line
     ++ _validate_enum_values expected provided line
     ++ _validate_json_structures expected provided line)%list.
Proof.
  intros Hget Hnd Hkeys Hdecl Hreq.
  rewrite (validate_known v _ _ provided line Hget), count_check_cases.
  assert (Hle : length expected >= dict_len provided).
  { pose proof (NoDup_incl_length Hkeys Hdecl) as Hl.
    unfold dict_len, dict_keys in *. now rewrite !length_map in Hl. }
  assert (Hge : ~ dict_len provided < required_count expected).
  { intros Hlt.
    destruct (absent_required_exists expected provided Hnd Hlt)
      as (p & Hin & Hr & Hm).
    rewrite (Hreq p Hin Hr) in Hm. discriminate. }
  apply Nat.ltb_nlt in Hge. rewrite Hge.
  replace (length expected <? dict_len provided)%nat with false
    by (symmetry; apply Nat.ltb_ge; lia).
  now rewrite required_check_passes.
Qed.

(** The four later checks emit neither a count issue nor the kind
    [OPTIONAL_NOT_PROVIDED]. *)
Lemma later_checks_kinds k expected provided line :
  k = PARAMETER_COUNT_MISMATCH \/ k = OPTIONAL_NOT_PROVIDED ->
  of_kind k
    (_validate_required_parameters expected provided line
     ++ _validate_parameter_types expected provided line
     ++ _validate_enum_values expected provided line
     ++ _validate_json_structures expected provided line) = [].
Proof.
  intros Hk. rewrite !of_kind_app.
  rewrite (of_kind_other k MISSING_REQUIRED _)
    by (destruct Hk; subst; (discriminate || apply required_kind)).
  rewrite (of_kind_other k TYPE_MISMATCH _)
    by (destruct Hk; subst; (discriminate || apply types_kind)).
  rewrite (of_kind_other k INVALID_ENUM _)
    by (destruct Hk; subst; (discriminate || apply enums_kind)).
  rewrite (of_kind_other k INVALID_JSON_STRUCTURE _)
    by (destruct Hk; subst; (discriminate || apply json_kind)).
  reflexivity.
Qed.

(** X3.  Whatever the validator, the function name and the parameters, a
    call gets at most one count-mismatch issue (too few and too many
    exclude each other), and never an issue of kind
    [OPTIONAL_NOT_PROVIDED]. *)
Theorem at_most_one_count_issue (v : RPCParameterValidator) (fname : string)
    (provided : dict value) (line : Z) :
  length (of_kind PARAMETER_COUNT_MISMATCH
            (validate_rpc_call v fname provided line)) <= 1
  /\ of_kind OPTIONAL_NOT_PROVIDED
       (validate_rpc_call v fname provided line) = [].
Proof.
  unfold validate_rpc_call.
  destruct (dict_get (function_cache v) fname) as [expected|]; [|simpl; auto].
  rewrite count_check_cases.
  rewrite (of_kind_app PARAMETER_COUNT_MISMATCH), (of_kind_app OPTIONAL_NOT_PROVIDED).
  rewrite !later_checks_kinds by auto.
  destruct (dict_len provided <? required_count expected)%nat;
    [|destruct (length expected <? dict_len provided)%nat]; simpl; auto.
Qed.

End RpcCallFacts.

(* ================================================================== *)
(** ** The RPC parameter validator: the strings the patterns accept *)
(* ================================================================== *)

Section RpcPatternFacts.
Import Py Catalog Rpc PatternShapes.

Lemma at_end_cases (s : string) :
  at_end s = true <-> s = "" \/ s = line_feed.
Proof.
  destruct s as [|c [|c' s']]; simpl.
  - split; auto.
  - split.
    + intros E. right. apply Nat.eqb_eq in E. unfold line_feed.
      f_equal. unfold code in E. rewrite <- (ascii_nat_embedding c). now rewrite E.
    + intros [E|E]; [discriminate|]. injection E as ->. reflexivity.
  - split; [discriminate | intros [E|E]; discriminate].
Qed.

Lemma re_match_spells (p : list atom) (s : string) :
  forallb one_char p = true ->
  re_match p s = true <->
  exists u r, s = u ++ r /\ spells p u = true /\ at_end r = true.
Proof.
  intros Hp. revert s. induction p as [|a p IH]; intros s.
  - simpl. split.
    + intros E. exists "", s. auto.
    + intros (u & r & -> & Hu & Hr). destruct u; [exact Hr | discriminate].
  - simpl in Hp. apply andb_true_iff in Hp. destruct Hp as [Ha Hp].
    specialize (IH Hp).
    assert (Hstep : re_match (a :: p) s =
                    match s with
                    | EmptyString => false
                    | String c s' => atom_ok a c && re_match p s'
                    end).
    { destruct a; simpl; try reflexivity. discriminate. }
    rewrite Hstep. destruct s as [|c s'].
    + split; [discriminate|].
      intros (u & r & E & Hu & Hr). destruct u; simpl in *; discriminate.
    + split.
      * intros E. apply andb_true_iff in E. destruct E as [Hc Hm].
        apply IH in Hm. destruct Hm as (u & r & -> & Hu & Hr).
        exists (String c u), r. simpl. rewrite Hc, Hu. auto.
      * intros (u & r & E & Hu & Hr). destruct u as [|c' u]; [discriminate|].
        simpl in E. injection E as <- ->. simpl in Hu.
        apply andb_true_iff in Hu. destruct Hu as [Hc Hu].
        rewrite Hc. simpl. apply IH. eauto.
Qed.

Lemma spells_length (p : list atom) (u : string) :
  spells p u = true -> String.length u = List.length p.
Proof.
  revert u. induction p as [|a p IH]; intros [|c u]; simpl; try discriminate; auto.
  intros E. apply andb_true_iff in E. f_equal. now apply IH.
Qed.

Lemma uuid_pattern_one_char : forallb one_char uuid_pattern = true.
Proof. reflexivity. Qed.

Lemma append_empty (s : string) : s ++ "" = s.
Proof. induction s; simpl; congruence. Qed.

Lemma uuid_spelled (s : string) :
  _is_valid_uuid (VStr s) = true <->
  exists u, spells uuid_pattern u = true /\ (s = u \/ s = u ++ line_feed).
Proof.
  unfold _is_valid_uuid.
  pose proof (re_match_spells uuid_pattern s uuid_pattern_one_char) as Hs.
  split.
  - intros Hm. apply (proj1 Hs) in Hm. clear Hs.
    destruct Hm as (u & r & -> & Hu & Hr). exists u. split; [exact Hu|].
    apply at_end_cases in Hr. destruct Hr as [-> | ->]; [left | right; reflexivity].
    apply append_empty.
  - intros (u & Hu & Hsu). apply (proj2 Hs). clear Hs.
    destruct Hsu as [-> | ->].
    + exists u, "". rewrite append_empty. repeat split; assumption.
    + exists u, line_feed. repeat split; assumption.
Qed.

(** X6.  The strings [_is_valid_uuid] accepts have 36 characters, or 37
    of which the last is a line feed: an accepted string of 36 characters
    is still accepted with a line feed appended, and an accepted string of
    another length is an accepted one of 36 characters followed by a line
    feed. *)
Theorem uuid_accepts_a_trailing_line_feed (s : string) :
  _is_valid_uuid (VStr s) = true ->
  (String.length s = 36
   /\ _is_valid_uuid (VStr (s ++ line_feed)) = true)
  \/ (exists u, s = u ++ line_feed /\ String.length u = 36
                /\ _is_valid_uuid (VStr u) = true).
Proof.
  intros Hs. apply uuid_spelled in Hs. destruct Hs as (u & Hu & Hs).
  pose proof (spells_length _ _ Hu) as Hlen.
  assert (H36 : List.length uuid_pattern = 36) by reflexivity.
  rewrite H36 in Hlen. clear H36.
  destruct Hs as [-> | ->].
  - left. split; [exact Hlen|]. apply uuid_spelled. exists u.
    split; [exact Hu | right; reflexivity].
  - right. exists u. split; [reflexivity|]. split; [exact Hlen|].
    apply uuid_spelled. exists u. split; [exact Hu | left; reflexivity].
Qed.

Lemma lower_keeps_hex (c : ascii) : is_hex (lower_char c) = is_hex c.
Proof. destruct c as [[] [] [] [] [] [] [] []]; reflexivity. Qed.

Lemma lower_keeps_hyphen (c : ascii) :
  Ascii.eqb "-" (lower_char c) = Ascii.eqb "-" c.
Proof. destruct c as [[] [] [] [] [] [] [] []]; reflexivity. Qed.

Lemma lower_keeps_line_feed (c : ascii) :
  (code (lower_char c) =? 10)%nat = (code c =? 10)%nat.
Proof. destruct c as [[] [] [] [] [] [] [] []]; reflexivity. Qed.

Lemma at_end_lower (s : string) : at_end (lower s) = at_end s.
Proof.
  destruct s as [|c [|c' s']]; simpl; auto. apply lower_keeps_line_feed.
Qed.

Lemma re_match_lower (p : list atom) (s : string) :
  forallb hex_or_hyphen p = true ->
  re_match p (lower s) = re_match p s.
Proof.
  revert s. induction p as [|a p IH]; intros s Hp.
  - apply at_end_lower.
  - simpl in Hp. apply andb_true_iff in Hp. destruct Hp as [Ha Hp].
    destruct a as [| |x|x]; try discriminate; destruct s as [|c s'];
      simpl; auto.
    + now rewrite lower_keeps_hex, IH.
    + simpl in Ha. apply Ascii.eqb_eq in Ha. subst x.
      now rewrite lower_keeps_hyphen, IH.
Qed.

(** X7.  [_is_valid_uuid] does not depend on letter case: a string is
    accepted exactly when its lower-case form is. *)
Theorem uuid_check_ignores_letter_case (s : string) :
  _is_valid_uuid (VStr (lower s)) = _is_valid_uuid (VStr s).
Proof. unfold _is_valid_uuid. now apply re_match_lower. Qed.

End RpcPatternFacts.

(* ================================================================== *)
(** ** The RPC parameter validator: values and cache entries *)
(* ================================================================== *)

Section RpcValueFacts.
Import Py Catalog Rpc.
Context `{Builtins}.

(** X5.  When several catalog functions bear the same name, the cache
    holds the parameters of the last one: calls are validated against the
    last declaration only. *)
Theorem overloaded_function_last_wins (schema : SupabaseSchemaInfo)
    (before after : list FunctionInfo) (f : FunctionInfo) :
  functions schema = (before ++ f :: after)%list ->
  ~ In (function_name f) (map function_name after) ->
  dict_get (function_cache (new_validator schema)) (function_name f) =
    Some (expected_parameters (_build_enum_cache schema) f).
Proof.
  intros Hfs Hlast. simpl. unfold _build_function_cache. rewrite Hfs.
  exact (filled_get_last function_name
           (expected_parameters (_build_enum_cache schema)) before after f []
           Hlast).
Qed.

(** X4.  For a parameter declared [json] or [jsonb] (no enum of that name)
    the JSON check passes a value exactly when it is a dict: a list, and
    also a string that holds valid JSON text, gets one issue; no value
    gets more than one. *)
Theorem json_parameter_accepts_only_a_dict (cache : dict (list string))
    (i : nat) (param : Param) (t n : string) (v : value) (line : Z) :
  param_type param = Some t ->
  t = "json" \/ t = "jsonb" ->
  dict_mem cache t = false ->
  (json_errors n v (expected_parameter cache i param) line = []
   <-> exists d, v = VDict d)
  /\ length (json_errors n v (expected_parameter cache i param) line) <= 1.
Proof.
  intros Ht Hjson Hcache.
  assert (Hty : type (expected_parameter cache i param) = JSON
                \/ type (expected_parameter cache i param) = JSONB).
  { simpl. rewrite Ht. simpl. unfold _map_parameter_type. rewrite Hcache.
    destruct Hjson; subst t; [left | right]; reflexivity. }
  assert (Hsch : json_schema (expected_parameter cache i param)
                 = Some basic_object_schema).
  { simpl. rewrite Ht. destruct Hjson; subst t; reflexivity. }
  unfold json_errors. rewrite Hsch.
  assert (Hcases :
    (if negb (_is_valid_json_object v)
     then [error n INVALID_JSON_STRUCTURE "Valid JSON object"
             ("'" ++ str v ++ "'")
             ("Parameter '" ++ n ++ "' must be a valid JSON object") line
             "Use object format: {key: 'value'}"]
     else map (fun e => error n INVALID_JSON_STRUCTURE (se_expected e)
                          (se_actual e) (se_message e) line (se_suggestion e))
            (_validate_json_schema v basic_object_schema n)) = []
    <-> exists d, v = VDict d).
  { destruct v; simpl; try (split; [discriminate | intros [d Hd]; discriminate]).
    - destruct (json_loads s); simpl;
        (split; [discriminate | intros [d Hd]; discriminate]).
    - split; eauto. }
  assert (Hlen : length
    (if negb (_is_valid_json_object v)
     then [error n INVALID_JSON_STRUCTURE "Valid JSON object"
             ("'" ++ str v ++ "'")
             ("Parameter '" ++ n ++ "' must be a valid JSON object") line
             "Use object format: {key: 'value'}"]
     else map (fun e => error n INVALID_JSON_STRUCTURE (se_expected e)
                          (se_actual e) (se_message e) line (se_suggestion e))
            (_validate_json_schema v basic_object_schema n)) <= 1).
  { destruct v; simpl; auto. destruct (json_loads s); simpl; auto. }
  destruct Hty as [-> | ->]; split; assumption.
Qed.

(** X8.  A value never fails the type check of its own inferred type: if
    the declared type of a parameter is what [_infer_type] gives for the
    provided value, the type check emits nothing for it. *)
Theorem inferred_type_passes_its_check (n : string) (v : value)
    (expected_param : ExpectedParameter) (line : Z) :
  type expected_param = _infer_type v ->
  type_errors n v expected_param line = [].
Proof.
  intros Hty. unfold type_errors. rewrite Hty.
  destruct v; try reflexivity.
  unfold _infer_type.
  destruct (_is_valid_uuid (VStr s)); [reflexivity|].
  destruct (_is_valid_timestamp (VStr s)); reflexivity.
Qed.

End RpcValueFacts.

(* ================================================================== *)
(** ** Overall confidence: its range *)
(* ================================================================== *)

Section ConfidenceRange.
Import Confidence.
Local Open Scope Q_scope.

(** X9.  When every detection of a report has a confidence between 0 and
    1, the overall confidence lies between 0.5 and 1: no number of
    detections brings it below one half. *)
Theorem confidence_between_half_and_one (r : ValidationReport) :
  Forall (fun d => 0 <= confidence d <= 1) (detections r) ->
  1 # 2 <= _calculate_overall_confidence r
  /\ _calculate_overall_confidence r <= 1.
Proof.
  intros Hc. rewrite !confidence_as_specified.
  unfold specified_confidence.
  destruct (detections r) as [|d ds] eqn:E; [split; lra|].
  pose proof (weighted_sum_bounds _ Hc) as [Hlo Hhi].
  pose proof (count_positive _ d ds) as Hn.
  set (n := inject_Z (Z.of_nat (length (d :: ds)))) in *.
  set (s := weighted_sum (d :: ds)) in *.
  assert (H0 : 0 <= s / (2 * n)) by (apply Qle_shift_div_l; lra).
  assert (H1 : s / (2 * n) <= 1 # 2) by (apply Qle_shift_div_r; lra).
  split.
  - apply Qle_trans with (1 - s / (2 * n)); [lra | apply Q.le_max_r].
  - apply Q.max_lub; lra.
Qed.

End ConfidenceRange.

(* ================================================================== *)
(** ** The schema introspector: what the catalog records *)
(* ================================================================== *)

Section IntrospectorMore.
Import Py Catalog Introspector Rpc.

(** X10.  In the tables [_analyze_tables] returns, on the metadata path
    and on the fallback path alike, a table without row-level security
    has no policy: policies are only read for tables with [rls_enabled]. *)
Theorem policies_only_under_row_security (c : Client) :
  Forall (fun t => rls_enabled t = false -> policies t = [])
         (_analyze_tables c).
Proof.
  unfold _analyze_tables. destruct (select_tables c) as [rows|].
  - apply Forall_forall. intros t Ht. apply in_map_iff in Ht.
    destruct Ht as (row & <- & _). unfold table_of_row. simpl.
    intros ->. reflexivity.
  - unfold _analyze_tables_fallback. apply Forall_forall. intros t Ht.
    apply in_flat_map in Ht. destruct Ht as (n & _ & Ht).
    destruct (table_select_one c n); [|contradiction].
    destruct Ht as [<-|[]]. reflexivity.
Qed.

(** X11.  The parameters of an introspected function never carry a
    default, so each is marked required exactly when its mode is [IN]:
    the number of required parameters of such a function is the number
    of its [IN] parameters. *)
Theorem introspected_inputs_are_all_required (c : Client)
    (cache : dict (list string)) :
  Forall (fun f =>
            Forall (fun p => param_default p = None
                             /\ declared_required p
                                = String.eqb (get_or (param_mode p) "IN") "IN")
                   (parameters f)
            /\ required_count (expected_parameters cache f)
               = length (filter (fun p => String.eqb (get_or (param_mode p) "IN") "IN")
                                (parameters f)))
         (_analyze_functions c).
Proof.
  assert (Hparams : forall schema fname,
            Forall (fun p => param_default p = None
                             /\ declared_required p
                                = String.eqb (get_or (param_mode p) "IN") "IN")
                   (_analyze_function_parameters c schema fname)).
  { intros schema fname. unfold _analyze_function_parameters, rows_or_empty.
    destruct (select_parameters c schema _) as [rows|]; [|constructor].
    apply Forall_forall. intros p Hp. apply in_map_iff in Hp.
    destruct Hp as (row & <- & _). split; [reflexivity|].
    unfold declared_required. simpl. now rewrite andb_true_r. }
  unfold _analyze_functions, rows_or_empty.
  destruct (select_routines c) as [rows|]; [|constructor].
  apply Forall_forall. intros f Hf. apply in_map_iff in Hf.
  destruct Hf as (row & <- & _). simpl. split; [apply Hparams|].
  unfold expected_parameters. rewrite required_count_enumerate. simpl.
  specialize (Hparams (row_routine_schema row) (row_routine_name row)).
  induction Hparams as [|p ps [_ Hp] _ IH]; simpl; auto.
  rewrite Hp. destruct (String.eqb _ _); simpl; now rewrite IH.
Qed.

End IntrospectorMore.

(* ================================================================== *)
(** ** Clearing a repository *)
(* ================================================================== *)

Section GraphClearingMore.
Import GraphBuilder GraphInvariants GraphKeys.

Lemma hop_from_nothing (g : Graph) (r : RelType) (l : Label) :
  hop g [] r l = [].
Proof.
  unfold hop. apply filter_none. intros b _.
  replace (existsb _ (edges g)) with false; [apply andb_false_r|].
  symmetry. induction (edges g) as [|e es IH]; simpl; auto.
  now rewrite andb_false_r.
Qed.

Lemma reached_from_nothing (g : Graph) (repo : string)
    (p : list (RelType * Label)) :
  has_node g Repository repo = false -> reached g repo p = [].
Proof.
  intros Hno. unfold reached.
  assert (Hm : match_nodes g Repository repo = []).
  { destruct (match_nodes g Repository repo) as [|a l] eqn:E; auto.
    assert (Hh : has_node g Repository repo = true)
      by (apply has_node_In; exists a; rewrite E; now left).
    rewrite Hh in Hno. discriminate. }
  rewrite Hm. induction p as [|[r l] p IH]; simpl; auto.
  now rewrite hop_from_nothing.
Qed.

Lemma detach_delete_nothing (g : Graph) : detach_delete g [] = g.
Proof.
  destruct g as [ns es]. unfold detach_delete. simpl.
  f_equal; apply filter_all; auto.
Qed.

Lemma delete_reached_absent (repo : string) (p : list (RelType * Label))
    (g : Graph) :
  has_node g Repository repo = false -> delete_reached repo p g = g.
Proof.
  intros Hno. unfold delete_reached.
  rewrite reached_from_nothing by assumption. apply detach_delete_nothing.
Qed.

Lemma clear_absent (repo : string) (g : Graph) :
  has_node g Repository repo = false -> clear_repository_data repo g = g.
Proof.
  intros Hno. cbv beta zeta delta [clear_repository_data].
  repeat rewrite (fun p => delete_reached_absent repo p g Hno).
  reflexivity.
Qed.

(** X12.  Clearing a repository of which the store holds no [Repository]
    node leaves the store as it is, nodes and relationships. *)
Theorem clearing_an_absent_repository_changes_nothing (repo : string)
    (g : Graph) :
  has_node g Repository repo = false -> clear_repository_data repo g = g.
Proof. apply clear_absent. Qed.

(** The last statement of [clear_repository_data] leaves no node that
    bears the repository's name. *)
Lemma repository_deleted (repo : string) (g : Graph) :
  has_node (delete_reached repo [] g) Repository repo = false.
Proof.
  destruct (has_node (delete_reached repo [] g) Repository repo) eqn:E; auto.
  exfalso. apply has_node_In in E. destruct E as (a & Ha).
  apply match_nodes_In in Ha. destruct Ha as (Hin & Hl & Hk).
  unfold delete_reached, detach_delete, reached in Hin. simpl in Hin.
  apply filter_In in Hin. destruct Hin as [Hin Hkeep].
  apply negb_true_iff in Hkeep.
  assert (Hid : has_id (match_nodes g Repository repo) (node_id a) = true).
  { apply has_id_In. exists a. split; auto. apply match_nodes_In. auto. }
  rewrite Hid in Hkeep. discriminate.
Qed.

Lemma clear_removes_repository (repo : string) (g : Graph) :
  has_node (clear_repository_data repo g) Repository repo = false.
Proof. unfold clear_repository_data. apply repository_deleted. Qed.

(** X13.  After [clear_repository_data] no [Repository] node bears the
    repository's name, whatever the store held, and clearing a second
    time changes nothing. *)
Theorem clearing_twice_is_clearing_once (repo : string) (g : Graph) :
  clear_repository_data repo (clear_repository_data repo g)
  = clear_repository_data repo g
  /\ has_node (clear_repository_data repo g) Repository repo = false.
Proof.
  split; [|apply clear_removes_repository].
  apply clear_absent, clear_removes_repository.
Qed.

End GraphClearingMore.

(* ================================================================== *)
(** ** The keys of the nodes the builder writes *)
(* ================================================================== *)

Section GraphKeysFacts.
Import GraphBuilder GraphInvariants GraphKeys.
Context `{Process}.

Lemma keys_of_same_nodes (g g' : Graph) :
  nodes g' = nodes g -> forall l, keys_of l g' = keys_of l g.
Proof. intros E l. unfold keys_of, labelled. now rewrite E. Qed.

Lemma distinct_keys_same_nodes (g g' : Graph) :
  nodes g' = nodes g -> distinct_keys g -> distinct_keys g'.
Proof.
  intros E Hd l Hl. rewrite (keys_of_same_nodes g g' E). now apply Hd.
Qed.

Lemma keys_of_add_node (g : Graph) (l l' : Label) (k : string) :
  keys_of l' (add_node g l k) =
  (keys_of l' g ++ (if Label_eqb l l' then [k] else []))%list.
Proof.
  unfold keys_of, labelled, add_node. simpl.
  rewrite filter_app, map_app. simpl. now destruct (Label_eqb l l').
Qed.

Lemma has_node_keys (g : Graph) (l : Label) (k : string) :
  has_node g l k = true <-> In k (keys_of l g).
Proof.
  rewrite has_node_In. unfold keys_of, labelled. rewrite in_map_iff. split.
  - intros (a & Ha). apply match_nodes_In in Ha. destruct Ha as (Hin & Hl & Hk).
    exists a. split; auto. apply filter_In. split; auto.
    now apply Label_eqb_eq.
  - intros (a & Hk & Ha). apply filter_In in Ha. destruct Ha as [Hin Hl].
    apply Label_eqb_eq in Hl. exists a. apply match_nodes_In. auto.
Qed.

Lemma add_node_distinct (g : Graph) (l : Label) (k : string) :
  l = Repository \/ has_node g l k = false ->
  distinct_keys g -> distinct_keys (add_node g l k).
Proof.
  intros Hnew Hd l' Hl'. rewrite keys_of_add_node.
  destruct (Label_eqb l l') eqn:E.
  - apply Label_eqb_eq in E. subst l'.
    destruct Hnew as [->|Hno]; [contradiction|].
    apply NoDup_app; [now apply Hd | repeat constructor; auto |].
    intros x Hx [<-|[]]. apply has_node_keys in Hx. congruence.
  - rewrite app_nil_r. now apply Hd.
Qed.

Lemma merge_node_distinct (g : Graph) (l : Label) (k : string) :
  distinct_keys g -> distinct_keys (merge_node g l k).
Proof.
  intros Hd. unfold merge_node. destruct (has_node g l k) eqn:E; auto.
  apply add_node_distinct; auto.
Qed.

Lemma merge_edges_distinct g la ka r lb kb :
  distinct_keys g -> distinct_keys (merge_edges g la ka r lb kb).
Proof. now apply distinct_keys_same_nodes. Qed.

Lemma create_edges_distinct g la ka r lb kb :
  distinct_keys g -> distinct_keys (create_edges g la ka r lb kb).
Proof. now apply distinct_keys_same_nodes. Qed.

Lemma fold_distinct {A : Type} (f : Graph -> A -> Graph) :
  (forall g a, distinct_keys g -> distinct_keys (f g a)) ->
  forall l g, distinct_keys g -> distinct_keys (fold_left f l g).
Proof.
  intros Hf l. induction l as [|a l IH]; simpl; intros g Hg; auto.
Qed.

Lemma add_class_distinct md g cls :
  distinct_keys g -> distinct_keys (add_class md g cls).
Proof.
  intros Hd. unfold add_class.
  apply fold_distinct.
  { intros g0 a Hg0. unfold add_attribute.
    now apply merge_edges_distinct, merge_node_distinct. }
  apply fold_distinct.
  { intros g0 a Hg0. unfold add_method.
    now apply merge_edges_distinct, merge_node_distinct. }
  now apply merge_edges_distinct, merge_node_distinct.
Qed.

Lemma add_module_distinct repo g md :
  distinct_keys g -> distinct_keys (add_module repo g md).
Proof.
  intros Hd. unfold add_module, create_node. simpl.
  destruct (has_node g File (file_path md)) eqn:E; auto.
  apply fold_distinct.
  { intros g0 a Hg0. unfold add_hook.
    now apply merge_edges_distinct, merge_node_distinct. }
  apply fold_distinct.
  { intros g0 a Hg0. unfold add_component.
    now apply merge_edges_distinct, merge_node_distinct. }
  apply fold_distinct.
  { intros g0 a Hg0. unfold add_function.
    now apply merge_edges_distinct, merge_node_distinct. }
  apply fold_distinct; [intros; now apply add_class_distinct|].
  apply create_edges_distinct, add_node_distinct; auto.
Qed.

(** X14.  [_create_graph] always completes, and in a store where no two
    nodes of a label other than [Repository] bear the same key it leaves
    that so: files, classes, methods, attributes, functions, components
    and hooks are never duplicated. *)
Theorem create_graph_keeps_keys_distinct (repo : string)
    (mds : list ModuleData) (g : Graph) :
  distinct_keys g ->
  exists g', _create_graph repo mds g = Some g' /\ distinct_keys g'.
Proof.
  intros Hd. unfold _create_graph, create_node. simpl.
  eexists. split; [reflexivity|].
  apply fold_distinct; [intros; now apply add_module_distinct|].
  apply add_node_distinct; auto.
Qed.

End GraphKeysFacts.

(* ================================================================== *)
(** ** The further theorems at concrete inputs *)
(* ================================================================== *)

(** A call of [f] without any parameter. *)
Lemma too_few_comes_with_missing_required_witness :
  NoDup (map Rpc.name Samples.range_expected)
  /\ Py.dict_len (@nil (string * Py.value))
     < Rpc.required_count Samples.range_expected
  /\ In (Rpc.too_few_error Samples.range_expected (@nil (string * Py.value)) 3%Z)
        (@Rpc.validate_rpc_call Scenarios.plain_builtins
           (Rpc.new_validator Scenarios.range_schema) "f" [] 3%Z).
Proof.
  assert (Hnd : NoDup (map Rpc.name Samples.range_expected)).
  { repeat constructor; simpl; intuition discriminate. }
  assert (Hlt : Py.dict_len (@nil (string * Py.value))
                < Rpc.required_count Samples.range_expected).
  { apply Nat.ltb_lt. reflexivity. }
  split; [exact Hnd | split; [exact Hlt|]].
  exact (proj1 (@too_few_comes_with_missing_required Scenarios.plain_builtins
                  (Rpc.new_validator Scenarios.range_schema) "f"
                  Samples.range_expected [] 3%Z eq_refl Hnd Hlt)).
Defined.

(** A call of [f] with both of its parameters. *)
Lemma complete_call_has_value_issues_only_witness :
  NoDup (map Rpc.name Samples.range_expected)
  /\ @Rpc.validate_rpc_call Scenarios.plain_builtins
       (Rpc.new_validator Scenarios.range_schema) "f"
       [("user_id", Py.VStr Scenarios.sample_uuid); ("range", Py.VStr "7d")]
       3%Z
     = (@Rpc._validate_parameter_types Scenarios.plain_builtins
          Samples.range_expected
          [("user_id", Py.VStr Scenarios.sample_uuid); ("range", Py.VStr "7d")]
          3%Z
        ++ @Rpc._validate_enum_values Scenarios.plain_builtins
             Samples.range_expected
             [("user_id", Py.VStr Scenarios.sample_uuid);
              ("range", Py.VStr "7d")] 3%Z
        ++ @Rpc._validate_json_structures Scenarios.plain_builtins
             Samples.range_expected
             [("user_id", Py.VStr Scenarios.sample_uuid);
              ("range", Py.VStr "7d")] 3%Z)%list.
Proof.
  assert (Hnd : NoDup (map Rpc.name Samples.range_expected)).
  { repeat constructor; simpl; intuition discriminate. }
  split; [exact Hnd|].
  apply (@complete_call_has_value_issues_only Scenarios.plain_builtins
           (Rpc.new_validator Scenarios.range_schema) "f"
           Samples.range_expected
           [("user_id", Py.VStr Scenarios.sample_uuid); ("range", Py.VStr "7d")]
           3%Z eq_refl Hnd).
  - repeat constructor; simpl; intuition discriminate.
  - intros k [<-|[<-|[]]]; simpl; auto.
  - intros p [<-|[<-|[]]] _; reflexivity.
Defined.

(** The JSON text ["{}"] given as a string for a [json] parameter. *)
Lemma json_parameter_accepts_only_a_dict_witness :
  Py.dict_mem (@nil (string * list string)) "json" = false
  /\ (@Rpc.json_errors Scenarios.plain_builtins "config" (Py.VStr "{}")
        (Rpc.expected_parameter [] 0 (Scenarios.in_param "config" "json" 1))
        8%Z = []
      <-> exists d, Py.VStr "{}" = Py.VDict d).
Proof.
  split; [reflexivity|].
  exact (proj1 (@json_parameter_accepts_only_a_dict Scenarios.plain_builtins
                  [] 0 (Scenarios.in_param "config" "json" 1) "json" "config"
                  (Py.VStr "{}") 8%Z eq_refl (or_introl eq_refl) eq_refl)).
Defined.

(** The catalog with two functions named [f]. *)
Lemma overloaded_function_last_wins_witness :
  ~ In "f" (map Catalog.function_name (@nil Catalog.FunctionInfo))
  /\ Py.dict_get (Rpc.function_cache (Rpc.new_validator Samples.overloaded_schema))
       "f"
     = Some (Rpc.expected_parameters
               (Rpc._build_enum_cache Samples.overloaded_schema)
               Samples.second_f).
Proof.
  assert (Hlast : ~ In "f" (map Catalog.function_name
                              (@nil Catalog.FunctionInfo)))
    by (simpl; tauto).
  split; [exact Hlast|].
  exact (overloaded_function_last_wins Samples.overloaded_schema
           [Samples.first_f] [] Samples.second_f eq_refl Hlast).
Defined.

(** The UUID of the specification. *)
Lemma uuid_accepts_a_trailing_line_feed_witness :
  Rpc._is_valid_uuid (Py.VStr Scenarios.sample_uuid) = true
  /\ ((String.length Scenarios.sample_uuid = 36
       /\ Rpc._is_valid_uuid
            (Py.VStr (Scenarios.sample_uuid ++ PatternShapes.line_feed)) = true)
      \/ (exists u, Scenarios.sample_uuid = u ++ PatternShapes.line_feed
                    /\ String.length u = 36
                    /\ Rpc._is_valid_uuid (Py.VStr u) = true)).
Proof.
  split; [reflexivity|].
  exact (uuid_accepts_a_trailing_line_feed Scenarios.sample_uuid eq_refl).
Defined.

(** A valid UUID given for a [uuid] parameter. *)
Lemma inferred_type_passes_its_check_witness :
  Rpc.type (Rpc.expected_parameter [] 0 (Scenarios.in_param "user_id" "uuid" 1))
  = Rpc._infer_type (Py.VStr Scenarios.sample_uuid)
  /\ @Rpc.type_errors Scenarios.plain_builtins "user_id"
       (Py.VStr Scenarios.sample_uuid)
       (Rpc.expected_parameter [] 0 (Scenarios.in_param "user_id" "uuid" 1))
       5%Z = [].
Proof.
  split; [reflexivity|].
  exact (@inferred_type_passes_its_check Scenarios.plain_builtins "user_id"
           (Py.VStr Scenarios.sample_uuid)
           (Rpc.expected_parameter [] 0 (Scenarios.in_param "user_id" "uuid" 1))
           5%Z eq_refl).
Defined.

(** A report with a CRITICAL and a LOW detection. *)
Lemma confidence_between_half_and_one_witness :
  Forall (fun d => (0 <= Confidence.confidence d <= 1)%Q)
         [Confidence.detection Confidence.CRITICAL 1;
          Confidence.detection Confidence.LOW (1 # 2)]
  /\ (1 # 2 <= Confidence._calculate_overall_confidence
                 (Confidence.report_of
                    [Confidence.detection Confidence.CRITICAL 1;
                     Confidence.detection Confidence.LOW (1 # 2)]))%Q.
Proof.
  assert (Hc : Forall (fun d => (0 <= Confidence.confidence d <= 1)%Q)
                 [Confidence.detection Confidence.CRITICAL 1;
                  Confidence.detection Confidence.LOW (1 # 2)]).
  { repeat constructor; unfold Qle; simpl; lia. }
  split; [exact Hc|].
  exact (proj1 (confidence_between_half_and_one
                  (Confidence.report_of
                     [Confidence.detection Confidence.CRITICAL 1;
                      Confidence.detection Confidence.LOW (1 # 2)]) Hc)).
Defined.

(** Clearing [shop-web] in a store that holds the graph of [shop-admin]. *)
Lemma clearing_an_absent_repository_changes_nothing_witness :
  GraphBuilder.has_node Samples.admin_store GraphBuilder.Repository "shop-web"
  = false
  /\ GraphBuilder.clear_repository_data "shop-web" Samples.admin_store
     = Samples.admin_store.
Proof.
  split; [reflexivity|].
  exact (clearing_an_absent_repository_changes_nothing "shop-web"
           Samples.admin_store eq_refl).
Defined.

(** Ingesting [shop-web] into the store that holds [shop-admin]. *)
Lemma create_graph_keeps_keys_distinct_witness :
  GraphKeys.distinct_keys Samples.admin_store
  /\ exists g',
       @GraphBuilder._create_graph Scenarios.process_a "shop-web"
         [Scenarios.app_module] Samples.admin_store = Some g'
       /\ GraphKeys.distinct_keys g'.
Proof.
  assert (Hd : GraphKeys.distinct_keys Samples.admin_store).
  { intros l Hl. destruct l; try contradiction;
      vm_compute; repeat constructor; simpl; intuition discriminate. }
  split; [exact Hd|].
  exact (@create_graph_keeps_keys_distinct Scenarios.process_a "shop-web"
           [Scenarios.app_module] Samples.admin_store Hd).
Defined.

(* ================================================================== *)
(** ** Statistics and recommendations of a report *)
(* ================================================================== *)

Section ReportFacts.
Import Py PyText Confidence Reporting.

(** Every detection has one of the five severities. *)
Lemma severity_counts_add_up (ds : list Detection) :
  Z.of_nat (length ds) =
  (count_severity CRITICAL ds + count_severity HIGH ds
   + count_severity MEDIUM ds + count_severity LOW ds
   + count_severity INFO ds)%Z.
Proof.
  unfold count_severity. induction ds as [|d ds IH]; [reflexivity|].
  cbn [length filter]. destruct (severity d); cbn [Severity_eqb length]; lia.
Qed.

(** X15.  The statistics [_calculate_statistics] returns count the
    detections of the severities CRITICAL, HIGH, MEDIUM and LOW under four
    keys and have no key for INFO: [total_detections] is the sum of the
    four counts plus the number of INFO detections. *)
Theorem statistics_leave_info_out (report : ValidationReport)
    (stats : dict Z) :
  _calculate_statistics report = Returns stats ->
  exists critical high medium low,
    dict_get stats "critical_issues" = Some critical
    /\ dict_get stats "high_issues" = Some high
    /\ dict_get stats "medium_issues" = Some medium
    /\ dict_get stats "low_issues" = Some low
    /\ dict_get stats "total_detections"
       = Some (critical + high + medium + low
               + count_severity INFO (detections report))%Z
    /\ dict_get stats "info_issues" = None.
Proof.
  intros Hstats.
  exists (count_severity CRITICAL (detections report)),
         (count_severity HIGH (detections report)),
         (count_severity MEDIUM (detections report)),
         (count_severity LOW (detections report)).
  rewrite <- severity_counts_add_up.
  assert (Hbasic : forall k,
            k <> "supabase_tables" -> k <> "supabase_functions" ->
            dict_get stats k = dict_get (basic_statistics report) k).
  { intros k Hk1 Hk2. unfold _calculate_statistics in Hstats.
    destruct (supabase_info report) as [[|item items]|].
    - now injection Hstats as <-.
    - destruct (len _) as [tables|e]; [|discriminate].
      destruct (len _) as [functions|e]; [|discriminate].
      assert (E : stats
                  = dict_set (dict_set (basic_statistics report)
                                "supabase_tables" tables)
                             "supabase_functions" functions)
        by congruence.
      rewrite E, !dict_get_set_other by congruence. reflexivity.
    - now injection Hstats as <-. }
  repeat split; (rewrite Hbasic by discriminate; reflexivity).
Qed.

Lemma str_in_app (x : string) (l1 l2 : list string) :
  str_in x (l1 ++ l2) = str_in x l1 || str_in x l2.
Proof. apply existsb_app. Qed.

Lemma found_not_no_major counts t what advice :
  str_in no_major_issues (found counts t what advice) = false.
Proof. unfold found. destruct (count_of t counts); reflexivity. Qed.

(** X16.  The list [_generate_recommendations] returns ends with the advice
    about the language (strict mode for a TypeScript file, migration
    otherwise), so it is never empty and never holds the text kept for a
    report without recommendations. *)
Theorem recommendations_end_with_language_advice (report : ValidationReport) :
  (exists before advice,
      _generate_recommendations report = (before ++ [advice])%list
      /\ advice
         = if String.eqb (language report) "typescript"
           then "Enable TypeScript strict mode for better type checking."
           else "Consider migrating to TypeScript for better static analysis.")
  /\ str_in no_major_issues (_generate_recommendations report) = false.
Proof.
  unfold _generate_recommendations.
  set (counts := type_counts (detections report)).
  set (advice := if String.eqb (language report) "typescript"
                 then "Enable TypeScript strict mode for better type checking."
                 else "Consider migrating to TypeScript for better static analysis.").
  match goal with
  | |- context [match ?l with [] => _ | _ :: _ => ?l end] =>
      assert (Hl : exists before, l = (before ++ [advice])%list)
  end.
  { rewrite !app_assoc. eexists. reflexivity. }
  destruct Hl as (before & Hl).
  match goal with
  | |- context [match ?l with [] => _ | _ :: _ => ?l end] =>
      assert (Hsame : match l with [] => [no_major_issues] | _ :: _ => l end = l)
        by (rewrite Hl; destruct before; reflexivity);
      assert (Hno : str_in no_major_issues l = false)
  end.
  { rewrite !str_in_app, !found_not_no_major.
    destruct (str_in "react" (frameworks_detected report));
      subst advice; destruct (String.eqb (language report) "typescript");
      reflexivity. }
  rewrite Hsame. split; [|exact Hno].
  exists before, advice. split; [exact Hl | reflexivity].
Qed.

End ReportFacts.

Section ValidateScriptFacts.
Import Py PyText Confidence Reporting.
Context `{TsAnalyzer.Services} `{Pipeline}.

(** X21.  For a file whose source the parser rejects, [validate_script]
    returns the report with the one detection [Could not parse
    TypeScript/JavaScript file]: [overall_confidence] is still the 0 the
    report was created with (the formula would give 1/2), and there are no
    recommendations and no statistics. *)
Theorem unparsed_file_report (script_path content : string) :
  String.eqb (strip content) "" = false ->
  TsAnalyzer._parse_with_esprima content = None ->
  let report := validate_script script_path (TsAnalyzer.Utf8 content) in
  detections report
  = [failure "Could not parse TypeScript/JavaScript file" script_path]
  /\ overall_confidence report = 0%Q
  /\ (_calculate_overall_confidence report == 1 # 2)%Q
  /\ recommendations report = []
  /\ statistics report = [].
Proof.
  intros Hblank Hnone report. subst report. unfold validate_script.
  rewrite (proj1 (producer_failure_gives_none _ _ Hblank Hnone)).
  repeat split.
Qed.

End ValidateScriptFacts.

(* ================================================================== *)
(** ** From the issues of an RPC call to detections *)
(* ================================================================== *)

Section RpcDetectionFacts.
Import Py PyText Confidence Reporting.
Context `{Builtins}.

(** Every issue is built by [error], with the line of the call. *)
Lemma issues_carry_the_line (v : Rpc.RPCParameterValidator) (fname : string)
    (provided : dict value) (line : Z) :
  Forall (fun e => Rpc.severity e = "HIGH" /\ Rpc.line_number e = line)
         (Rpc.validate_rpc_call v fname provided line).
Proof.
  unfold Rpc.validate_rpc_call.
  destruct (dict_get (Rpc.function_cache v) fname) as [expected|];
    [|repeat constructor].
  apply Forall_app; split; [|apply Forall_app; split;
                             [|apply Forall_app; split;
                               [|apply Forall_app; split]]].
  - rewrite count_check_cases.
    destruct (dict_len provided <? Rpc.required_count expected)%nat;
      [|destruct (length expected <? dict_len provided)%nat];
      repeat constructor.
  - apply Forall_forall. intros e He.
    unfold Rpc._validate_required_parameters in He.
    apply in_flat_map in He. destruct He as (p & _ & He).
    destruct (Rpc.is_required p && negb (dict_mem provided (Rpc.name p)));
      [|contradiction].
    destruct He as [<-|[]]. split; reflexivity.
  - apply for_declared_Forall. intros n x p _ _. unfold Rpc.type_errors.
    destruct (Rpc.type p); try constructor;
      match goal with
      | |- Forall _ (if ?c then _ else _) => destruct c
      end; repeat constructor.
  - apply for_declared_Forall. intros n x p _ _. unfold Rpc.enum_errors.
    destruct (Rpc.type p); try constructor.
    destruct (Rpc.enum_values p) as [[|y ys]|]; try constructor.
    destruct (str_in (str x) (y :: ys)); repeat constructor.
  - apply for_declared_Forall. intros n x p _ _. unfold Rpc.json_errors.
    destruct (Rpc.type p); try constructor;
      (destruct (negb (Rpc._is_valid_json_object x));
       [ repeat constructor
       | destruct (Rpc.json_schema p); [|constructor];
         apply Forall_forall; intros e He; apply in_map_iff in He;
         destruct He as (y & <- & _); split; reflexivity ]).
Qed.

(** The types [rpc_type_mapping] gives: the five of the parameter check,
    and [BAD_PRACTICE]. *)
Lemma converted_shape (imported : kinds_import) (fname : string) (line : Z)
    (errors : list Rpc.ParameterValidationError) :
  Forall (fun e => Rpc.severity e = "HIGH" /\ Rpc.line_number e = line)
         errors ->
  Forall (fun d =>
            severity d = HIGH /\ confidence d = (9 # 10)%Q
            /\ line_number d = line
            /\ location d = "line " ++ str_of_Z line
            /\ match imported with
               | SameClass =>
                   exists e, In e errors
                             /\ detection_type d
                                = rpc_type_mapping (Rpc.validation_type e)
               | _ => detection_type d = INCORRECT_SIGNATURE
               end)
         (converted imported fname errors).
Proof.
  induction 1 as [|e errors [Hs Hl] _ IH]; cbn [converted]; [constructor|].
  assert (Hhead : forall t,
            severity (rpc_detection fname t e) = HIGH
            /\ confidence (rpc_detection fname t e) = (9 # 10)%Q
            /\ line_number (rpc_detection fname t e) = line
            /\ location (rpc_detection fname t e) = "line " ++ str_of_Z line).
  { intros t. unfold rpc_detection.
    cbn [severity confidence line_number location].
    rewrite Hs, Hl. repeat split; reflexivity. }
  destruct imported; cbn [_map_rpc_validation_type] in *; constructor.
  - destruct (Hhead (rpc_type_mapping (Rpc.validation_type e)))
      as (H1 & H2 & H3 & H4).
    repeat split; auto. exists e. split; [now left | reflexivity].
  - eapply Forall_impl; [|exact IH].
    intros d (H1 & H2 & H3 & H4 & x & Hx & Hd).
    repeat split; auto. exists x. split; [now right | exact Hd].
  - destruct (Hhead INCORRECT_SIGNATURE) as (H1 & H2 & H3 & H4).
    repeat split; auto.
  - exact IH.
Qed.

(** The detections built from the issues of a call. *)
Lemma rpc_detections_kinds (imported : kinds_import)
    (validator : Rpc.RPCParameterValidator) (fname : string) (line : Z)
    (provided : option (dict value)) :
  Forall (fun d =>
            severity d = HIGH /\ confidence d = (9 # 10)%Q
            /\ line_number d = line
            /\ location d = "line " ++ str_of_Z line
            /\ match imported with
               | SameClass =>
                   In (detection_type d)
                      [ RPC_PARAMETER_TYPE_MISMATCH; RPC_MISSING_REQUIRED_PARAM;
                        RPC_INVALID_ENUM_VALUE; RPC_INVALID_JSON_STRUCTURE;
                        RPC_PARAMETER_COUNT_MISMATCH ]
               | _ => detection_type d = INCORRECT_SIGNATURE
               end)
         (rpc_detections imported validator fname line provided).
Proof.
  unfold rpc_detections. destruct provided as [[|item items]|];
    try constructor.
  set (given := item :: items).
  pose proof (converted_shape imported fname line _
                (issues_carry_the_line validator fname given line)) as Hc.
  eapply Forall_impl; [|exact Hc].
  intros d (Hs & Hq & Hl & Hloc & Hty). repeat split; auto.
  destruct imported; auto.
  destruct Hty as (e & He & ->).
  assert (Hk : Rpc.validation_type e <> Rpc.OPTIONAL_NOT_PROVIDED).
  { intros Hopt.
    assert (Hin : In e (Rpc.of_kind Rpc.OPTIONAL_NOT_PROVIDED
                          (Rpc.validate_rpc_call validator fname given line))).
    { unfold Rpc.of_kind. apply filter_In. split; auto. now rewrite Hopt. }
    unfold Rpc.validate_rpc_call in Hin.
    destruct (dict_get (Rpc.function_cache validator) fname) as [expected|].
    - rewrite count_check_cases, (of_kind_app Rpc.OPTIONAL_NOT_PROVIDED) in Hin.
      rewrite later_checks_kinds in Hin by auto.
      rewrite app_nil_r in Hin.
      destruct (dict_len given <? Rpc.required_count expected)%nat;
        [|destruct (length expected <? dict_len given)%nat];
        simpl in Hin; contradiction.
    - simpl in Hin. contradiction. }
  destruct (Rpc.validation_type e); simpl; auto 10; contradiction.
Qed.

(** When the import of the kinds fails, the first issue ends the loop. *)
Lemma rpc_detections_no_module (validator : Rpc.RPCParameterValidator)
    (fname : string) (line : Z) (provided : option (dict value)) :
  rpc_detections NoModule validator fname line provided = [].
Proof.
  unfold rpc_detections.
  destruct provided as [[|item items]|]; auto.
  destruct (Rpc.validate_rpc_call validator fname (item :: items) line);
    reflexivity.
Qed.

(** X17.  Every detection [_validate_rpc_parameters] appends has severity
    HIGH, confidence 0.9, the line of the call and the location
    [line <number>].  Its type is one of the five RPC types when the kinds
    of the issues are those of the imported class, and INCORRECT_SIGNATURE
    when the import gives another class of kinds; when the import fails,
    nothing is appended. *)
Theorem rpc_detections_shape (imported : kinds_import)
    (validator : Rpc.RPCParameterValidator) (fname : string) (line : Z)
    (provided : option (dict value)) (report : ValidationReport) :
  exists added,
    detections (_validate_rpc_parameters imported validator fname line
                  provided report)
    = (detections report ++ added)%list
    /\ Forall (fun d =>
                 severity d = HIGH /\ confidence d = (9 # 10)%Q
                 /\ line_number d = line
                 /\ location d = "line " ++ str_of_Z line
                 /\ match imported with
                    | SameClass =>
                        In (detection_type d)
                           [ RPC_PARAMETER_TYPE_MISMATCH;
                             RPC_MISSING_REQUIRED_PARAM;
                             RPC_INVALID_ENUM_VALUE;
                             RPC_INVALID_JSON_STRUCTURE;
                             RPC_PARAMETER_COUNT_MISMATCH ]
                    | OtherClass => detection_type d = INCORRECT_SIGNATURE
                    | NoModule => False
                    end)
              added.
Proof.
  exists (rpc_detections imported validator fname line provided).
  split; [reflexivity|].
  destruct imported.
  - exact (rpc_detections_kinds SameClass validator fname line provided).
  - exact (rpc_detections_kinds OtherClass validator fname line provided).
  - rewrite rpc_detections_no_module. constructor.
Qed.

End RpcDetectionFacts.

Section RpcConfidence.
Import Py PyText Confidence Reporting.
Local Open Scope Q_scope.

Lemma weighted_sum_uniform (ds : list Detection) :
  Forall (fun d => severity d = HIGH /\ confidence d = 9 # 10) ds ->
  weighted_sum ds == (18 # 25) * inject_Z (Z.of_nat (length ds)).
Proof.
  induction 1 as [|d ds [Hs Hc] _ IH].
  - simpl. reflexivity.
  - change (weighted_sum (d :: ds))
      with (weights (severity d) * confidence d + weighted_sum ds).
    change (length (d :: ds)) with (S (length ds)).
    rewrite Nat2Z.inj_succ. unfold Z.succ. rewrite inject_Z_plus.
    rewrite IH, Hs, Hc.
    setoid_replace (inject_Z 1) with 1 by reflexivity.
    setoid_replace (weights HIGH * (9 # 10)) with (18 # 25) by reflexivity.
    ring.
Qed.

Lemma uniform_confidence (ds : list Detection) (d0 : Detection)
    (ds0 : list Detection) :
  ds = d0 :: ds0 ->
  Forall (fun d => severity d = HIGH /\ confidence d = 9 # 10) ds ->
  specified_confidence ds == 16 # 25.
Proof.
  intros E Hds. pose proof (weighted_sum_uniform ds Hds) as Hsum.
  subst ds. unfold specified_confidence.
  pose proof (count_positive _ d0 ds0) as Hn.
  set (n := inject_Z (Z.of_nat (length (d0 :: ds0)))) in *.
  rewrite Hsum.
  setoid_replace ((18 # 25) * n / (2 * n)) with (9 # 25) by (field; lra).
  setoid_replace (1 - (9 # 25)) with (16 # 25) by reflexivity.
  first [reflexivity | apply Q.max_r; unfold Qle; simpl; lia].
Qed.

(** X18.  After [_validate_rpc_parameters] on a report that had no
    detection, the overall confidence is 1 when nothing was appended, and
    otherwise lies between 0.625 and 0.65625, whatever the issues of the
    call and however many: every detection appended has the severity HIGH
    and the confidence 0.9, which makes 0.64 before rounding. *)
Theorem rpc_only_report_confidence `{Builtins} (imported : kinds_import)
    (validator : Rpc.RPCParameterValidator) (fname : string) (line : Z)
    (provided : option (dict value)) (report : ValidationReport) :
  detections report = [] ->
  let report' :=
    _validate_rpc_parameters imported validator fname line provided report in
  match detections report' with
  | [] => _calculate_overall_confidence report' = 1
  | _ :: _ =>
      5 # 8 <= _calculate_overall_confidence report'
      /\ _calculate_overall_confidence report' <= 21 # 32
  end.
Proof.
  intros Hempty report'.
  assert (Hd : detections report'
               = rpc_detections imported validator fname line provided).
  { subst report'. unfold _validate_rpc_parameters, add_detections.
    cbn [detections]. rewrite Hempty. reflexivity. }
  destruct (detections report') as [|d ds] eqn:E.
  - unfold _calculate_overall_confidence. now rewrite E.
  - assert (Hv : _calculate_overall_confidence report' == 16 # 25).
    { rewrite confidence_as_specified, E.
      apply (uniform_confidence _ d ds eq_refl).
      rewrite Hd.
      eapply Forall_impl;
        [|exact (rpc_detections_kinds imported validator fname line provided)].
      intros x (Hs & Hc & _). auto. }
    rewrite Hv. split; unfold Qle; simpl; lia.
Qed.

End RpcConfidence.

(* ================================================================== *)
(** ** Line numbers read from locations *)
(* ================================================================== *)

Section WrittenNumbers.
Import Py PyText.

Lemma chars_app (a b : string) : chars (a ++ b) = (chars a ++ chars b)%list.
Proof. unfold chars. induction a; simpl; congruence. Qed.

Lemma text_chars (s : string) : text (chars s) = s.
Proof. apply string_of_list_ascii_of_string. Qed.

Lemma chars_text (l : list ascii) : chars (text l) = l.
Proof. apply list_ascii_of_string_of_list_ascii. Qed.

(** The characters of a written numeral are digits. *)
Lemma uint_chars_digits (d : Decimal.uint) :
  Forall (fun c => is_digit c = true) (chars (NilEmpty.string_of_uint d)).
Proof. induction d; simpl; constructor; auto. Qed.

Lemma uint_chars_length (d : Decimal.uint) :
  length (chars (NilEmpty.string_of_uint d)) = Decimal.nb_digits d.
Proof. induction d; simpl; congruence. Qed.

Lemma digits_value_digit (c : ascii) (k : Z) need v n l :
  is_digit c = true -> Z.of_nat (code c - 48) = k ->
  digits_value need v n (c :: l) = digits_value false (v * 10 + k)%Z (S n) l.
Proof. intros Hc Hk. cbn [digits_value]. rewrite Hc, Hk. reflexivity. Qed.

Lemma uint_digits_value (d : Decimal.uint) (need : bool) (v : Z) (n : nat) :
  d <> Decimal.Nil \/ need = false ->
  digits_value need v n (chars (NilEmpty.string_of_uint d))
  = Some (uint_value d v, n + Decimal.nb_digits d).
Proof.
  revert need v n.
  induction d; intros need v n Hd;
    try (change (chars (NilEmpty.string_of_uint ?x)) with
           (list_ascii_of_string (NilEmpty.string_of_uint x));
         cbn [NilEmpty.string_of_uint list_ascii_of_string uint_value
              Decimal.nb_digits];
         erewrite digits_value_digit by reflexivity;
         fold (chars (NilEmpty.string_of_uint d));
         rewrite IHd by (right; reflexivity);
         f_equal; f_equal; lia).
  destruct Hd as [Hd | ->]; [contradiction|].
  simpl. f_equal. f_equal. lia.
Qed.

Lemma of_uint_acc_value (d : Decimal.uint) (acc : positive) :
  Z.pos (Pos.of_uint_acc d acc) = uint_value d (Z.pos acc).
Proof.
  revert acc. induction d; intro acc;
    cbn [Pos.of_uint_acc uint_value]; try reflexivity;
    rewrite IHd; f_equal; lia.
Qed.

Lemma of_uint_value (d : Decimal.uint) :
  Z.of_N (Pos.of_uint d) = uint_value d 0.
Proof.
  induction d; cbn [Pos.of_uint uint_value]; try reflexivity;
    try exact IHd;
    cbn [Z.of_N]; rewrite of_uint_acc_value; reflexivity.
Qed.

Lemma written_chars (c : ascii) :
  digit_or_minus c = true ->
  is_space c = false /\ is_int_space c = false
  /\ Ascii.eqb "l"%char c = false /\ Ascii.eqb ":"%char c = false
  /\ Ascii.eqb "L"%char c = false.
Proof.
  destruct c as [[] [] [] [] [] [] [] []]; intro H;
    try discriminate H; repeat split; reflexivity.
Qed.

Lemma written_lstrip (l : list ascii) : written l -> lstrip l = l.
Proof.
  intros [|c l' Hc _]; [reflexivity|].
  cbn [lstrip]. rewrite (proj1 (written_chars c Hc)). reflexivity.
Qed.

Lemma written_drop_int_space (l : list ascii) :
  written l -> drop_int_space l = l.
Proof.
  intros [|c l' Hc _]; [reflexivity|].
  cbn [drop_int_space].
  rewrite (proj1 (proj2 (written_chars c Hc))). reflexivity.
Qed.

Lemma written_rev (l : list ascii) : written l -> written (rev l).
Proof. apply Forall_rev. Qed.

Lemma written_strip (l : list ascii) :
  written l -> strip (text (" "%char :: l)) = text l.
Proof.
  intro H. unfold strip. fold (chars (text (" "%char :: l))).
  rewrite chars_text.
  change (lstrip (" "%char :: l)) with (lstrip l).
  rewrite (written_lstrip l H), (written_lstrip _ (written_rev l H)),
    rev_involutive.
  reflexivity.
Qed.

Lemma written_words_from (l word : list ascii) :
  written l -> word <> [] \/ l <> [] ->
  words_from word l = [text (rev word ++ l)].
Proof.
  intro H. revert word.
  induction H as [|c l Hc H IH]; intros word Hne.
  - destruct Hne as [Hne|Hne]; [|contradiction].
    destruct word; [contradiction|].
    cbn [words_from]. rewrite List.app_nil_r. reflexivity.
  - cbn [words_from]. rewrite (proj1 (written_chars c Hc)).
    rewrite IH by (left; discriminate).
    cbn [rev]. rewrite <- List.app_assoc. reflexivity.
Qed.

Lemma written_no_line (l : list ascii) :
  written l -> occurs (chars "line") l = false.
Proof.
  induction 1 as [|c l Hc H IH]; [reflexivity|].
  cbn [occurs]. rewrite IH.
  change (starts (chars "line") (c :: l))
    with (Ascii.eqb "l"%char c && starts (chars "ine") l).
  rewrite (proj1 (proj2 (proj2 (written_chars c Hc)))). reflexivity.
Qed.

Lemma written_no_colon (l : list ascii) :
  written l -> occurs (chars ":") l = false.
Proof.
  induction 1 as [|c l Hc H IH]; [reflexivity|].
  cbn [occurs]. rewrite IH.
  change (starts (chars ":") (c :: l))
    with (Ascii.eqb ":"%char c && starts [] l).
  rewrite (proj1 (proj2 (proj2 (proj2 (written_chars c Hc))))). reflexivity.
Qed.

Lemma written_split_from (l part : list ascii) :
  written l ->
  split_from (chars "line") 0 part l = [text (rev part ++ l)].
Proof.
  intro H. revert part.
  induction H as [|c l Hc H IH]; intro part.
  - cbn [split_from]. rewrite List.app_nil_r. reflexivity.
  - cbn [split_from].
    change (starts (chars "line") (c :: l))
      with (Ascii.eqb "l"%char c && starts (chars "ine") l).
    rewrite (proj1 (proj2 (proj2 (written_chars c Hc)))).
    cbn [andb]. rewrite IH. cbn [rev]. rewrite <- List.app_assoc. reflexivity.
Qed.

(** A location [line <number>] gives what [int] reads from the number. *)
Lemma extract_after_line (l : list ascii) :
  written l -> l <> [] ->
  Reporting._extract_line_number (text (chars "line " ++ l))
  = get_or (int_of_str (text l)) 1%Z.
Proof.
  intros H Hne. unfold Reporting._extract_line_number, contains, split.
  rewrite chars_text.
  change (occurs (chars "line") (chars "line " ++ l)) with true.
  cbv iota.
  change (split_from (chars "line") 0 [] (chars "line " ++ l))
    with (text [] :: split_from (chars "line") 0 [" "%char] l).
  rewrite (written_split_from l _ H).
  cbn [nth_error rev app].
  rewrite (written_strip l H).
  unfold words. rewrite chars_text.
  rewrite (written_words_from l [] H) by (right; exact Hne).
  reflexivity.
Qed.

(** A location [Line <number>] has no [line] and no colon in it. *)
Lemma extract_after_capital (l : list ascii) :
  written l ->
  Reporting._extract_line_number (text (chars "Line " ++ l)) = 1%Z.
Proof.
  intro H. unfold Reporting._extract_line_number, contains.
  rewrite chars_text.
  assert (Hl : occurs (chars "line") (chars "Line " ++ l) = false).
  { change (occurs (chars "line") (chars "Line " ++ l))
      with (false || (false || (false || (false
              || (false || occurs (chars "line") l))))).
    rewrite (written_no_line l H). reflexivity. }
  assert (Hc : occurs (chars ":") (chars "Line " ++ l) = false).
  { change (occurs (chars ":") (chars "Line " ++ l))
      with (false || (false || (false || (false
              || (false || occurs (chars ":") l))))).
    rewrite (written_no_colon l H). reflexivity. }
  rewrite Hl, Hc. reflexivity.
Qed.

(** What [str] writes for an integer: a numeral, after a minus sign when
    the integer is negative. *)
Lemma str_of_Z_written (z : Z) :
  exists d : Decimal.uint,
    d <> Decimal.Nil /\ uint_value d 0 = Z.abs z
    /\ chars (str_of_Z z)
       = ((if (z <? 0)%Z then ["-"%char] else [])
          ++ chars (NilEmpty.string_of_uint d))%list.
Proof.
  destruct z as [|p|p].
  - exists (Decimal.D0 Decimal.Nil). repeat split. discriminate.
  - exists (Pos.to_uint p). split; [apply DecimalPos.Unsigned.to_uint_nonnil|].
    split.
    + rewrite <- of_uint_value, DecimalPos.Unsigned.of_to. reflexivity.
    + unfold str_of_Z. cbn [Z.to_int NilZero.string_of_int Z.ltb Z.compare app].
      pose proof (DecimalPos.Unsigned.to_uint_nonnil p) as Hn.
      destruct (Pos.to_uint p); try reflexivity. contradiction.
  - exists (Pos.to_uint p). split; [apply DecimalPos.Unsigned.to_uint_nonnil|].
    split.
    + rewrite <- of_uint_value, DecimalPos.Unsigned.of_to. reflexivity.
    + unfold str_of_Z. cbn [Z.to_int NilZero.string_of_int Z.ltb Z.compare app].
      pose proof (DecimalPos.Unsigned.to_uint_nonnil p) as Hn.
      destruct (Pos.to_uint p); try reflexivity. contradiction.
Qed.

Lemma str_of_Z_chars_written (z : Z) : written (chars (str_of_Z z)).
Proof.
  destruct (str_of_Z_written z) as (d & _ & _ & E). rewrite E.
  apply Forall_app. split.
  - destruct (z <? 0)%Z; repeat constructor.
  - eapply Forall_impl; [|apply uint_chars_digits].
    intros c Hc. unfold digit_or_minus. rewrite Hc. reflexivity.
Qed.

Lemma str_of_Z_not_empty (z : Z) : chars (str_of_Z z) <> [].
Proof.
  destruct (str_of_Z_written z) as (d & Hd & _ & E). rewrite E.
  destruct (z <? 0)%Z; [discriminate|].
  destruct d; try discriminate. contradiction.
Qed.

Lemma chars_length (s : string) : length (chars s) = String.length s.
Proof. unfold chars. induction s; simpl; congruence. Qed.

(** [int] reads back what [str] wrote, within the limit on digits. *)
Lemma int_of_str_of_Z (z : Z) :
  (String.length (str_of_Z z) <= int_max_str_digits)%nat ->
  int_of_str (str_of_Z z) = Some z.
Proof.
  intro Hlen.
  pose proof (str_of_Z_chars_written z) as Hw.
  destruct (str_of_Z_written z) as (d & Hd & Hv & E).
  unfold int_of_str.
  rewrite (written_drop_int_space _ Hw),
    (written_drop_int_space _ (written_rev _ Hw)), rev_involutive.
  rewrite <- chars_length, E in Hlen. rewrite E.
  rewrite List.length_app, uint_chars_length in Hlen.
  destruct (z <? 0)%Z eqn:Hz.
  - cbn [app]. change (Ascii.eqb "-"%char "+"%char || Ascii.eqb "-"%char "-"%char) with true.
    cbv zeta iota.
    rewrite uint_digits_value by (left; exact Hd).
    rewrite Hv. cbn [length] in Hlen.
    replace (0 + Decimal.nb_digits d <=? int_max_str_digits)%nat with true
      by (symmetry; apply Nat.leb_le; lia).
    change (Ascii.eqb "-"%char "-"%char) with true. cbv iota.
    f_equal. apply Z.ltb_lt in Hz. lia.
  - cbn [app].
    destruct (chars (NilEmpty.string_of_uint d)) as [|c l] eqn:Ec.
    + destruct d; try discriminate Ec. contradiction.
    + assert (Hc : is_digit c = true).
      { pose proof (uint_chars_digits d) as Hdig. rewrite Ec in Hdig.
        inversion Hdig; assumption. }
      assert (Hs : Ascii.eqb c "+"%char || Ascii.eqb c "-"%char = false).
      { destruct c as [[] [] [] [] [] [] [] []]; try discriminate Hc;
          reflexivity. }
      assert (Hm : Ascii.eqb c "-"%char = false).
      { apply orb_false_elim in Hs. apply (proj2 Hs). }
      cbv zeta. rewrite Hs, Hm. rewrite <- Ec.
      rewrite uint_digits_value by (left; exact Hd).
      rewrite Hv. cbn [length] in Hlen.
      replace (0 + Decimal.nb_digits d <=? int_max_str_digits)%nat with true
        by (symmetry; apply Nat.leb_le; lia).
      f_equal. apply Z.ltb_ge in Hz. lia.
Qed.

(** X19.  [_extract_line_number] reads back the line of a location
    [line <number>], the form the signature validator writes, as long as
    the number is written with no more characters than [int] accepts
    digits. *)
Theorem line_location_read_back (z : Z) :
  (String.length (str_of_Z z) <= int_max_str_digits)%nat ->
  Reporting._extract_line_number ("line " ++ str_of_Z z) = z.
Proof.
  intro Hlen.
  rewrite <- (text_chars ("line " ++ str_of_Z z)), chars_app.
  rewrite (extract_after_line _ (str_of_Z_chars_written z)
             (str_of_Z_not_empty z)).
  rewrite text_chars, (int_of_str_of_Z z Hlen). reflexivity.
Qed.

(** X20.  A location [Line <number>] with a capital L, the form the
    knowledge-graph validator writes, gives line 1 whatever the number:
    the search for [line] is case-sensitive and there is no colon. *)
Theorem capital_line_location_reads_one (z : Z) :
  Reporting._extract_line_number ("Line " ++ str_of_Z z) = 1%Z.
Proof.
  rewrite <- (text_chars ("Line " ++ str_of_Z z)), chars_app.
  apply extract_after_capital, str_of_Z_chars_written.
Qed.

End WrittenNumbers.

(* ================================================================== *)
(** ** The theorems about reports at concrete inputs *)
(* ================================================================== *)

(** The statistics of a report with an INFO and a HIGH detection. *)
Lemma statistics_leave_info_out_witness :
  exists stats,
    Reporting._calculate_statistics ReportSamples.one_table_report
    = Reporting.Returns stats
    /\ Py.dict_get stats "total_detections" = Some 2%Z
    /\ Py.dict_get stats "high_issues" = Some 1%Z
    /\ Py.dict_get stats "info_issues" = None.
Proof.
  eexists. split; [reflexivity|].
  destruct (statistics_leave_info_out ReportSamples.one_table_report _ eq_refl)
    as (critical & high & medium & low & _ & _ & _ & _ & _ & Hinfo).
  split; [reflexivity | split; [reflexivity | exact Hinfo]].
Defined.

(** A call of [f] of [range_schema] with a number for [range] and nothing
    for [user_id], in a report that was empty. *)
Lemma rpc_only_report_confidence_witness :
  Confidence.detections (Confidence.report_of []) = []
  /\ (5 # 8
      <= Confidence._calculate_overall_confidence
           (@Reporting._validate_rpc_parameters Scenarios.plain_builtins
              Reporting.SameClass (Rpc.new_validator Scenarios.range_schema)
              "f" 3%Z (Some [("range", Py.VInt 5)])
              (Confidence.report_of []))
      <= 21 # 32)%Q.
Proof.
  split; [reflexivity|].
  exact (@rpc_only_report_confidence Scenarios.plain_builtins
           Reporting.SameClass (Rpc.new_validator Scenarios.range_schema)
           "f" 3%Z (Some [("range", Py.VInt 5)]) (Confidence.report_of [])
           eq_refl).
Defined.

(** Line 42. *)
Lemma line_location_read_back_witness :
  (String.length (Py.str_of_Z 42) <= Py.int_max_str_digits)%nat
  /\ Reporting._extract_line_number ("line " ++ Py.str_of_Z 42) = 42%Z.
Proof.
  assert (Hlen : (String.length (Py.str_of_Z 42)
                  <= Py.int_max_str_digits)%nat)
    by (apply Nat.leb_le; reflexivity).
  split; [exact Hlen|].
  exact (line_location_read_back 42%Z Hlen).
Defined.

(** The source [const = ;], which the parser rejects. *)
Lemma unparsed_file_report_witness :
  String.eqb (Py.strip Scenarios.invalid_source) "" = false
  /\ @TsAnalyzer._parse_with_esprima Scenarios.rejecting_services
       Scenarios.invalid_source = None
  /\ Confidence.detections
       (@Reporting.validate_script Scenarios.rejecting_services
          ReportSamples.quiet_pipeline "src/App.tsx"
          (TsAnalyzer.Utf8 Scenarios.invalid_source))
     = [Reporting.failure "Could not parse TypeScript/JavaScript file"
          "src/App.tsx"].
Proof.
  split; [reflexivity | split; [reflexivity|]].
  exact (proj1 (@unparsed_file_report Scenarios.rejecting_services
                  ReportSamples.quiet_pipeline "src/App.tsx"
                  Scenarios.invalid_source eq_refl eq_refl)).
Defined.

(* ================================================================== *)
(** ** What the tree walkers record *)
(* ================================================================== *)

Section WalkFacts.
Import Py PyText PyCase Reporting TsWalkers.

Lemma returned_bind {A B : Type} (P : B -> Prop) (r : raising A)
    (k : A -> raising B) :
  (forall a, r = Returns a -> returned P (k a)) ->
  returned P (bind r k).
Proof. destruct r as [a|e]; simpl; auto. Qed.

Lemma of_raising_Forall {R : Type} (P : R -> Prop) (r : raising (list R)) :
  returned (Forall P) r -> Forall P (fst (of_raising r)).
Proof. destruct r; simpl; auto. Qed.

Lemma each_Forall {A R : Type} (P : R -> Prop)
    (body : A -> list R * option string) (l : list A) :
  Forall (fun a => Forall P (fst (body a))) l ->
  Forall P (fst (each body l)).
Proof.
  induction 1 as [|a l Ha _ IH]; simpl; [constructor|].
  destruct (body a) as [found [e|]]; simpl in *; [exact Ha|].
  destruct (each body l) as [found' e']. simpl in *.
  apply Forall_app. split; assumption.
Qed.

(** What the visits append, the walk appends. *)
Lemma walk_ast_Forall {R : Type} (P : R -> Prop)
    (visit : dict value -> list R * option string) :
  (forall node, Forall P (fst (visit node))) ->
  forall ast, Forall P (fst (walk_ast visit ast)).
Proof.
  intro Hvisit.
  fix IH 1. intros [ | b | z | q | s | items | items]; try constructor.
  - change (Forall P (fst (each (walk_ast visit) items))).
    apply each_Forall.
    induction items as [|item items IHitems]; constructor;
      [apply IH | exact IHitems].
  - cbn [walk_ast]. pose proof (Hvisit items) as Hv.
    destruct (visit items) as [found [e|]]; [exact Hv|].
    match goal with
    | |- context [each ?f items] =>
        assert (Hc : Forall P (fst (each f items)));
        [ apply each_Forall | destruct (each f items) as [found' e'] ]
    end.
    + clear Hv. induction items as [|[k child] items IHitems];
        constructor; [|exact IHitems].
      pose proof (IH child) as Hchild.
      destruct child; try constructor; exact Hchild.
    + simpl in *. apply Forall_app. split; assumption.
Qed.

(** *** The order of the walk *)

Lemma each_reached {A R : Type} (body : A -> list R * option string)
    (all : A -> list R) (l : list A) :
  Forall (fun a => reached (all a) (body a)) l ->
  reached (flat_map all l) (each body l).
Proof.
  induction 1 as [|a l Ha _ IH].
  - exists []. split; reflexivity.
  - cbn [each flat_map]. destruct Ha as (rest & Hall & Hrest).
    destruct (body a) as [found [e|]]; cbn [fst snd] in *.
    + exists (rest ++ flat_map all l)%list. split; [|discriminate].
      rewrite Hall, <- List.app_assoc. reflexivity.
    + rewrite (Hrest eq_refl), List.app_nil_r in Hall.
      destruct IH as (rest' & Hall' & Hrest').
      destruct (each body l) as [found' e']. cbn [fst snd] in *.
      exists rest'. split; [|exact Hrest'].
      cbn [fst]. rewrite Hall, Hall', List.app_assoc. reflexivity.
Qed.

Lemma flat_map_flat_map {A B C : Type} (f : B -> list C) (g : A -> list B)
    (l : list A) :
  flat_map f (flat_map g l) = flat_map (fun a => flat_map f (g a)) l.
Proof.
  induction l as [|a l IH]; simpl; [reflexivity|].
  rewrite flat_map_app, IH. reflexivity.
Qed.

Lemma walk_ast_reached {R : Type}
    (visit : dict value -> list R * option string) :
  forall ast, reached (visited visit ast) (walk_ast visit ast).
Proof.
  fix IH 1. intros [ | b | z | q | s | items | items];
    try (exists []; split; reflexivity).
  - change (reached (flat_map (fun node => fst (visit node))
                       (flat_map dicts_of items))
              (each (walk_ast visit) items)).
    rewrite flat_map_flat_map.
    apply each_reached.
    induction items as [|item items IHitems]; constructor;
      [apply IH | exact IHitems].
  - unfold visited. cbn [walk_ast dicts_of flat_map].
    destruct (visit items) as [found [e|]] eqn:Ev; cbn [fst].
    + eexists. split; [reflexivity | discriminate].
    + match goal with
      | |- context [each ?f items] =>
          assert (Hc : reached
                         (flat_map (fun kv : string * value =>
                                      visited visit (snd kv)) items)
                         (each f items));
          [ apply each_reached | destruct (each f items) as [found' e'] ]
      end.
      * clear Ev. induction items as [|[k child] items IHitems];
          constructor; [|exact IHitems].
        pose proof (IH child) as Hchild. cbn [snd].
        destruct child; try exact Hchild; exists []; split; reflexivity.
      * destruct Hc as (rest & Hall & Hrest). cbn [fst snd] in *.
        exists rest. split; [|exact Hrest].
        cbn [fst]. rewrite <- List.app_assoc, <- Hall.
        f_equal. unfold visited.
        rewrite flat_map_flat_map.
        apply flat_map_ext. intros [k child]. reflexivity.
Qed.

(** *** Hooks *)

Lemma react_hooks_start_with_use (s : string) :
  str_in s react_hooks = true -> startswith s "use" = true.
Proof.
  unfold str_in, react_hooks. cbn [existsb]. intro H.
  repeat (apply orb_true_iff in H; destruct H as [H|H];
          [apply String.eqb_eq in H; subst s; reflexivity|]).
  discriminate H.
Qed.

Lemma names_a_hook_true (name : value) :
  names_a_hook name = Returns true ->
  exists s, name = VStr s /\ startswith s "use" = true.
Proof.
  destruct name as [ | b | z | q | s | l | d]; try discriminate.
  cbn [names_a_hook]. intro H. exists s. split; [reflexivity|].
  assert (Hor : str_in s react_hooks || startswith s "use" = true)
    by congruence.
  apply orb_true_iff in Hor. destruct Hor as [Hin|Hs]; [|exact Hs].
  apply react_hooks_start_with_use, Hin.
Qed.

Lemma hook_visit_names `{Builtins} (node : dict value) :
  returned (Forall (fun h => exists s, hook_name h = VStr s
                                       /\ startswith s "use" = true))
           (hook_visit node).
Proof.
  unfold hook_visit.
  destruct (is_text (dict_or node "type" VNone) "CallExpression");
    [|constructor].
  apply returned_bind. intros callee_type _.
  destruct (is_text callee_type "Identifier"); [|constructor].
  apply returned_bind. intros name _.
  apply returned_bind. intros [|] Hhook; [|constructor].
  apply returned_bind. intros line_num _.
  apply returned_bind. intros args _.
  constructor; [|constructor].
  exact (names_a_hook_true name Hhook).
Qed.

(** *** Components *)

Lemma upper_not_lower (c : ascii) : is_upper c = true -> is_lower c = false.
Proof.
  destruct c as [[] [] [] [] [] [] [] []]; intro H;
    try discriminate H; reflexivity.
Qed.

Lemma isupper_one (c : ascii) : isupper (String c "") = is_upper c.
Proof.
  unfold isupper. cbn [chars list_ascii_of_string existsb].
  rewrite !orb_false_r.
  destruct (is_upper c) eqn:E.
  - rewrite (upper_not_lower c E). reflexivity.
  - apply andb_false_r.
Qed.

Lemma _is_component_name_true (name : value) :
  _is_component_name name = Returns true -> capitalised name.
Proof.
  unfold _is_component_name.
  destruct (negb (truthy name)); [discriminate|].
  destruct name as [ | b | z | q | s | l | d]; try discriminate.
  - cbn [first_item]. destruct (chars s) as [|c rest] eqn:Es;
      [discriminate|].
    cbn [bind isupper_of]. rewrite isupper_one.
    destruct (is_upper c) eqn:Ec; [|discriminate].
    cbn [isidentifier_of]. intro Hid.
    exists s, c, rest. repeat split; congruence.
  - cbn [first_item]. destruct l as [|x l]; [discriminate|].
    cbn [bind]. destruct x; try discriminate.
    cbn [isupper_of]. destruct (isupper s); discriminate.
Qed.

Lemma component_as_recorded (name : value) (type : string)
    (props : list value) (line : value) :
  In type ["function"; "arrow"; "class"] -> capitalised name ->
  as_recorded (component name type props line).
Proof. intros Ht Hn. repeat split; assumption. Qed.

Lemma function_component_shape (node : dict value) :
  returned (Forall as_recorded) (function_component node).
Proof.
  unfold function_component.
  apply returned_bind. intros [|] Hname; [|constructor].
  apply returned_bind. intros props _.
  constructor; [|constructor].
  apply component_as_recorded; [simpl; auto|].
  exact (_is_component_name_true _ Hname).
Qed.

Lemma class_component_shape (node : dict value) :
  returned (Forall as_recorded) (class_component node).
Proof.
  unfold class_component.
  apply returned_bind. intros [|] Hname; [|constructor].
  constructor; [|constructor].
  apply component_as_recorded; [simpl; auto|].
  exact (_is_component_name_true _ Hname).
Qed.

Lemma arrow_component_shape (node : dict value) (declarator : value) :
  returned (Forall as_recorded) (arrow_component node declarator).
Proof.
  unfold arrow_component.
  destruct declarator as [ | | | | | |d]; try constructor.
  destruct (dict_or d "init" (VDict [])) as [ | | | | | |init_node];
    try constructor.
  destruct (is_text (dict_or init_node "type" VNone)
              "ArrowFunctionExpression"); [|constructor].
  apply returned_bind. intros [|] Hname; [|constructor].
  apply returned_bind. intros props _.
  constructor; [|constructor].
  apply component_as_recorded; [simpl; auto|].
  exact (_is_component_name_true _ Hname).
Qed.

Lemma component_visit_shape (node : dict value) :
  Forall as_recorded (fst (component_visit node)).
Proof.
  unfold component_visit.
  destruct (is_text (dict_or node "type" VNone) "FunctionDeclaration").
  { apply of_raising_Forall, function_component_shape. }
  destruct (is_text (dict_or node "type" VNone) "VariableDeclaration").
  { destruct (iterate (dict_or node "declarations" (VList [])))
      as [declarators|e]; [|constructor].
    apply each_Forall, Forall_forall. intros declarator _.
    apply of_raising_Forall, arrow_component_shape. }
  destruct (is_text (dict_or node "type" VNone) "ClassDeclaration").
  { apply of_raising_Forall, class_component_shape. }
  constructor.
Qed.

Lemma extracted_components_shape (ast : value) :
  Forall as_recorded (fst (_extract_components ast)).
Proof. apply walk_ast_Forall, component_visit_shape. Qed.

Lemma extracted_hooks_names `{Builtins} (ast : value) :
  Forall (fun h => exists s, hook_name h = VStr s
                             /\ startswith s "use" = true)
         (fst (_extract_hooks ast)).
Proof.
  apply walk_ast_Forall. intro node.
  apply of_raising_Forall, hook_visit_names.
Qed.

(** X22.  Every hook call [_extract_hooks] records, on any tree and whether
    or not the walk ends with an exception, has a name that is a string
    starting with [use]: the names of [react_hooks] all do, so the set adds
    nothing to the test. *)
Theorem recorded_hooks_start_with_use `{Builtins} (ast : value) :
  Forall (fun h => exists s, hook_name h = VStr s
                             /\ startswith s "use" = true)
         (fst (_extract_hooks ast)).
Proof. exact (extracted_hooks_names ast). Qed.

(** X23.  Every component [_extract_components] records, on any tree, is
    marked as not exported and has an empty list of hooks; its type is
    [function], [arrow] or [class], and its name is a string that starts
    with an upper-case letter and is an identifier. *)
Theorem recorded_components_never_exported (ast : value) :
  Forall (fun c =>
            is_exported c = false /\ hooks c = []
            /\ In (type c) ["function"; "arrow"; "class"]
            /\ exists s first rest,
                 name c = VStr s /\ chars s = first :: rest
                 /\ is_upper first = true /\ isidentifier s = true)
         (fst (_extract_components ast)).
Proof. exact (extracted_components_shape ast). Qed.

(** X24.  A walk appends what the visits of the dicts of the tree append,
    each dict before the dicts inside it and in the order of keys and
    items: all of it when the walk does not raise, and a first part of it
    when it does. *)
Theorem walk_visits_dicts_in_order {R : Type}
    (visit : dict value -> list R * option string) (ast : value) :
  exists rest,
    flat_map (fun node => fst (visit node)) (dicts_of ast)
    = (fst (walk_ast visit ast) ++ rest)%list
    /\ (snd (walk_ast visit ast) = None -> rest = []).
Proof. exact (walk_ast_reached visit ast). Qed.

End WalkFacts.

Section CheckFacts.
Import Py PyText PyCase Reporting TsWalkers ReactChecks.
Context `{Builtins}.

Lemma for_each_returns {A : Type} (body : A -> raising (list Detection))
    (found : A -> list Detection) (l : list A) :
  Forall (fun a => body a = Returns (found a)) l ->
  for_each body l = (flat_map found l, None).
Proof.
  unfold for_each.
  induction 1 as [|a l Ha _ IH]; [reflexivity|].
  cbn [each flat_map]. rewrite Ha. cbn [of_raising]. rewrite IH.
  reflexivity.
Qed.

Lemma capitalised_first (v : value) :
  capitalised v ->
  bind (first_item v) isupper_of = Returns true.
Proof.
  intros (s & c & rest & -> & Hs & Hc & _).
  cbn [first_item]. rewrite Hs. cbn [bind isupper_of].
  rewrite isupper_one, Hc. reflexivity.
Qed.

Lemma component_check_passes (c : ComponentInfo) :
  as_recorded c -> component_check c = Returns [].
Proof.
  intros (_ & Hh & _ & Hn). unfold component_check.
  pose proof (capitalised_first _ Hn) as Hf.
  destruct (first_item (name c)) as [first|e]; [|discriminate Hf].
  cbn [bind] in *. rewrite Hf. cbn [bind negb].
  rewrite Hh, andb_false_r. reflexivity.
Qed.

Lemma export_check_fires (c : ComponentInfo) :
  as_recorded c -> export_check c = Returns [not_exported_detection c].
Proof.
  intros (_ & _ & _ & Hn). unfold export_check.
  pose proof (capitalised_first _ Hn) as Hf.
  destruct (first_item (name c)) as [first|e]; [|discriminate Hf].
  cbn [bind] in *. rewrite Hf. reflexivity.
Qed.

Lemma flat_map_singleton {A B : Type} (f : A -> B) (l : list A) :
  flat_map (fun a => [f a]) l = map f l.
Proof. induction l; simpl; congruence. Qed.

Lemma flat_map_nothing {A B : Type} (l : list A) :
  flat_map (fun _ : A => @nil B) l = [].
Proof. induction l; simpl; auto. Qed.

(** X25.  On the components that [_extract_components] recorded,
    [_validate_react_components] appends no detection and does not raise:
    neither the naming check nor the check of hooks in class components can
    fire. *)
Theorem component_checks_never_fire (ast : value)
    (analysis : AnalysisResult) :
  components analysis = fst (_extract_components ast) ->
  _validate_react_components analysis = ([], None).
Proof.
  intro Hc. unfold _validate_react_components.
  rewrite (for_each_returns component_check (fun _ => [])).
  - rewrite flat_map_nothing. reflexivity.
  - rewrite Hc. eapply Forall_impl; [|apply extracted_components_shape].
    intros c. apply component_check_passes.
Qed.

(** X26.  On the components that [_extract_components] recorded, and with
    import names that can be hashed, [_detect_bad_practices] appends one
    [is not exported] detection for every component, in order, followed by
    the detections about too many props; it does not raise. *)
Theorem every_component_reported_unexported (ast : value)
    (analysis : AnalysisResult) (names : list value) :
  components analysis = fst (_extract_components ast) ->
  imported_names (imports analysis) = Returns names ->
  _detect_bad_practices analysis
  = ((map not_exported_detection (components analysis)
      ++ flat_map props_check (components analysis))%list, None).
Proof.
  intros Hc Hn. unfold _detect_bad_practices. rewrite Hn.
  pose proof (extracted_components_shape ast) as Hshape.
  rewrite <- Hc in Hshape.
  rewrite filter_all.
  - rewrite (for_each_returns export_check
               (fun c => [not_exported_detection c])).
    + rewrite flat_map_singleton. reflexivity.
    + eapply Forall_impl; [|exact Hshape].
      intros c. apply export_check_fires.
  - intros c Hin. rewrite Forall_forall in Hshape.
    destruct (Hshape c Hin) as (He & _). rewrite He. reflexivity.
Qed.

Lemma lower_not_upper (c : ascii) : is_lower c = true -> is_upper c = false.
Proof.
  destruct c as [[] [] [] [] [] [] [] []]; intro Hc;
    try discriminate Hc; reflexivity.
Qed.

Lemma islower_one (c : ascii) : islower (String c "") = is_lower c.
Proof.
  unfold islower. cbn [chars list_ascii_of_string existsb].
  rewrite !orb_false_r.
  destruct (is_lower c) eqn:E.
  - rewrite (lower_not_upper c E). reflexivity.
  - apply andb_false_r.
Qed.

(** The detections of one hook call, when its check does not raise. *)
Lemma hook_check_returns (h : HookCall) (s : string) :
  hook_name h = VStr s ->
  exists found,
    hook_check h = Returns found
    /\ forall c,
         dict_get known_hooks s = None -> startswith s "use" = true ->
         nth_error (chars s) 3 = Some c -> is_lower c = true ->
         found = [misnamed_detection h s].
Proof.
  intro Hn. unfold hook_check. rewrite Hn.
  destruct (dict_get known_hooks s) as [expected|].
  { eexists. split; [reflexivity|]. discriminate. }
  destruct (nth_error (chars s) 3) as [c|] eqn:Ec.
  - assert (Hlen : (3 <? String.length s)%nat = true).
    { apply Nat.ltb_lt. rewrite <- chars_length.
      apply nth_error_Some. congruence. }
    rewrite Hlen, andb_true_r.
    destruct (startswith s "use").
    + eexists. split; [reflexivity|].
      intros c' _ _ Hc' Hlow. injection Hc' as <-.
      rewrite islower_one, Hlow. reflexivity.
    + eexists. split; [reflexivity|]. discriminate.
  - assert (Hlen : (3 <? String.length s)%nat = false).
    { apply Nat.ltb_ge. rewrite <- chars_length.
      apply nth_error_None. exact Ec. }
    rewrite Hlen, andb_false_r.
    eexists. split; [reflexivity|]. discriminate.
Qed.

(** X27.  On the hook calls that [_extract_hooks] recorded,
    [_validate_react_hooks] does not raise, and every call whose name is
    not in the table of the known hooks and has a lower-case letter after
    [use], as a call of a function named [user] has, gets the detection
    about a custom hook with a wrong name. *)
Theorem lower_case_after_use_is_reported (ast : value)
    (analysis : AnalysisResult) :
  hook_calls analysis = fst (_extract_hooks ast) ->
  snd (_validate_react_hooks analysis) = None
  /\ Forall (fun h =>
               forall s c,
                 hook_name h = VStr s -> dict_get known_hooks s = None ->
                 nth_error (chars s) 3 = Some c -> is_lower c = true ->
                 In (misnamed_detection h s)
                    (fst (_validate_react_hooks analysis)))
            (hook_calls analysis).
Proof.
  intro Hh. unfold _validate_react_hooks.
  pose proof (extracted_hooks_names ast) as Hnames. rewrite <- Hh in Hnames.
  set (found := fun h => match hook_check h with
                         | Returns l => l
                         | Raises _ => []
                         end).
  rewrite (for_each_returns hook_check found).
  - split; [reflexivity|].
    apply Forall_forall. intros h Hin s c Hn Hk Hc Hlow. cbn [fst].
    apply in_flat_map. exists h. split; [exact Hin|].
    rewrite Forall_forall in Hnames.
    destruct (Hnames h Hin) as (s' & Hn' & Huse).
    assert (s' = s) by congruence. subst s'.
    destruct (hook_check_returns h s Hn) as (l & Hl & Hmis).
    unfold found. rewrite Hl, (Hmis c Hk Huse Hc Hlow). left. reflexivity.
  - eapply Forall_impl; [|exact Hnames].
    intros h (s & Hn & _).
    destruct (hook_check_returns h s Hn) as (l & Hl & _).
    unfold found. rewrite Hl. reflexivity.
Qed.

End CheckFacts.

(* ================================================================== *)
(** ** The theorems about the walkers at a concrete tree *)
(* ================================================================== *)

(** The component [App] of [exported_app], which the source exports. *)
Lemma component_checks_never_fire_witness :
  TsWalkers.components TreeSamples.exported_app_analysis
  = fst (TsWalkers._extract_components TreeSamples.exported_app)
  /\ @ReactChecks._validate_react_components Scenarios.plain_builtins
       TreeSamples.exported_app_analysis = ([], None).
Proof.
  split; [reflexivity|].
  exact (@component_checks_never_fire Scenarios.plain_builtins
           TreeSamples.exported_app TreeSamples.exported_app_analysis
           eq_refl).
Defined.

(** [App] is reported as not exported. *)
Lemma every_component_reported_unexported_witness :
  TsWalkers.components TreeSamples.exported_app_analysis
  = fst (TsWalkers._extract_components TreeSamples.exported_app)
  /\ ReactChecks.imported_names
       (TsWalkers.imports TreeSamples.exported_app_analysis) = Reporting.Returns []
  /\ @ReactChecks._detect_bad_practices Scenarios.plain_builtins
       TreeSamples.exported_app_analysis
     = ([@ReactChecks.not_exported_detection Scenarios.plain_builtins
           (TsWalkers.component (Py.VStr "App") "function"
              [Py.VStr "props"] (Py.VInt 1))], None).
Proof.
  split; [reflexivity | split; [reflexivity|]].
  exact (@every_component_reported_unexported Scenarios.plain_builtins
           TreeSamples.exported_app TreeSamples.exported_app_analysis []
           eq_refl eq_refl).
Defined.

(** The call [user(n)] is reported as a hook with a wrong name. *)
Lemma lower_case_after_use_is_reported_witness :
  TsWalkers.hook_calls TreeSamples.exported_app_analysis
  = fst (@TsWalkers._extract_hooks Scenarios.plain_builtins
           TreeSamples.exported_app)
  /\ In (@ReactChecks.misnamed_detection Scenarios.plain_builtins
           TreeSamples.user_call "user")
        (fst (@ReactChecks._validate_react_hooks Scenarios.plain_builtins
                TreeSamples.exported_app_analysis)).
Proof.
  split; [reflexivity|].
  assert (Hin : In TreeSamples.user_call
                   (TsWalkers.hook_calls TreeSamples.exported_app_analysis))
    by (right; left; reflexivity).
  exact (proj1 (Forall_forall _ _)
           (proj2 (@lower_case_after_use_is_reported
                     Scenarios.plain_builtins TreeSamples.exported_app
                     TreeSamples.exported_app_analysis eq_refl))
           TreeSamples.user_call Hin "user" "r"%char
           eq_refl eq_refl eq_refl eq_refl).
Defined.
